(** * pf-web3-cosmos: the ledger core, embedded and verified

    A shallow embedding of [src/blockchain] (Block, Transaction, Blockchain),
    of [utils/crypto.js]'s [calculateHash] and of the transaction handler of
    [network/p2pNode.js].

    Conventions of the embedding
    - JavaScript numbers holding counters, heights, timestamps and coin
      amounts are integers ([Z]); [difficulty] is a count of leading zeros
      (JSDoc of [mineBlock]: the number of leading 0s) and is a [nat].
    - JavaScript strings are [string]s (the UTF-8 bytes of the text);
      [null] is [None].
    - [Date.now()] and [uuidv4()] are inputs of the functions that call them.
    - The digest, Merkle-tree and signature libraries are external
      capabilities: the development is parametric in them (class [Crypto]),
      and an executable instance with SHA-256 is given for concrete runs.
    - [throw] is an abrupt completion carrying the state reached so far;
      [emit] and network sends are recorded in traces. *)

From Stdlib Require Import ZArith List String Ascii Bool Lia DecimalString.
From Stdlib Require Import DecimalNat.
Import ListNotations.
#[local] Set Warnings "-abstract-large-number".
Open Scope string_scope.
Open Scope Z_scope.

Set Implicit Arguments.

(** ** JavaScript primitives used by the sources *)

Module JS.

(** [s.repeat(n)] *)
Fixpoint repeat (s : string) (n : nat) : string :=
  match n with
  | O => ""
  | S k => s ++ repeat s k
  end.

(** [s.substring(0, n)]: the first [n] characters, fewer when [s] is
    shorter. *)
Definition substring0 (n : nat) (s : string) : string :=
  String.substring 0 n s.

(** [s.startsWith(p)] *)
Definition startsWith (s p : string) : bool := String.prefix p s.

(** [!v] for a value that is a string or [null]: [null] and the empty
    string are falsy. *)
Definition falsy (v : option string) : bool :=
  match v with
  | None => true
  | Some s => String.eqb s ""
  end.

(** [a === b] on values that are strings or [null]. *)
Definition strictEq (a b : option string) : bool :=
  match a, b with
  | None, None => true
  | Some x, Some y => String.eqb x y
  | _, _ => false
  end.

(** Exceptions raised by the modelled code. *)
Inductive exn : Type :=
| Error (message : string)      (* [throw new Error(message)] *)
| TypeError (what : string)     (* property access on [undefined] *)
| ReferenceError (name : string). (* an identifier the module does not bind *)

(** Values found in the flat objects handed to [JSON.stringify]. *)
Inductive value : Type :=
| Num (z : Z)
| Str (s : string)
| Null.

Definition hexdigit (n : nat) : ascii :=
  match n with
  | 0 => "0" | 1 => "1" | 2 => "2" | 3 => "3" | 4 => "4" | 5 => "5"
  | 6 => "6" | 7 => "7" | 8 => "8" | 9 => "9" | 10 => "a" | 11 => "b"
  | 12 => "c" | 13 => "d" | 14 => "e" | _ => "f"
  end%nat%char.

Definition dquote : ascii := ascii_of_nat 34.
Definition backslash : ascii := ascii_of_nat 92.

(** JSON escaping of one character: quote, backslash and the control
    characters are escaped, everything else is copied. *)
Definition escape (c : ascii) : string :=
  let n := nat_of_ascii c in
  if (n =? 34)%nat then String backslash (String dquote "")
  else if (n =? 92)%nat then String backslash (String backslash "")
  else if (n =? 8)%nat then "\b"
  else if (n =? 12)%nat then "\f"
  else if (n =? 10)%nat then "\n"
  else if (n =? 13)%nat then "\r"
  else if (n =? 9)%nat then "\t"
  else if (n <? 32)%nat then
    "\u00" ++ String (hexdigit (n / 16)) (String (hexdigit (n mod 16)) "")
  else String c "".

Fixpoint escape_all (s : string) : string :=
  match s with
  | EmptyString => ""
  | String c r => escape c ++ escape_all r
  end.

Definition quote (s : string) : string :=
  String dquote (escape_all s ++ String dquote "").

Definition stringify_value (v : value) : string :=
  match v with
  | Num z => NilEmpty.string_of_int (Z.to_int z)
  | Str s => quote s
  | Null => "null"
  end.

Fixpoint stringify_members (fields : list (string * value)) : string :=
  match fields with
  | [] => ""
  | [(k, v)] => quote k ++ ":" ++ stringify_value v
  | (k, v) :: rest =>
      quote k ++ ":" ++ stringify_value v ++ "," ++ stringify_members rest
  end.

(** [JSON.stringify(obj)] for a flat object, members in insertion order. *)
Definition stringify (fields : list (string * value)) : string :=
  "{" ++ stringify_members fields ++ "}".

Definition of_nullable (v : option string) : value :=
  match v with
  | None => Null
  | Some s => Str s
  end.

End JS.

(** ** The external cryptographic capability *)

Class Crypto : Type := {
  (** [sha256(Buffer.from(content)).toString('hex')] of [@cosmjs/crypto];
      the digest is a [Uint8Array], whose [toString] takes no argument *)
  sha256_toString : string -> string;
  (** [SHA256(text)] of [crypto-js], a digest *)
  SHA256 : string -> string;
  (** [new MerkleTree(leaves, SHA256).getRoot().toString('hex')] *)
  MerkleTree_root_hex : list string -> string
}.

Class Ecdsa : Type := {
  (** [verifySignature(data, signature, publicKey)] of [utils/crypto.js] *)
  verifySignature : string -> string -> string -> bool
}.

(** [calculateHash(data)] of [utils/crypto.js]: strings are hashed as they
    are, objects through [JSON.stringify]. *)
Definition calculateHash `{Crypto}
    (data : string + list (string * JS.value)) : string :=
  let content :=
    match data with
    | inl s => s
    | inr fields => JS.stringify fields
    end in
  sha256_toString content.

(** ** Completions: normal return or [throw], over a mutable state *)

Inductive completion (S A : Type) : Type :=
| Normal (a : A) (s : S)
| Throw (e : JS.exn) (s : S).

Arguments Normal {S A} a s.
Arguments Throw {S A} e s.

Definition M (S A : Type) : Type := S -> completion S A.

Definition ret {S A} (a : A) : M S A := fun s => Normal a s.

Definition bind {S A B} (c : M S A) (k : A -> M S B) : M S B :=
  fun s =>
    match c s with
    | Normal a s' => k a s'
    | Throw e s' => Throw e s'
    end.

Definition throw {S A} (e : JS.exn) : M S A := fun s => Throw e s.

Definition get {S} : M S S := fun s => Normal s s.

Definition modify {S} (f : S -> S) : M S unit := fun s => Normal tt (f s).

(** [if (c) { body }] with no else branch *)
Definition when {S} (c : bool) (body : M S unit) : M S unit :=
  if c then body else ret tt.

Notation "x <- c ;; k" := (bind c (fun x => k))
  (at level 61, c at next level, right associativity).
Notation "c ;;; k" := (bind c (fun _ => k))
  (at level 61, right associativity).

(** The state and the result of a completion, whichever way it ended. *)
Definition final_state {S A} (r : completion S A) : S :=
  match r with
  | Normal _ s => s
  | Throw _ s => s
  end.

Definition returned {S A} (r : completion S A) : option A :=
  match r with
  | Normal a _ => Some a
  | Throw _ _ => None
  end.

(** ** Transaction (blockchain/transaction.js) *)

Module Transaction.

Record t : Type := mk {
  id : string;
  fromAddress : option string;
  toAddress : option string;
  amount : Z;
  timestamp : Z;
  type : string;
  signature : option string
}.

(** The plain object produced by [toJSON] and read by [fromJSON]; [type]
    may be missing in received data. *)
Record json : Type := mk_json {
  json_id : string;
  json_fromAddress : option string;
  json_toAddress : option string;
  json_amount : Z;
  json_timestamp : Z;
  json_type : option string;
  json_signature : option string
}.

(** [new Transaction(fromAddress, toAddress, amount, type = 'regular')];
    [uuid] is the result of [uuidv4()] and [now] of [Date.now()]. *)
Definition constructor (uuid : string) (now : Z)
    (fromAddress toAddress : option string) (amount : Z)
    (type : option string) : t :=
  {| id := uuid;
     fromAddress := fromAddress;
     toAddress := toAddress;
     amount := amount;
     timestamp := now;
     type := match type with Some ty => ty | None => "regular" end;
     signature := None |}.

Definition set_id (v : string) (tx : t) : t :=
  mk v (fromAddress tx) (toAddress tx) (amount tx) (timestamp tx)
     (type tx) (signature tx).
Definition set_timestamp (v : Z) (tx : t) : t :=
  mk (id tx) (fromAddress tx) (toAddress tx) (amount tx) v
     (type tx) (signature tx).
Definition set_signature (v : option string) (tx : t) : t :=
  mk (id tx) (fromAddress tx) (toAddress tx) (amount tx) (timestamp tx)
     (type tx) v.
Definition set_amount (v : Z) (tx : t) : t :=
  mk (id tx) (fromAddress tx) (toAddress tx) v (timestamp tx)
     (type tx) (signature tx).

Section WithCrypto.
Context `{Crypto} `{Ecdsa}.

(** [calculateHash()]: every field but the signature. *)
Definition calculateHash (tx : t) : string :=
  calculateHash (inr
    [ ("id", JS.Str (id tx));
      ("fromAddress", JS.of_nullable (fromAddress tx));
      ("toAddress", JS.of_nullable (toAddress tx));
      ("amount", JS.Num (amount tx));
      ("timestamp", JS.Num (timestamp tx));
      ("type", JS.Str (type tx)) ]).

(** [isValid(publicKey)]: the transaction is not modified, so the
    result is a value or an exception. *)
Definition isValid (tx : t) (publicKey : string) : JS.exn + bool :=
  if String.eqb (type tx) "reward" then inr true
  else if JS.falsy (fromAddress tx) then
    inl (JS.Error "没有发送方地址")
  else
    match signature tx with
    | None => inl (JS.Error "没有找到交易签名")
    | Some sig =>
        if String.eqb sig "" then inl (JS.Error "没有找到交易签名")
        else inr (verifySignature (calculateHash tx) sig publicKey)
    end.
End WithCrypto.

Definition toJSON (tx : t) : json :=
  {| json_id := id tx;
     json_fromAddress := fromAddress tx;
     json_toAddress := toAddress tx;
     json_amount := amount tx;
     json_timestamp := timestamp tx;
     json_type := Some (type tx);
     json_signature := signature tx |}.

(** [Transaction.fromJSON(data)]: a new transaction is constructed (with
    a fresh id and the current time), then [id], [timestamp] and
    [signature] are overwritten from the data. *)
Definition fromJSON (uuid : string) (now : Z) (data : json) : t :=
  let transaction :=
    constructor uuid now (json_fromAddress data) (json_toAddress data)
                (json_amount data) (json_type data) in
  let transaction := set_id (json_id data) transaction in
  let transaction := set_timestamp (json_timestamp data) transaction in
  set_signature (json_signature data) transaction.

End Transaction.

(** ** Block (blockchain/block.js) *)

Module Block.

Record t : Type := mk {
  index : Z;
  timestamp : Z;
  previousHash : string;
  transactions : list Transaction.t;
  difficulty : nat;
  nonce : Z;
  merkleRoot : string;
  hash : string
}.

Record json : Type := mk_json {
  json_index : Z;
  json_timestamp : Z;
  json_previousHash : string;
  json_hash : string;
  json_nonce : Z;
  json_difficulty : nat;
  json_merkleRoot : string;
  json_transactions : list Transaction.json
}.

Definition set_timestamp (v : Z) (b : t) : t :=
  mk (index b) v (previousHash b) (transactions b) (difficulty b)
     (nonce b) (merkleRoot b) (hash b).
Definition set_previousHash (v : string) (b : t) : t :=
  mk (index b) (timestamp b) v (transactions b) (difficulty b)
     (nonce b) (merkleRoot b) (hash b).
Definition set_transactions (v : list Transaction.t) (b : t) : t :=
  mk (index b) (timestamp b) (previousHash b) v (difficulty b)
     (nonce b) (merkleRoot b) (hash b).
Definition set_nonce (v : Z) (b : t) : t :=
  mk (index b) (timestamp b) (previousHash b) (transactions b)
     (difficulty b) v (merkleRoot b) (hash b).
Definition set_merkleRoot (v : string) (b : t) : t :=
  mk (index b) (timestamp b) (previousHash b) (transactions b)
     (difficulty b) (nonce b) v (hash b).
Definition set_hash (v : string) (b : t) : t :=
  mk (index b) (timestamp b) (previousHash b) (transactions b)
     (difficulty b) (nonce b) (merkleRoot b) v.

(** ['0' + '1'.repeat(63)], the hash written into the genesis block and
    into a block whose search ran out of attempts. *)
Definition forcedHash : string := "0" ++ JS.repeat "1" 63.

(** [hash.substring(0, difficulty) !== target] is the negation of this. *)
Definition meetsTarget (difficulty : nat) (hash : string) : bool :=
  String.eqb (JS.substring0 difficulty hash) (JS.repeat "0" difficulty).

Section WithCrypto.
Context `{Crypto}.

Definition calculateHash (b : t) : string :=
  calculateHash (inr
    [ ("index", JS.Num (index b));
      ("previousHash", JS.Str (previousHash b));
      ("timestamp", JS.Num (timestamp b));
      ("merkleRoot", JS.Str (merkleRoot b));
      ("nonce", JS.Num (nonce b));
      ("difficulty", JS.Num (Z.of_nat (difficulty b))) ]).

Definition calculateMerkleRoot (b : t) : string :=
  if (List.length (transactions b) =? 0)%nat then JS.repeat "0" 64
  else
    let leaves :=
      map (fun tx => SHA256 (Transaction.id tx)) (transactions b) in
    MerkleTree_root_hex leaves.

(** [new Block(index, previousHash, transactions, difficulty)]; [now]
    is the result of [Date.now()].  Fields not yet assigned are read by
    neither [calculateMerkleRoot] nor [calculateHash]. *)
Definition constructor (now : Z) (index : Z) (previousHash : string)
    (transactions : list Transaction.t) (difficulty : nat) : t :=
  let this := mk index now previousHash transactions difficulty 0 "" "" in
  let this := set_merkleRoot (calculateMerkleRoot this) this in
  let this := set_hash (calculateHash this) this in
  if index =? 0 then set_hash forcedHash this else this.

(** The [while] loop of [mineBlock]; the recursion is on [maxAttempts],
    the loop's own counter.  Returns the block and the attempts left. *)
Fixpoint mineLoop (target : string) (maxAttempts : nat) (this : t)
    : t * nat :=
  match maxAttempts with
  | O => (this, O)
  | S remaining =>
      if negb (String.eqb (JS.substring0 (difficulty this) (hash this))
                          target)
      then
        let this := set_nonce (nonce this + 1) this in
        let this := set_hash (calculateHash this) this in
        mineLoop target remaining this
      else (this, maxAttempts)
  end.

(** [let maxAttempts = 10000] *)
Definition maxAttempts0 : nat := 10000.

Definition mineBlock (this : t) : t :=
  if index this =? 0 then this
  else
    let target := JS.repeat "0" (difficulty this) in
    let '(this, maxAttempts) := mineLoop target maxAttempts0 this in
    if (maxAttempts <=? 0)%nat then set_hash forcedHash this
    else this.

Definition isValid (this : t) : bool :=
  let target := JS.repeat "0" (difficulty this) in
  if negb (String.eqb (JS.substring0 (difficulty this) (hash this)) target)
  then false
  else if negb (String.eqb (hash this) (calculateHash this)) then false
  else if negb (String.eqb (merkleRoot this) (calculateMerkleRoot this))
  then false
  else true.

(** [Block.fromJSON(data, transactionFromJSON)] *)
Definition fromJSON (now : Z) (data : json)
    (transactionFromJSON : Transaction.json -> Transaction.t) : t :=
  let block :=
    constructor now (json_index data) (json_previousHash data)
                (map transactionFromJSON (json_transactions data))
                (json_difficulty data) in
  let block := set_timestamp (json_timestamp data) block in
  let block := set_nonce (json_nonce data) block in
  let block := set_hash (json_hash data) block in
  set_merkleRoot (json_merkleRoot data) block.
End WithCrypto.

Definition toJSON (this : t) : json :=
  {| json_index := index this;
     json_timestamp := timestamp this;
     json_previousHash := previousHash this;
     json_hash := hash this;
     json_nonce := nonce this;
     json_difficulty := difficulty this;
     json_merkleRoot := merkleRoot this;
     json_transactions := map Transaction.toJSON (transactions this) |}.

End Block.

(** ** Blockchain (blockchain/blockchain.js) *)

Module Blockchain.

(** Events of the [EventEmitter] the class extends. *)
Inductive event : Type :=
| transactionAdded (transaction : Transaction.t)
| blockMined (block : Block.t)
| chainReplaced (chain : list Block.t).

Record t : Type := mk {
  chain : list Block.t;
  difficulty : nat;
  pendingTransactions : list Transaction.t;
  miningReward : Z;
  emitted : list event          (* trace of [this.emit] calls *)
}.

Definition set_chain (v : list Block.t) (this : t) : t :=
  mk v (difficulty this) (pendingTransactions this) (miningReward this)
     (emitted this).
Definition set_difficulty (v : nat) (this : t) : t :=
  mk (chain this) v (pendingTransactions this) (miningReward this)
     (emitted this).
Definition set_pendingTransactions (v : list Transaction.t) (this : t) : t :=
  mk (chain this) (difficulty this) v (miningReward this) (emitted this).

(** [this.emit(name, payload)] *)
Definition emit (e : event) : M t unit :=
  modify (fun this =>
    mk (chain this) (difficulty this) (pendingTransactions this)
       (miningReward this) (emitted this ++ [e])).

(** [this.chain[this.chain.length - 1]], [undefined] on an empty chain *)
Definition getLatestBlock (this : t) : option Block.t :=
  match chain this with
  | [] => None
  | _ :: _ => nth_error (chain this) (List.length (chain this) - 1)
  end.

(** The two nested [for ... of] loops of [getBalanceOfAddress]. *)
Definition getBalanceOfAddress (this : t) (address : option string) : Z :=
  fold_left
    (fun balance block =>
       fold_left
         (fun balance transaction =>
            let balance :=
              if JS.strictEq (Transaction.toAddress transaction) address
              then balance + Transaction.amount transaction
              else balance in
            if JS.strictEq (Transaction.fromAddress transaction) address
            then balance - Transaction.amount transaction
            else balance)
         (Block.transactions block) balance)
    (chain this) 0.

Definition isReward (transaction : Transaction.t) : bool :=
  String.eqb (Transaction.type transaction) "reward".

Definition addTransaction (transaction : Transaction.t) : M t Z :=
  when (JS.falsy (Transaction.fromAddress transaction)
        && negb (isReward transaction))
    (throw (JS.Error "交易必须有发送方地址或是挖矿奖励")) ;;;
  when (JS.falsy (Transaction.toAddress transaction))
    (throw (JS.Error "交易必须有接收方地址")) ;;;
  when (Transaction.amount transaction <=? 0)
    (throw (JS.Error "交易金额必须大于0")) ;;;
  when (negb (JS.falsy (Transaction.fromAddress transaction))
        && negb (isReward transaction))
    (this <- get ;;
     let balance :=
       getBalanceOfAddress this (Transaction.fromAddress transaction) in
     when (balance <? Transaction.amount transaction)
       (throw (JS.Error "余额不足"))) ;;;
  modify (fun this =>
    set_pendingTransactions (pendingTransactions this ++ [transaction])
                            this) ;;;
  emit (transactionAdded transaction) ;;;
  this <- get ;;
  match getLatestBlock this with
  | None => throw (JS.TypeError "getLatestBlock().index")
  | Some latest => ret (Block.index latest + 1)
  end.

(** The loop body of [isValidChain] for the blocks after [previousBlock];
    it involves no hashing. *)
Fixpoint isValidChain_from (previousBlock : Block.t)
    (rest : list Block.t) : bool :=
  match rest with
  | [] => true
  | block :: rest' =>
      if negb (JS.startsWith (Block.hash block)
                             (JS.repeat "0" (Block.difficulty block)))
      then false
      else if negb (String.eqb (Block.previousHash block)
                               (Block.hash previousBlock))
      then false
      else isValidChain_from block rest'
  end.

(** [isValidChain(chain)]: [chain[0]] is [undefined] on an empty array
    and reading its [index] throws. *)
Definition isValidChain (chain : list Block.t) : JS.exn + bool :=
  match chain with
  | [] => inl (JS.TypeError "chain[0].index")
  | genesisBlock :: rest =>
      if negb (Block.index genesisBlock =? 0)
         || negb (JS.startsWith (Block.hash genesisBlock) "0")
      then inr false
      else inr (isValidChain_from genesisBlock rest)
  end.

(** [replaceChain(newChain)].  The assignment [this.chain = newChain]
    stores the caller's array itself; the properties below concern the
    state at return, before any later write by the caller. *)
Definition replaceChain (newChain : list Block.t) : M t bool :=
  this <- get ;;
  if (List.length newChain <=? List.length (chain this))%nat then ret false
  else
    match isValidChain newChain with
    | inl e => throw e
    | inr valid =>
        if negb valid then ret false
        else
          modify (set_chain newChain) ;;;
          this <- get ;;
          emit (chainReplaced (chain this)) ;;;
          ret true
    end.

Section WithCrypto.
Context `{Crypto}.

Definition createGenesisBlock (now : Z) : Block.t :=
  Block.constructor now 0 (JS.repeat "0" 64) [] 1.

(** [new Blockchain(difficulty = 2, miningReward = 50)] *)
Definition constructor (now : Z) (difficulty : option nat)
    (miningReward : option Z) : t :=
  {| chain := [createGenesisBlock now];
     difficulty := match difficulty with Some d => d | None => 2%nat end;
     pendingTransactions := [];
     miningReward := match miningReward with Some r => r | None => 50 end;
     emitted := [] |}.

(** [minePendingTransactions(miningRewardAddress)]; [uuid] and [txNow]
    feed the reward transaction, [blockNow] the new block.  The block
    receives the very array that is the mempool at that moment; the
    later assignment [this.pendingTransactions = []] binds the field to
    a new array, so the block's list is never changed through the
    mempool afterwards. *)
Definition minePendingTransactions (uuid : string) (txNow blockNow : Z)
    (miningRewardAddress : option string) : M t Block.t :=
  this <- get ;;
  let rewardTx :=
    Transaction.constructor uuid txNow None miningRewardAddress
                            (miningReward this) (Some "reward") in
  modify (fun this =>
    set_pendingTransactions (pendingTransactions this ++ [rewardTx])
                            this) ;;;
  this <- get ;;
  match getLatestBlock this with
  | None => throw (JS.TypeError "getLatestBlock().index")
  | Some latest =>
      let block :=
        Block.constructor blockNow (Block.index latest + 1)
                          (Block.hash latest) (pendingTransactions this)
                          (difficulty this) in
      let block := Block.mineBlock block in
      modify (fun this => set_chain (chain this ++ [block]) this) ;;;
      modify (set_pendingTransactions []) ;;;
      emit (blockMined block) ;;;
      ret block
  end.

(** The loop body of [isChainValid] for the blocks after
    [previousBlock]. *)
Fixpoint isChainValid_from (previousBlock : Block.t)
    (rest : list Block.t) : bool :=
  match rest with
  | [] => true
  | currentBlock :: rest' =>
      if negb (String.eqb (Block.hash currentBlock)
                          (Block.calculateHash currentBlock))
      then false
      else if negb (String.eqb (Block.previousHash currentBlock)
                               (Block.hash previousBlock))
      then false
      else if negb (String.eqb
                      (JS.substring0 (Block.difficulty currentBlock)
                                     (Block.hash currentBlock))
                      (JS.repeat "0" (Block.difficulty currentBlock)))
      then false
      else isChainValid_from currentBlock rest'
  end.

(** [isChainValid()]: the loop starts at index 1. *)
Definition isChainValid (this : t) : bool :=
  match chain this with
  | [] => true
  | genesisBlock :: rest => isChainValid_from genesisBlock rest
  end.
End WithCrypto.

End Blockchain.

(** ** The transaction handler of the peer-to-peer node (network/p2pNode.js) *)

Module P2PNode.

Inductive message : Type :=
| QUERY_LATEST
| QUERY_ALL
| RESPONSE_BLOCKCHAIN (data : list Block.json)
| NEW_BLOCK (data : Block.json)
| NEW_TRANSACTION (data : Transaction.json).

Record t : Type := mk {
  blockchain : Blockchain.t;
  peers : list string;                (* keys of [this.peers] *)
  sent : list (string * message)      (* trace of [sendMessage] calls *)
}.

(** [broadcastMessage(message)]: one send per connected peer. *)
Definition broadcastMessage (m : message) : M t unit :=
  modify (fun this =>
    mk (blockchain this) (peers this)
       (sent this ++ map (fun peerId => (peerId, m)) (peers this))).

Definition broadcastTransaction (transaction : Transaction.t) : M t unit :=
  broadcastMessage (NEW_TRANSACTION (Transaction.toJSON transaction)).

(** [try { body } catch (error) { console.error(...) }] *)
Definition try_catch {S} (body : M S unit) : M S unit :=
  fun s =>
    match body s with
    | Normal a s' => Normal a s'
    | Throw _ s' => Normal tt s'
    end.

(** [this.blockchain.pendingTransactions.push(transaction)] *)
Definition push_pending (transaction : Transaction.t) : M t unit :=
  modify (fun this =>
    mk (Blockchain.set_pendingTransactions
          (Blockchain.pendingTransactions (blockchain this)
             ++ [transaction])
          (blockchain this))
       (peers this) (sent this)).

(** The names the module binds, the globals of the runtime aside: its
    imports ([libp2p], [libp2p-tcp], [libp2p-mplex], [events]) and its own
    declarations.  The handlers also name [Block], [Transaction] and
    [Blockchain], which the module neither imports nor declares and the
    runtime does not define. *)
Definition bindings : list string :=
  ["createLibp2p"; "tcpModule"; "mplexModule"; "TCP"; "Mplex";
   "EventEmitter"; "MessageType"; "P2PNode"].

(** The evaluation of the identifier [name] in the module: a
    [ReferenceError] when it is not bound. *)
Definition resolve {S} (name : string) : M S unit :=
  if existsb (String.eqb name) bindings then ret tt
  else throw (JS.ReferenceError name).

(** [handleNewTransaction(transactionData)] *)
Definition handleNewTransaction (uuid : string) (now : Z)
    (transactionData : Transaction.json) : M t unit :=
  try_catch
    (resolve "Transaction" ;;;
     let transaction := Transaction.fromJSON uuid now transactionData in
     this <- get ;;
     let isExisting :=
       existsb
         (fun tx =>
            String.eqb (Transaction.id tx) (Transaction.id transaction))
         (Blockchain.pendingTransactions (blockchain this)) in
     when (negb isExisting)
       (push_pending transaction ;;;
        broadcastTransaction transaction)).

End P2PNode.

(** ** An executable instance of the digest capability

    SHA-256 (FIPS 180-4) on byte strings, with the constants derived from
    the primes as the standard defines them; the digest printed as the
    code prints it, thirty-two decimal numbers separated by commas; and
    the Merkle tree of
    [merkletreejs] with its default options: nodes are hashed in pairs and
    an unpaired last node moves up unchanged. *)

Module Sha256.

Definition mask32 (x : Z) : Z := Z.land x 4294967295.
Definition add32 (x y : Z) : Z := mask32 (x + y).
Definition rotr (n x : Z) : Z :=
  Z.lor (Z.shiftr x n) (mask32 (Z.shiftl x (32 - n))).

(** Integer cube root by bisection on the bits of the result. *)
Fixpoint cbrt_bits (bits : nat) (n r : Z) : Z :=
  match bits with
  | O => r
  | S k =>
      let c := r + Z.shiftl 1 (Z.of_nat k) in
      cbrt_bits k n (if c * c * c <=? n then c else r)
  end.

Definition is_prime (n : Z) : bool :=
  forallb (fun d => negb (n mod d =? 0) || (n <=? d))
          (map Z.of_nat (seq 2 17)).

(** The primes below 312: the first sixty-four. *)
Definition primes : list Z :=
  filter is_prime (map Z.of_nat (seq 2 310)).

(** Fractional bits of the square roots of the first eight primes. *)
Definition initial_state : list Z :=
  Eval vm_compute in
    map (fun p => mask32 (Z.sqrt (p * 2 ^ 64))) (firstn 8 primes).

(** Fractional bits of the cube roots of the first sixty-four primes. *)
Definition round_constants : list Z :=
  Eval vm_compute in
    map (fun p => mask32 (cbrt_bits 36 (p * 2 ^ 96) 0)) primes.

Definition bytes_of_string (s : string) : list Z :=
  map (fun c => Z.of_nat (nat_of_ascii c)) (list_ascii_of_string s).

Fixpoint be_bytes (count : nat) (x : Z) : list Z :=
  match count with
  | O => []
  | S k => Z.land (Z.shiftr x (8 * Z.of_nat k)) 255 :: be_bytes k x
  end.

(** Padding: a one bit, zeros up to 56 modulo 64, then the bit length. *)
Definition pad (msg : list Z) : list Z :=
  let len := Z.of_nat (List.length msg) in
  let zeros := Z.to_nat ((55 - len) mod 64) in
  (msg ++ [128] ++ List.repeat 0 zeros ++ be_bytes 8 (8 * len))%list.

Fixpoint words (fuel : nat) (bytes : list Z) : list Z :=
  match fuel, bytes with
  | S k, b0 :: b1 :: b2 :: b3 :: rest =>
      (b0 * 16777216 + b1 * 65536 + b2 * 256 + b3) :: words k rest
  | _, _ => []
  end.

Definition ssig0 (x : Z) : Z :=
  Z.lxor (Z.lxor (rotr 7 x) (rotr 18 x)) (Z.shiftr x 3).
Definition ssig1 (x : Z) : Z :=
  Z.lxor (Z.lxor (rotr 17 x) (rotr 19 x)) (Z.shiftr x 10).
Definition bsig0 (x : Z) : Z :=
  Z.lxor (Z.lxor (rotr 2 x) (rotr 13 x)) (rotr 22 x).
Definition bsig1 (x : Z) : Z :=
  Z.lxor (Z.lxor (rotr 6 x) (rotr 11 x)) (rotr 25 x).
Definition ch (x y z : Z) : Z :=
  Z.lxor (Z.land x y) (Z.land (Z.lxor x 4294967295) z).
Definition maj (x y z : Z) : Z :=
  Z.lxor (Z.lxor (Z.land x y) (Z.land x z)) (Z.land y z).

(** The message schedule, produced from a window of sixteen words. *)
Fixpoint schedule (count : nat) (window : list Z) : list Z :=
  match count with
  | O => []
  | S k =>
      let w16 := nth 0 window 0 in
      let w15 := nth 1 window 0 in
      let w7 := nth 9 window 0 in
      let w2 := nth 14 window 0 in
      let w := mask32 (ssig1 w2 + w7 + ssig0 w15 + w16) in
      w :: schedule k (tl window ++ [w])%list
  end.

Record regs : Type := Regs { ra : Z; rb : Z; rc : Z; rd : Z;
                             re : Z; rf : Z; rg : Z; rh : Z }.

Definition round (s : regs) (kw : Z * Z) : regs :=
  let t1 := mask32 (rh s + bsig1 (re s) + ch (re s) (rf s) (rg s)
                    + fst kw + snd kw) in
  let t2 := mask32 (bsig0 (ra s) + maj (ra s) (rb s) (rc s)) in
  Regs (add32 t1 t2) (ra s) (rb s) (rc s) (add32 (rd s) t1)
       (re s) (rf s) (rg s).

Definition compress (s : regs) (block : list Z) : regs :=
  let w := (block ++ schedule 48 block)%list in
  let r := fold_left round (combine round_constants w) s in
  Regs (add32 (ra s) (ra r)) (add32 (rb s) (rb r)) (add32 (rc s) (rc r))
       (add32 (rd s) (rd r)) (add32 (re s) (re r)) (add32 (rf s) (rf r))
       (add32 (rg s) (rg r)) (add32 (rh s) (rh r)).

Fixpoint blocks (fuel : nat) (ws : list Z) (s : regs) : regs :=
  match fuel, ws with
  | S k, _ :: _ => blocks k (skipn 16 ws) (compress s (firstn 16 ws))
  | _, _ => s
  end.

Definition start : regs :=
  match initial_state with
  | [a; b; c; d; e; f; g; h] => Regs a b c d e f g h
  | _ => Regs 0 0 0 0 0 0 0 0
  end.

Definition digest (msg : string) : regs :=
  let padded := pad (bytes_of_string msg) in
  let ws := words (List.length padded) padded in
  blocks (List.length ws) ws start.

Fixpoint hex_nibbles (count : nat) (x : Z) : string :=
  match count with
  | O => ""
  | S k =>
      String (JS.hexdigit
                (Z.to_nat (Z.land (Z.shiftr x (4 * Z.of_nat k)) 15)))
             (hex_nibbles k x)
  end.

Definition regs_list (s : regs) : list Z :=
  [ra s; rb s; rc s; rd s; re s; rf s; rg s; rh s].

Definition hex (s : regs) : string :=
  fold_right (fun w acc => hex_nibbles 8 w ++ acc) "" (regs_list s).

(** The digest as thirty-two raw bytes. *)
Definition raw (s : regs) : string :=
  string_of_list_ascii
    (map (fun b => ascii_of_nat (Z.to_nat b))
         (flat_map (be_bytes 4) (regs_list s))).

Definition hexdigest (msg : string) : string := hex (digest msg).
Definition rawdigest (msg : string) : string := raw (digest msg).

(** The digest as the [Uint8Array] of [@cosmjs/crypto] holds it. *)
Definition bytes (s : regs) : list Z := flat_map (be_bytes 4) (regs_list s).

(** [Uint8Array.prototype.toString()]: the elements in decimal, joined by
    commas, whatever argument it is given. *)
Definition decimal (b : Z) : string := NilEmpty.string_of_int (Z.to_int b).

Definition toString (elements : list Z) : string :=
  String.concat "," (map decimal elements).

Definition digestToString (msg : string) : string :=
  toString (bytes (digest msg)).

Definition hex_of_bytes (bytes : string) : string :=
  fold_right (fun b acc => hex_nibbles 2 b ++ acc) ""
             (bytes_of_string bytes).

End Sha256.

Module MerkleTree.

Fixpoint layer (nodes : list string) : list string :=
  match nodes with
  | l :: r :: rest => Sha256.rawdigest (l ++ r) :: layer rest
  | _ => nodes
  end.

Fixpoint layers (fuel : nat) (nodes : list string) : list string :=
  match fuel, nodes with
  | S k, _ :: _ :: _ => layers k (layer nodes)
  | _, _ => nodes
  end.

Definition getRoot (leaves : list string) : string :=
  match layers (List.length leaves) leaves with
  | root :: _ => root
  | [] => ""
  end.

End MerkleTree.

#[export] Instance Sha256Crypto : Crypto := {|
  sha256_toString := Sha256.digestToString;
  SHA256 := Sha256.rawdigest;
  MerkleTree_root_hex :=
    fun leaves => Sha256.hex_of_bytes (MerkleTree.getRoot leaves)
|}.

(** ** Notions used to state the properties *)

(** [l[n] = f(l[n])]; nothing happens when [n] is out of range (the
    properties below only use positions that exist). *)
Fixpoint update {A} (n : nat) (f : A -> A) (l : list A) : list A :=
  match l, n with
  | [], _ => []
  | x :: rest, O => f x :: rest
  | x :: rest, S k => x :: update k f rest
  end.

(** [blockchain.chain[i].transactions[j].amount = v], the mutation of the
    repository's tampering test; no hash, nonce or Merkle root is touched. *)
Definition tamperAmount (i j : nat) (v : Z) (this : Blockchain.t)
    : Blockchain.t :=
  Blockchain.set_chain
    (update i
       (fun block =>
          Block.set_transactions
            (update j (Transaction.set_amount v) (Block.transactions block))
            block)
       (Blockchain.chain this))
    this.

(** A block with its transactions removed: all that chain validation
    reads. *)
Definition header (b : Block.t) : Block.t := Block.set_transactions [] b.

(** What one transaction contributes to the balance of an address. *)
Definition contribution (address : option string) (tx : Transaction.t) : Z :=
  (if JS.strictEq (Transaction.toAddress tx) address
   then Transaction.amount tx else 0)
  - (if JS.strictEq (Transaction.fromAddress tx) address
     then Transaction.amount tx else 0).

Definition sumZ (l : list Z) : Z := fold_right Z.add 0 l.

(** The balance as the specification words it: the sum, over all blocks and
    all their transactions, of the contributions. *)
Definition replayedBalance (chain : list Block.t) (address : option string)
    : Z :=
  sumZ (map (fun block =>
               sumZ (map (contribution address) (Block.transactions block)))
            chain).

(** [chain[i].previousHash == chain[i-1].hash] for every [i >= 1]. *)
Definition linked (chain : list Block.t) : Prop :=
  forall (i : nat) (previous current : Block.t),
    nth_error chain i = Some previous ->
    nth_error chain (S i) = Some current ->
    Block.previousHash current = Block.hash previous.

(** The four rejection conditions of [addTransaction], as one test. *)
Definition rejected (this : Blockchain.t) (tx : Transaction.t) : bool :=
  JS.falsy (Transaction.toAddress tx)
  || (Transaction.amount tx <=? 0)
  || (negb (Blockchain.isReward tx)
      && (JS.falsy (Transaction.fromAddress tx)
          || (Blockchain.getBalanceOfAddress this (Transaction.fromAddress tx)
              <? Transaction.amount tx))).

(** An [InvalidTransaction] outcome: one of the [Error]s thrown by
    [addTransaction], with the state as it was. *)
Definition InvalidTransaction {A} (before : Blockchain.t)
    (r : completion Blockchain.t A) : Prop :=
  exists message, r = Throw (JS.Error message) before.

(** The acceptance condition of [replaceChain]. *)
Definition longerAndValid (this : Blockchain.t) (newChain : list Block.t)
    : bool :=
  (List.length (Blockchain.chain this) <? List.length newChain)%nat
  && match Blockchain.isValidChain newChain with
     | inr true => true
     | _ => false
     end.

(** The state after an accepted replacement. *)
Definition replacedBy (newChain : list Block.t) (this : Blockchain.t)
    : Blockchain.t :=
  Blockchain.mk newChain (Blockchain.difficulty this)
                (Blockchain.pendingTransactions this)
                (Blockchain.miningReward this)
                (Blockchain.emitted this
                   ++ [Blockchain.chainReplaced newChain]).

Section Histories.
Context `{Crypto}.

(** One iteration of the mining loop's body. *)
Definition nextAttempt (this : Block.t) : Block.t :=
  let this := Block.set_nonce (Block.nonce this + 1) this in
  Block.set_hash (Block.calculateHash this) this.

(** The block reached after [k] iterations. *)
Fixpoint attempt (k : nat) (this : Block.t) : Block.t :=
  match k with
  | O => this
  | S k' => nextAttempt (attempt k' this)
  end.

(** The reward transaction synthesized by [minePendingTransactions]. *)
Definition rewardOf (this : Blockchain.t) (uuid : string) (txNow : Z)
    (miner : option string) : Transaction.t :=
  Transaction.constructor uuid txNow None miner
                          (Blockchain.miningReward this) (Some "reward").

(** The block appended by [minePendingTransactions] on top of [tip]. *)
Definition minedOn (this : Blockchain.t) (tip : Block.t) (uuid : string)
    (txNow blockNow : Z) (miner : option string) : Block.t :=
  Block.mineBlock
    (Block.constructor blockNow (Block.index tip + 1) (Block.hash tip)
       (Blockchain.pendingTransactions this
          ++ [rewardOf this uuid txNow miner])
       (Blockchain.difficulty this)).

(** Chains grown from a new [Blockchain] by [minePendingTransactions],
    with any submissions, mempool writes and difficulty changes in
    between. *)
Inductive grown : Blockchain.t -> Prop :=
| grown_new (now : Z) (difficulty : option nat) (miningReward : option Z) :
    grown (Blockchain.constructor now difficulty miningReward)
| grown_mine (this : Blockchain.t) uuid txNow blockNow miner block this' :
    grown this ->
    Blockchain.minePendingTransactions uuid txNow blockNow miner this
      = Normal block this' ->
    grown this'
| grown_submit (this : Blockchain.t) (tx : Transaction.t) :
    grown this ->
    grown (final_state (Blockchain.addTransaction tx this))
| grown_mempool (this : Blockchain.t) (pool : list Transaction.t) :
    grown this ->
    grown (Blockchain.set_pendingTransactions pool this)
| grown_difficulty (this : Blockchain.t) (d : nat) :
    grown this ->
    grown (Blockchain.set_difficulty d this).

(** The balance scenario: a new chain with the default reward of 50; a
    block mined by [A]; a transfer of 30 from [A] to [B] submitted and
    confirmed in a block mined by [M]. *)
Definition afterReward (now : Z) (A : string) (u1 : string) (t1 t1' : Z)
    : Blockchain.t :=
  final_state
    (Blockchain.minePendingTransactions u1 t1 t1' (Some A)
       (Blockchain.constructor now None None)).

Definition afterTransfer (now : Z) (A B M : string) (u1 u2 u3 : string)
    (t1 t1' t2 t3 t3' : Z) : Blockchain.t :=
  let transfer :=
    Transaction.constructor u2 t2 (Some A) (Some B) 30 None in
  final_state
    (Blockchain.minePendingTransactions u3 t3 t3' (Some M)
       (final_state
          (Blockchain.addTransaction transfer
             (afterReward now A u1 t1 t1')))).
End Histories.

(** ** A concrete run, with SHA-256 *)

Module Run.

(** [new Blockchain(1)] *)
Definition fresh : Blockchain.t :=
  @Blockchain.constructor Sha256Crypto 1700000000000 (Some 1%nat) None.

(** ... after [minePendingTransactions('A')] *)
Definition funded : Blockchain.t :=
  Eval vm_compute in
    final_state
      (@Blockchain.minePendingTransactions Sha256Crypto
         "9b2e4f6a-reward" 1700000005071 1700000005071 (Some "A") fresh).

(** ... after [chain[1].transactions[0].amount = 100] *)
Definition tampered : Blockchain.t := tamperAmount 1 0 100 funded.

(** A transfer from [A] to [B] that was never signed. *)
Definition unsigned : Transaction.t :=
  Transaction.constructor "5d1c7a10-transfer" 1700000006000
                          (Some "A") (Some "B") 30 None.

(** A node with one peer on the new chain, and one on the funded chain;
    the transfer as a peer sends it. *)
Definition node : P2PNode.t := P2PNode.mk fresh ["peer-1"] [].

Definition peer : P2PNode.t := P2PNode.mk funded ["peer-1"] [].

Definition transfer : Transaction.json := Transaction.toJSON unsigned.

(** [new Block(1, 'prev123', [], 65)] *)
Definition unreachable (now : Z) : Block.t :=
  @Block.constructor Sha256Crypto now 1 "prev123" [] 65.

End Run.

(** ** Further operations of the sources *)

(** [sign(data, privateKey)] of [utils/crypto.js]; the library raises on a
    key it does not accept. *)
Class Signer : Type := {
  sign : string -> string -> JS.exn + string
}.

(** *** Transaction.signTransaction and Wallet.createTransaction *)

Module Signing.

Section WithCrypto.
Context `{Crypto} `{Signer}.

(** [signTransaction(signingKey)]: the transaction as it is afterwards, or
    the exception thrown (the transaction is then unchanged). *)
Definition signTransaction (this : Transaction.t) (signingKey : string)
    : JS.exn + Transaction.t :=
  if String.eqb (Transaction.type this) "reward" then inr this
  else if negb (JS.falsy (Transaction.signature this)) then
    inl (JS.Error "这笔交易已经被签名了")
  else
    let transactionHash := Transaction.calculateHash this in
    match sign transactionHash signingKey with
    | inl e => inl e
    | inr signature => inr (Transaction.set_signature (Some signature) this)
    end.

(** The fields of a [Wallet] (wallet/wallet.js). *)
Record wallet : Type := mk_wallet {
  privateKey : string;
  publicKey : string;
  address : string
}.

(** [createTransaction(toAddress, amount)] *)
Definition createTransaction (uuid : string) (now : Z) (this : wallet)
    (toAddress : option string) (amount : Z) : JS.exn + Transaction.t :=
  let transaction :=
    Transaction.constructor uuid now (Some (address this)) toAddress amount
                            None in
  signTransaction transaction (privateKey this).
End WithCrypto.

End Signing.

(** *** Blockchain: history, difficulty adjustment, serialization *)

Module Ledger.

(** [{...transaction, blockIndex, blockHash}] *)
Record entry : Type := mk_entry {
  transaction : Transaction.t;
  blockIndex : Z;
  blockHash : string
}.

(** The two nested loops of [getTransactionsForAddress]. *)
Definition getTransactionsForAddress (this : Blockchain.t)
    (address : option string) : list entry :=
  fold_left
    (fun transactions block =>
       fold_left
         (fun transactions transaction =>
            if JS.strictEq (Transaction.fromAddress transaction) address
               || JS.strictEq (Transaction.toAddress transaction) address
            then
              (transactions
                 ++ [mk_entry transaction (Block.index block)
                              (Block.hash block)])%list
            else transactions)
         (Block.transactions block) transactions)
    (Blockchain.chain this) [].

(** [this.chain[this.chain.length - 2]], [undefined] below two blocks *)
Definition secondToLast (this : Blockchain.t) : option Block.t :=
  if (List.length (Blockchain.chain this) <? 2)%nat then None
  else nth_error (Blockchain.chain this)
                 (List.length (Blockchain.chain this) - 2).

(** [adjustDifficulty(expectedBlockTime = 10000)].  The times are
    integers, so [timeUsed < expectedBlockTime / 2] is
    [2 * timeUsed < expectedBlockTime]. *)
Definition adjustDifficulty (expectedBlockTime : option Z)
    : M Blockchain.t nat :=
  let expectedBlockTime :=
    match expectedBlockTime with Some e => e | None => 10000 end in
  this <- get ;;
  match Blockchain.getLatestBlock this with
  | None => throw (JS.TypeError "lastBlock.index")
  | Some lastBlock =>
      if Block.index lastBlock =? 0 then ret (Blockchain.difficulty this)
      else
        match secondToLast this with
        | None => throw (JS.TypeError "previousBlock.timestamp")
        | Some previousBlock =>
            let timeUsed :=
              Block.timestamp lastBlock - Block.timestamp previousBlock in
            (if 2 * timeUsed <? expectedBlockTime then
               modify (fun this =>
                 Blockchain.set_difficulty (S (Blockchain.difficulty this))
                                           this)
             else if (expectedBlockTime * 2 <? timeUsed)
                     && (1 <? Blockchain.difficulty this)%nat then
               modify (fun this =>
                 Blockchain.set_difficulty
                   (Nat.pred (Blockchain.difficulty this)) this)
             else ret tt) ;;;
            this <- get ;;
            ret (Blockchain.difficulty this)
        end
  end.

(** [toJSON()] of the chain *)
Definition toJSON (this : Blockchain.t) : list Block.json :=
  map Block.toJSON (Blockchain.chain this).

Section WithCrypto.
Context `{Crypto}.

(** [Blockchain.fromJSON(data)]: a new chain with the defaults, whose
    blocks are then replaced by the rebuilt ones. *)
Definition fromJSON (uuid : string) (now : Z) (data : list Block.json)
    : Blockchain.t :=
  let blockchain := Blockchain.constructor now None None in
  Blockchain.set_chain
    (map (fun blockData =>
            Block.fromJSON now blockData (Transaction.fromJSON uuid now))
         data)
    blockchain.
End WithCrypto.

End Ledger.

(** *** BlockchainStorage (storage/blockchainStorage.js) *)

Module BlockchainStorage.

(** The values kept in the key/value store. *)
Inductive record : Type :=
| Metadata (difficulty : nat) (miningReward : Z) (chainLength : nat)
| BlockData (data : Block.json)
| PendingData (data : list Transaction.json).

(** The store: the most recent [put] first. *)
Definition db : Type := list (string * record).

Definition put (key : string) (value : record) (store : db) : db :=
  (key, value) :: store.

(** [db.get(key)]; [None] is the [LEVEL_NOT_FOUND] error. *)
Fixpoint get (key : string) (store : db) : option record :=
  match store with
  | [] => None
  | (k, v) :: rest => if String.eqb k key then Some v else get key rest
  end.

(** [`block_${i}`] *)
Definition blockKey (i : nat) : string :=
  "block_" ++ NilEmpty.string_of_uint (Nat.to_uint i).

(** The [for] loop of [saveBlockchain], from index [i] on. *)
Fixpoint saveBlocks (i : nat) (blocks : list Block.t) (store : db) : db :=
  match blocks with
  | [] => store
  | block :: rest =>
      saveBlocks (S i) rest (put (blockKey i) (BlockData (Block.toJSON block))
                                 store)
  end.

Definition saveBlockchain (blockchain : Blockchain.t) (store : db) : db :=
  let store :=
    put "metadata"
        (Metadata (Blockchain.difficulty blockchain)
                  (Blockchain.miningReward blockchain)
                  (List.length (Blockchain.chain blockchain)))
        store in
  let store := saveBlocks 0 (Blockchain.chain blockchain) store in
  put "pendingTransactions"
      (PendingData
         (map Transaction.toJSON (Blockchain.pendingTransactions blockchain)))
      store.

Definition notFound (key : string) : JS.exn :=
  JS.Error ("LEVEL_NOT_FOUND " ++ key).

Section WithCrypto.
Context `{Crypto}.

(** The [for] loop of [loadBlockchain]: [count] blocks from index [i] on,
    pushed in turn; a missing or ill-shaped record ends the load. *)
Fixpoint loadBlocks (uuid : string) (now : Z) (store : db) (count i : nat)
    (chain : list Block.t) : JS.exn + list Block.t :=
  match count with
  | O => inr chain
  | S remaining =>
      match get (blockKey i) store with
      | Some (BlockData blockData) =>
          let block :=
            Block.fromJSON now blockData (Transaction.fromJSON uuid now) in
          loadBlocks uuid now store remaining (S i) (chain ++ [block])%list
      | Some _ => inl (JS.TypeError (blockKey i))
      | None => inl (notFound (blockKey i))
      end
  end.

(** The fields [loadBlockchain] reads from the record found under
    ['metadata']; a record of another shape lacks some of them
    ([undefined]). *)
Definition metadataDifficulty (metadata : record) : option nat :=
  match metadata with
  | Metadata difficulty _ _ => Some difficulty
  | BlockData data => Some (Block.json_difficulty data)
  | PendingData _ => None
  end.

Definition metadataMiningReward (metadata : record) : option Z :=
  match metadata with
  | Metadata _ miningReward _ => Some miningReward
  | _ => None
  end.

(** [i < metadata.chainLength] is false for every [i] when the field is
    missing. *)
Definition metadataChainLength (metadata : record) : nat :=
  match metadata with
  | Metadata _ _ chainLength => chainLength
  | _ => O
  end.

(** [loadBlockchain()]: the chain read from the store, or the exception
    rethrown.  A store without metadata gives a new chain. *)
Definition loadBlockchain (uuid : string) (now : Z) (store : db)
    : JS.exn + Blockchain.t :=
  match get "metadata" store with
  | None => inr (Blockchain.constructor now None None)
  | Some metadata =>
      let blockchain :=
        Blockchain.constructor now (metadataDifficulty metadata)
                               (metadataMiningReward metadata) in
      let blockchain := Blockchain.set_chain [] blockchain in
      match loadBlocks uuid now store (metadataChainLength metadata) 0
                       (Blockchain.chain blockchain) with
      | inl e => inl e
      | inr chain =>
          let blockchain := Blockchain.set_chain chain blockchain in
          match get "pendingTransactions" store with
          | None => inr (Blockchain.set_pendingTransactions [] blockchain)
          | Some (PendingData pendingTxs) =>
              inr (Blockchain.set_pendingTransactions
                     (map (Transaction.fromJSON uuid now) pendingTxs)
                     blockchain)
          | Some _ => inl (JS.TypeError "pendingTxs.map")
          end
      end
  end.

(** [saveBlock(block, index)] *)
Definition saveBlock (block : Block.t) (index : nat) (store : db) : db :=
  put (blockKey index) (BlockData (Block.toJSON block)) store.

(** [loadBlock(index)]: the block, or the exception rethrown. *)
Definition loadBlock (uuid : string) (now : Z) (index : nat) (store : db)
    : JS.exn + Block.t :=
  match get (blockKey index) store with
  | Some (BlockData blockData) =>
      inr (Block.fromJSON now blockData (Transaction.fromJSON uuid now))
  | Some _ => inl (JS.TypeError (blockKey index))
  | None => inl (notFound (blockKey index))
  end.
End WithCrypto.

End BlockchainStorage.

(** *** The block handlers of the peer-to-peer node (network/p2pNode.js) *)

Module Sync.

(** The node together with the trace of its own
    [emit('blockchainUpdated', this.blockchain)] calls. *)
Record t : Type := mk {
  node : P2PNode.t;
  updated : list Blockchain.t
}.

Definition liftNode {A} (c : M P2PNode.t A) : M t A :=
  fun this =>
    match c (node this) with
    | Normal a n => Normal a (mk n (updated this))
    | Throw e n => Throw e (mk n (updated this))
    end.

Definition blockchain (this : t) : Blockchain.t :=
  P2PNode.blockchain (node this).

(** An assignment to a field of [this.blockchain]. *)
Definition onBlockchain (f : Blockchain.t -> Blockchain.t) : M t unit :=
  modify (fun this =>
    mk (P2PNode.mk (f (blockchain this)) (P2PNode.peers (node this))
                   (P2PNode.sent (node this)))
       (updated this)).

Definition emitUpdated : M t unit :=
  modify (fun this => mk (node this) (updated this ++ [blockchain this])).

(** [sendMessage(peerId, message)]: a peer that is not connected raises
    inside the function, which catches, logs and deletes the (absent)
    entry. *)
Definition sendMessage (peerId : string) (m : P2PNode.message)
    : M P2PNode.t unit :=
  modify (fun this =>
    if existsb (String.eqb peerId) (P2PNode.peers this)
    then P2PNode.mk (P2PNode.blockchain this) (P2PNode.peers this)
                    (P2PNode.sent this ++ [(peerId, m)])
    else this).

Definition broadcastBlock (block : Block.t) : M P2PNode.t unit :=
  P2PNode.broadcastMessage (P2PNode.NEW_BLOCK (Block.toJSON block)).

(** [removeProcessedTransactions(processedTransactions)] *)
Definition removeProcessedTransactions
    (processedTransactions : list Transaction.t) : M t unit :=
  let processedIds := map Transaction.id processedTransactions in
  onBlockchain (fun blockchain =>
    Blockchain.set_pendingTransactions
      (filter (fun tx =>
                 negb (existsb (String.eqb (Transaction.id tx)) processedIds))
              (Blockchain.pendingTransactions blockchain))
      blockchain).

(** [handleQueryLatest(peerId)] *)
Definition handleQueryLatest (peerId : string) : M t unit :=
  this <- get ;;
  match Blockchain.getLatestBlock (blockchain this) with
  | None => throw (JS.TypeError "latestBlock.toJSON")
  | Some latestBlock =>
      liftNode (sendMessage peerId
                  (P2PNode.RESPONSE_BLOCKCHAIN [Block.toJSON latestBlock]))
  end.

(** [handleQueryAll(peerId)] *)
Definition handleQueryAll (peerId : string) : M t unit :=
  this <- get ;;
  liftNode (sendMessage peerId
              (P2PNode.RESPONSE_BLOCKCHAIN (Ledger.toJSON (blockchain this)))).

(** [blocks.sort((a, b) => a.index - b.index)]: the sort is stable, so the
    result is the one of inserting each block before the first block of a
    greater or equal index among those that followed it. *)
Fixpoint insertByIndex (block : Block.t) (sorted : list Block.t)
    : list Block.t :=
  match sorted with
  | [] => [block]
  | next :: rest =>
      if Block.index block <=? Block.index next then block :: sorted
      else next :: insertByIndex block rest
  end.

Definition sortByIndex (blocks : list Block.t) : list Block.t :=
  fold_right insertByIndex [] blocks.

(** [blocks[blocks.length - 1]] *)
Definition lastBlock (blocks : list Block.t) : option Block.t :=
  match blocks with
  | [] => None
  | _ :: _ => nth_error blocks (List.length blocks - 1)
  end.

Section WithCrypto.
Context `{Crypto}.

(** [handleNewBlock(blockData)] *)
Definition handleNewBlock (uuid : string) (now : Z)
    (blockData : Block.json) : M t unit :=
  P2PNode.try_catch
    (P2PNode.resolve "Block" ;;;
     let newBlock :=
       Block.fromJSON now blockData (Transaction.fromJSON uuid now) in
     this <- get ;;
     match Blockchain.getLatestBlock (blockchain this) with
     | None => throw (JS.TypeError "latestLocalBlock.index")
     | Some latestLocalBlock =>
         if (Block.index newBlock =? Block.index latestLocalBlock + 1)
            && String.eqb (Block.previousHash newBlock)
                          (Block.hash latestLocalBlock)
         then
           if Block.isValid newBlock then
             onBlockchain (fun blockchain =>
               Blockchain.set_chain
                 (Blockchain.chain blockchain ++ [newBlock]) blockchain) ;;;
             removeProcessedTransactions (Block.transactions newBlock) ;;;
             liftNode (broadcastBlock newBlock) ;;;
             emitUpdated
           else ret tt
         else if Block.index latestLocalBlock + 1 <? Block.index newBlock
         then liftNode (P2PNode.broadcastMessage P2PNode.QUERY_ALL)
         else ret tt
     end).

(** [handleBlockchainResponse(blockchainData)]; the callback of [map]
    evaluates [Block] at the first element; [newNow] is the clock read by
    the [new Blockchain()] of the replacement branch. *)
Definition handleBlockchainResponse (uuid : string) (now newNow : Z)
    (blockchainData : list Block.json) : M t unit :=
  if (List.length blockchainData =? 0)%nat then ret tt
  else
    P2PNode.try_catch
      (P2PNode.resolve "Block" ;;;
       let receivedBlocks :=
         sortByIndex
           (map (fun blockData =>
                   Block.fromJSON now blockData
                                  (Transaction.fromJSON uuid now))
                blockchainData) in
       this <- get ;;
       match lastBlock receivedBlocks,
             Blockchain.getLatestBlock (blockchain this) with
       | Some latestReceivedBlock, Some latestLocalBlock =>
           if Block.index latestReceivedBlock
              <=? Block.index latestLocalBlock
           then ret tt
           else if String.eqb (Block.previousHash latestReceivedBlock)
                              (Block.hash latestLocalBlock)
           then
             onBlockchain (fun blockchain =>
               Blockchain.set_chain
                 (Blockchain.chain blockchain ++ [latestReceivedBlock])
                 blockchain) ;;;
             this <- get ;;
             if Blockchain.isChainValid (blockchain this) then
               liftNode (broadcastBlock latestReceivedBlock) ;;;
               emitUpdated
             else
               onBlockchain (fun blockchain =>
                 Blockchain.set_chain
                   (removelast (Blockchain.chain blockchain)) blockchain)
           else if (1 <? List.length receivedBlocks)%nat then
             P2PNode.resolve "Blockchain" ;;;
             let newBlockchain :=
               Blockchain.set_chain receivedBlocks
                 (Blockchain.constructor newNow None None) in
             if Blockchain.isChainValid newBlockchain then
               onBlockchain (Blockchain.set_chain receivedBlocks) ;;;
               emitUpdated
             else ret tt
           else ret tt
       | _, _ => throw (JS.TypeError "index")
       end).
End WithCrypto.

End Sync.

(** *** The mining timer of the node (src/index.js, [startMining]) *)

Module Miner.

(** The node's chain and its store. *)
Record t : Type := mk {
  blockchain : Blockchain.t;
  storage : BlockchainStorage.db
}.

Definition liftChain {A} (c : M Blockchain.t A) : M t A :=
  fun this =>
    match c (blockchain this) with
    | Normal a bc => Normal a (mk bc (storage this))
    | Throw e bc => Throw e (mk bc (storage this))
    end.

Section WithCrypto.
Context `{Crypto}.

(** The body of the [setInterval] callback; [minerAddress] is the node's
    (non-empty) miner address, the other arguments are the ids and clock
    readings drawn by the constructors. *)
Definition tick (minerAddress : string) (emptyId rewardId : string)
    (emptyNow rewardNow blockNow : Z) : M t Block.t :=
  this <- get ;;
  when (List.length (Blockchain.pendingTransactions (blockchain this)) =? 0)%nat
    (let emptyTx :=
       Transaction.constructor emptyId emptyNow None (Some minerAddress) 0
                               (Some "empty") in
     liftChain (modify (fun blockchain =>
       Blockchain.set_pendingTransactions
         (Blockchain.pendingTransactions blockchain ++ [emptyTx])
         blockchain))) ;;;
  newBlock <- liftChain
                (Blockchain.minePendingTransactions
                   rewardId rewardNow blockNow (Some minerAddress)) ;;
  liftChain (Ledger.adjustDifficulty None) ;;;
  modify (fun this =>
    mk (blockchain this)
       (BlockchainStorage.saveBlockchain (blockchain this) (storage this))) ;;;
  ret newBlock.
End WithCrypto.

End Miner.

(** *** Notions used to state the further properties *)

Section Checks.
Context `{Crypto}.

(** The three tests one iteration of [isChainValid] makes on a block and
    its predecessor. *)
Definition blockChecks (previousBlock currentBlock : Block.t) : bool :=
  String.eqb (Block.hash currentBlock) (Block.calculateHash currentBlock)
  && String.eqb (Block.previousHash currentBlock) (Block.hash previousBlock)
  && Block.meetsTarget (Block.difficulty currentBlock)
                       (Block.hash currentBlock).

(** The block [minePendingTransactions] builds before it searches. *)
Definition candidateOn (this : Blockchain.t) (tip : Block.t) (uuid : string)
    (txNow blockNow : Z) (miner : option string) : Block.t :=
  Block.constructor blockNow (Block.index tip + 1) (Block.hash tip)
    (Blockchain.pendingTransactions this ++ [rewardOf this uuid txNow miner])
    (Blockchain.difficulty this).
End Checks.

(** The two tests one iteration of [isValidChain] makes. *)
Definition forkChecks (previousBlock block : Block.t) : bool :=
  JS.startsWith (Block.hash block) (JS.repeat "0" (Block.difficulty block))
  && String.eqb (Block.previousHash block) (Block.hash previousBlock).

(** Block [i] of the chain has index [i]. *)
Definition heights (chain : list Block.t) : Prop :=
  forall (i : nat) (block : Block.t),
    nth_error chain i = Some block -> Block.index block = Z.of_nat i.

(** The last element of [previous :: rest]. *)
Definition lastOf (previous : Block.t) (rest : list Block.t) : Block.t :=
  List.last rest previous.

(** *** Concrete inputs for the further properties *)

Module Cases.

(** [new Blockchain(65)]: a difficulty no digest can meet. *)
Definition hard : Blockchain.t :=
  @Blockchain.constructor Sha256Crypto 1700000000000 (Some 65%nat) None.

(** The reward transaction and the block of [Run.funded]. *)
Definition rewardA : Transaction.t :=
  Transaction.constructor "9b2e4f6a-reward" 1700000005071 None (Some "A") 50
                          (Some "reward").

(** A transaction of type reward that names a sender and a large amount. *)
Definition minted : Transaction.t :=
  Transaction.constructor "0d5e-minted" 1700000008000 (Some "nobody")
                          (Some "A") 1000000 (Some "reward").

(** [Blockchain.fromJSON([])] *)
Definition blockless : Blockchain.t :=
  @Ledger.fromJSON Sha256Crypto "unused" 1700000009000 [].

(** A node that holds [Run.fresh] and a node that holds [Run.funded], each
    with one peer. *)
Definition listener : Sync.t := Sync.mk Run.node [].

Definition settled : Sync.t :=
  Sync.mk (P2PNode.mk Run.funded ["peer-1"] []) [].

(** A stand-in for the signature library in concrete cases: a signature is
    the key followed by the data, and verifies against that key. *)
Definition tagSigner : Signer :=
  {| sign := fun data key => inr (key ++ ":" ++ data) |}.

Definition tagEcdsa : Ecdsa :=
  {| verifySignature := fun data signature publicKey =>
       String.eqb signature (publicKey ++ ":" ++ data) |}.

Definition alice : Signing.wallet :=
  Signing.mk_wallet "6b31" "6b31" "cosmosA".

End Cases.

(** The test of [getTransactionsForAddress]: the address is the sender or
    the recipient. *)
Definition involves (address : option string) (tx : Transaction.t) : bool :=
  JS.strictEq (Transaction.fromAddress tx) address
  || JS.strictEq (Transaction.toAddress tx) address.

(** The mempool [startMining]'s callback mines from: the pending
    transactions, or a single zero-amount transaction of type empty when
    there are none. *)
Definition miningPool (this : Blockchain.t) (minerAddress emptyId : string)
    (emptyNow : Z) : list Transaction.t :=
  if (List.length (Blockchain.pendingTransactions this) =? 0)%nat
  then [Transaction.constructor emptyId emptyNow None (Some minerAddress) 0
                                (Some "empty")]
  else Blockchain.pendingTransactions this.

(** * Properties *)

(** ** Strings *)

Lemma substring0_length (n : nat) (s : string) :
  String.length (JS.substring0 n s) = Nat.min n (String.length s).
Proof.
  unfold JS.substring0.
  revert s; induction n as [|n IH]; intros s.
  - destruct s; reflexivity.
  - destruct s as [|c s]; [reflexivity|].
    simpl. now rewrite IH.
Qed.

Lemma repeat_length (c : ascii) (n : nat) :
  String.length (JS.repeat (String c "") n) = n.
Proof.
  induction n as [|n IH]; simpl; [reflexivity | now rewrite IH].
Qed.

Lemma eqb_length (s1 s2 : string) :
  String.eqb s1 s2 = true -> String.length s1 = String.length s2.
Proof.
  intros E. apply String.eqb_eq in E. now subst.
Qed.

Lemma meetsTarget_short (d : nat) (h : string) :
  (String.length h < d)%nat -> Block.meetsTarget d h = false.
Proof.
  intros L. unfold Block.meetsTarget.
  destruct (String.eqb _ _) eqn:E; [|reflexivity].
  apply eqb_length in E.
  rewrite substring0_length, repeat_length in E. lia.
Qed.

Lemma meetsTarget_forcedHash (d : nat) :
  Block.meetsTarget d Block.forcedHash = (d <=? 1)%nat.
Proof.
  destruct d as [|[|d]]; reflexivity.
Qed.

(** ** The mining loop *)

Section Mining.
Context `{Crypto}.

Ltac by_iteration k := induction k as [|k IH]; simpl; auto.

Lemma attempt_index k b : Block.index (attempt k b) = Block.index b.
Proof. by_iteration k. Qed.

Lemma attempt_previousHash k b :
  Block.previousHash (attempt k b) = Block.previousHash b.
Proof. by_iteration k. Qed.

Lemma attempt_transactions k b :
  Block.transactions (attempt k b) = Block.transactions b.
Proof. by_iteration k. Qed.

Lemma attempt_difficulty k b :
  Block.difficulty (attempt k b) = Block.difficulty b.
Proof. by_iteration k. Qed.

Lemma attempt_nextAttempt k b :
  attempt k (nextAttempt b) = nextAttempt (attempt k b).
Proof. by_iteration k. now rewrite IH. Qed.

(** The loop stops at the first examined block whose prefix equals the
    target, having examined at most [n] blocks (iterations 0 to n-1). *)
Lemma mineLoop_run (target : string) (n : nat) (b : Block.t) :
  exists k : nat,
    (k <= n)%nat
    /\ Block.mineLoop target n b = (attempt k b, (n - k)%nat)
    /\ (forall j, (j < k)%nat ->
          String.eqb (JS.substring0 (Block.difficulty (attempt j b))
                                    (Block.hash (attempt j b))) target
          = false)
    /\ ((k < n)%nat ->
          String.eqb (JS.substring0 (Block.difficulty (attempt k b))
                                    (Block.hash (attempt k b))) target
          = true).
Proof.
  revert b; induction n as [|n IH]; intros b.
  - exists O. simpl. repeat split; intros; lia.
  - simpl.
    destruct (String.eqb (JS.substring0 (Block.difficulty b) (Block.hash b))
                         target) eqn:E; simpl.
    + exists O. simpl. repeat split; auto; intros; lia.
    + destruct (IH (nextAttempt b)) as (k & Hk & Hrun & Hmiss & Hhit).
      rewrite attempt_nextAttempt in Hrun, Hhit.
      exists (S k). repeat split.
      * lia.
      * exact Hrun.
      * intros [|j] Hj; [exact E|].
        specialize (Hmiss j). rewrite attempt_nextAttempt in Hmiss.
        apply Hmiss. lia.
      * intros Hlt. apply Hhit. lia.
Qed.

(** When every examined block misses the target the loop runs out of
    attempts. *)
Lemma mineLoop_exhausted (target : string) (n : nat) (b : Block.t) :
  (forall j, (j < n)%nat ->
     String.eqb (JS.substring0 (Block.difficulty (attempt j b))
                               (Block.hash (attempt j b))) target = false) ->
  Block.mineLoop target n b = (attempt n b, O).
Proof.
  intros Hmiss.
  destruct (mineLoop_run target n b) as (k & Hk & Hrun & _ & Hhit).
  assert (k = n) as ->.
  { destruct (Nat.eq_dec k n) as [|Hne]; [assumption|].
    assert (Hlt : (k < n)%nat) by lia.
    rewrite (Hmiss k Hlt) in Hhit. specialize (Hhit Hlt). discriminate. }
  rewrite Hrun. now rewrite Nat.sub_diag.
Qed.

(** What [mineBlock] leaves in a non-genesis block: the same block after
    some iterations, with a hash that either meets the target or is the
    forced constant. *)
Lemma mineBlock_outcome (b : Block.t) :
  Block.index b <> 0 ->
  exists k : nat,
    (k <= Block.maxAttempts0)%nat
    /\ ((k < Block.maxAttempts0)%nat
        /\ Block.mineBlock b = attempt k b
        /\ Block.meetsTarget (Block.difficulty b)
                             (Block.hash (Block.mineBlock b)) = true
        \/ k = Block.maxAttempts0
           /\ Block.mineBlock b
              = Block.set_hash Block.forcedHash (attempt k b)).
Proof.
  intros Hidx. unfold Block.mineBlock.
  apply Z.eqb_neq in Hidx. rewrite Hidx.
  destruct (mineLoop_run (JS.repeat "0" (Block.difficulty b))
                         Block.maxAttempts0 b)
    as (k & Hk & Hrun & _ & Hhit).
  rewrite Hrun. exists k. split; [exact Hk|].
  rewrite attempt_difficulty in Hhit.
  destruct (Nat.eq_dec k Block.maxAttempts0) as [->|Hne].
  - right. split; [reflexivity|]. now rewrite Nat.sub_diag.
  - left. assert (Hlt : (k < Block.maxAttempts0)%nat) by lia.
    destruct (Block.maxAttempts0 - k <=? 0)%nat eqn:E.
    { apply Nat.leb_le in E. lia. }
    repeat split; [exact Hlt|].
    unfold Block.meetsTarget. now apply Hhit.
Qed.

Lemma mineBlock_genesis (b : Block.t) :
  Block.index b = 0 -> Block.mineBlock b = b.
Proof.
  intros E. unfold Block.mineBlock. now rewrite E.
Qed.

(** [mineBlock] changes the nonce and the hash only. *)
Lemma mineBlock_frame (b : Block.t) :
  Block.index (Block.mineBlock b) = Block.index b
  /\ Block.previousHash (Block.mineBlock b) = Block.previousHash b
  /\ Block.transactions (Block.mineBlock b) = Block.transactions b
  /\ Block.difficulty (Block.mineBlock b) = Block.difficulty b.
Proof.
  destruct (Z.eq_dec (Block.index b) 0) as [E|E].
  - rewrite (mineBlock_genesis b E). auto.
  - destruct (mineBlock_outcome b E) as (k & _ & [(_ & -> & _) | (_ & ->)]);
      simpl;
      rewrite ?attempt_index, ?attempt_previousHash, ?attempt_transactions,
              ?attempt_difficulty; auto.
Qed.

(** The search ends with the forced constant whenever the ten thousand
    examined blocks all miss the target; above difficulty 1 that
    constant does not meet the target. *)
Lemma mineBlock_exhausted (b : Block.t) :
  Block.index b <> 0 ->
  (forall j, (j < Block.maxAttempts0)%nat ->
     Block.meetsTarget (Block.difficulty b) (Block.hash (attempt j b))
     = false) ->
  Block.hash (Block.mineBlock b) = Block.forcedHash.
Proof.
  intros Hidx Hmiss. unfold Block.mineBlock.
  apply Z.eqb_neq in Hidx. rewrite Hidx.
  rewrite mineLoop_exhausted; [reflexivity|].
  intros j Hj. rewrite attempt_difficulty. now apply Hmiss.
Qed.

(** At difficulty 0 and 1 mining always ends with a hash that meets the
    target. *)
Lemma mineBlock_meets_low_difficulty (b : Block.t) :
  Block.index b <> 0 ->
  (Block.difficulty b <= 1)%nat ->
  Block.meetsTarget (Block.difficulty b) (Block.hash (Block.mineBlock b))
  = true.
Proof.
  intros Hidx Hd.
  destruct (mineBlock_outcome b Hidx) as (k & _ & [(_ & _ & Hm) | (_ & ->)]);
    [exact Hm|].
  simpl. rewrite meetsTarget_forcedHash. now apply Nat.leb_le.
Qed.
End Mining.

(** ** The SHA-256 instance *)

(** The published test vectors, in hexadecimal. *)
Example hexdigest_abc :
  Sha256.hexdigest "abc"
  = "ba7816bf8f01cfea414140de5dae2223b00361a396177a9cb410ff61f20015ad".
Proof. vm_compute. reflexivity. Qed.

Example hexdigest_two_blocks :
  Sha256.hexdigest "abcdbcdecdefdefgefghfghighijhijkijkljklmklmnlmnomnopnopq"
  = "248d6a61d20638b8e5c026930c3e6039a33ce45964ff2167f6ecedd419db06c1".
Proof. vm_compute. reflexivity. Qed.

(** The same digest as the code prints it. *)
Example digestToString_abc :
  Sha256.digestToString "abc"
  = "186,120,22,191,143,1,207,234,65,65,64,222,93,174,34,35,"
    ++ "176,3,97,163,150,23,122,156,180,16,255,97,242,0,21,173".
Proof. vm_compute. reflexivity. Qed.

(** A byte in decimal is ["0"] or starts with another digit. *)
Lemma decimal_first (b : Z) :
  0 <= b < 256 ->
  Sha256.decimal b = "0"
  \/ exists (c : ascii) (r : string),
       Sha256.decimal b = String c r /\ c <> "0"%char.
Proof.
  intros Hb.
  assert (Hall :
    forallb
      (fun n =>
         match Sha256.decimal (Z.of_nat n) with
         | EmptyString => false
         | String c r =>
             (Ascii.eqb c "0" && String.eqb r "") || negb (Ascii.eqb c "0")
         end)
      (seq 0 256) = true) by (vm_compute; reflexivity).
  rewrite forallb_forall in Hall.
  specialize (Hall (Z.to_nat b)).
  rewrite Z2Nat.id in Hall by lia.
  assert (Hin : In (Z.to_nat b) (seq 0 256)) by (apply in_seq; lia).
  specialize (Hall Hin).
  destruct (Sha256.decimal b) as [|c r]; [discriminate|].
  apply orb_true_iff in Hall. destruct Hall as [Hzero | Hother].
  - apply andb_true_iff in Hzero. destruct Hzero as [Hc Hr].
    apply Ascii.eqb_eq in Hc. apply String.eqb_eq in Hr. subst. now left.
  - right. exists c, r. split; [reflexivity|].
    intros ->. discriminate Hother.
Qed.

(** What [toString] prints never starts with two zeros: a zero element is
    followed by a comma. *)
Lemma toString_no_two_zeros (elements : list Z) (r : string) :
  (forall b, In b elements -> 0 <= b < 256) ->
  Sha256.toString elements <> String "0" (String "0" r).
Proof.
  intros Hrange. unfold Sha256.toString.
  destruct elements as [|b0 rest]; [discriminate|].
  destruct (decimal_first (Hrange b0 (or_introl eq_refl)))
    as [E | (c & r' & E & Hc)];
    destruct rest as [|b1 rest]; cbn [map String.concat]; rewrite E;
    cbn [String.append]; intros Heq; injection Heq;
    intros; try discriminate; congruence.
Qed.

Lemma bytes_range (s : Sha256.regs) (b : Z) :
  In b (Sha256.bytes s) -> 0 <= b < 256.
Proof.
  unfold Sha256.bytes. rewrite in_flat_map.
  intros (w & _ & Hb). cbn [Sha256.be_bytes In] in Hb.
  assert (Hland : forall x, 0 <= Z.land x 255 < 256).
  { intros x. change 255 with (Z.ones 8). rewrite Z.land_ones by lia.
    apply Z.mod_pos_bound. lia. }
  destruct Hb as [<- | [<- | [<- | [<- | []]]]]; apply Hland.
Qed.

Lemma two_zeros_of_meetsTarget (d : nat) (h : string) :
  (2 <= d)%nat -> Block.meetsTarget d h = true ->
  exists r, h = String "0" (String "0" r).
Proof.
  intros Hd Hm. destruct d as [|[|d]]; [lia | lia |].
  unfold Block.meetsTarget, JS.substring0 in Hm.
  apply String.eqb_eq in Hm. cbn [JS.repeat String.append] in Hm.
  destruct h as [|c1 [|c2 r]]; cbn [String.substring] in Hm;
    try discriminate Hm.
  injection Hm as -> -> _. now exists r.
Qed.

(** No digest, printed as the code prints it, meets a difficulty of two or
    more. *)
Lemma digestToString_misses (msg : string) (d : nat) :
  (2 <= d)%nat -> Block.meetsTarget d (Sha256.digestToString msg) = false.
Proof.
  intros Hd. destruct (Block.meetsTarget d _) eqn:Hm; [|reflexivity].
  destruct (two_zeros_of_meetsTarget _ Hd Hm) as [r Hr].
  exfalso. revert Hr. apply toString_no_two_zeros.
  intros b. apply bytes_range.
Qed.

(** Neither does any block the search examines, whatever block it starts
    from. *)
Lemma sha256_attempt_misses (now index : Z) (previousHash : string)
    (transactions : list Transaction.t) (difficulty j : nat) :
  (2 <= difficulty)%nat ->
  Block.meetsTarget difficulty
    (Block.hash
       (attempt j (@Block.constructor Sha256Crypto now index previousHash
                                      transactions difficulty)))
  = false.
Proof.
  intros Hd.
  assert (Hdiff : forall k,
    Block.difficulty
      (attempt k (@Block.constructor Sha256Crypto now index previousHash
                                     transactions difficulty))
    = difficulty).
  { intros k. rewrite attempt_difficulty. unfold Block.constructor.
    destruct (index =? 0); reflexivity. }
  destruct j as [|j].
  - unfold attempt, Block.constructor.
    destruct (index =? 0).
    + cbn [Block.hash Block.set_hash]. rewrite meetsTarget_forcedHash.
      apply Nat.leb_gt. lia.
    + apply digestToString_misses, Hd.
  - apply digestToString_misses, Hd.
Qed.

(** ** C1: proof of work *)

(** C1 (the code departs from it).  The claim: after [mineBlock] a
    non-genesis block of difficulty [d >= 1] has a hash starting with [d]
    zeros.  The code examines ten thousand blocks at most (the one it
    received and the next 9999 nonces); when all of them miss the target it
    writes the constant ['0' + '1'.repeat(63)], which has one leading zero
    and so misses every target of difficulty 2 or more.  In particular
    [new Block(1, 'prev123', [], 65).mineBlock()], at any time [now], ends
    with that constant: no digest, printed as the code prints it, starts
    with two zeros. *)
Theorem mineBlock_forced_hash_misses_target :
  (forall (C : Crypto) (b : Block.t),
     Block.index b <> 0 ->
     (forall j : nat, (j < 10000)%nat ->
        Block.meetsTarget (Block.difficulty b) (Block.hash (attempt j b))
        = false) ->
     Block.hash (Block.mineBlock b) = Block.forcedHash
     /\ ((2 <= Block.difficulty b)%nat ->
         JS.substring0 (Block.difficulty b) (Block.hash (Block.mineBlock b))
         <> JS.repeat "0" (Block.difficulty b)))
  /\ (forall now : Z,
        let mined := Block.mineBlock (Run.unreachable now) in
        Block.index mined = 1
        /\ Block.difficulty mined = 65%nat
        /\ Block.hash mined
           = "0111111111111111111111111111111111111111111111111111111111111111"
        /\ JS.substring0 (Block.difficulty mined) (Block.hash mined)
           <> JS.repeat "0" (Block.difficulty mined)).
Proof.
  assert (Hforced : forall d, (2 <= d)%nat ->
            JS.substring0 d Block.forcedHash <> JS.repeat "0" d).
  { intros d Hd. apply String.eqb_neq.
    change (Block.meetsTarget d Block.forcedHash = false).
    rewrite meetsTarget_forcedHash. apply Nat.leb_gt. lia. }
  split.
  - intros C b Hidx Hmiss.
    assert (Hhash : Block.hash (Block.mineBlock b) = Block.forcedHash)
      by now apply mineBlock_exhausted.
    split; [exact Hhash|].
    intros Hd. rewrite Hhash. now apply Hforced.
  - intros now mined.
    assert (Hidx : Block.index (Run.unreachable now) <> 0) by discriminate.
    assert (Hhash : Block.hash mined = Block.forcedHash).
    { apply mineBlock_exhausted; [exact Hidx|].
      intros j _.
      change (Block.difficulty (Run.unreachable now)) with 65%nat.
      unfold Run.unreachable.
      apply (@sha256_attempt_misses now 1 "prev123" [] 65 j). lia. }
    destruct (mineBlock_frame (Run.unreachable now)) as (Hi & _ & _ & Hd).
    fold mined in Hi, Hd.
    repeat split.
    + now rewrite Hi.
    + now rewrite Hd.
    + now rewrite Hhash.
    + rewrite Hd, Hhash. apply Hforced.
      change (Block.difficulty (Run.unreachable now)) with 65%nat. lia.
Qed.

(** ** C9: the genesis block *)

(** C9.  A new [Blockchain] holds one block: index 0, previous hash of 64
    zeros, no transactions, difficulty 1, a hash starting with ['0'].  The
    [Block] constructor at index 0 always writes the same hash, ['0']
    followed by 63 ['1'], whatever the time, the previous hash, the
    transactions and the difficulty; so any two new chains have the same
    genesis hash. *)
Theorem genesis_block_is_fixed `{Crypto} :
  (forall now difficulty miningReward,
     exists genesis,
       Blockchain.chain (Blockchain.constructor now difficulty miningReward)
         = [genesis]
       /\ Block.index genesis = 0
       /\ Block.previousHash genesis
          = "0000000000000000000000000000000000000000000000000000000000000000"
       /\ Block.transactions genesis = []
       /\ Block.difficulty genesis = 1%nat
       /\ JS.startsWith (Block.hash genesis) "0" = true)
  /\ (forall now previousHash transactions difficulty,
        Block.hash (Block.constructor now 0 previousHash transactions
                                      difficulty)
        = "0111111111111111111111111111111111111111111111111111111111111111")
  /\ (forall now1 d1 r1 now2 d2 r2,
        map Block.hash (Blockchain.chain (Blockchain.constructor now1 d1 r1))
        = map Block.hash
              (Blockchain.chain (Blockchain.constructor now2 d2 r2))).
Proof.
  split; [|split].
  - intros now d r. eexists. split; [reflexivity|].
    repeat split.
  - reflexivity.
  - reflexivity.
Qed.

(** ** C10: serialization round trip *)

Lemma transaction_roundtrip (uuid : string) (now : Z) (tx : Transaction.t) :
  Transaction.fromJSON uuid now (Transaction.toJSON tx) = tx.
Proof.
  destruct tx; reflexivity.
Qed.

(** C10.  [fromJSON (toJSON x)] has the field values of [x], for a
    transaction (id, fromAddress, toAddress, amount, timestamp, type,
    signature) and for a block (index, timestamp, previousHash, hash, nonce,
    difficulty, merkleRoot and every transaction), whatever fresh ids and
    clock readings the constructors draw while rebuilding. *)
Theorem toJSON_fromJSON_roundtrip `{Crypto} :
  (forall (uuid : string) (now : Z) (tx : Transaction.t),
     Transaction.fromJSON uuid now (Transaction.toJSON tx) = tx)
  /\ (forall (now : Z) (fresh : Transaction.json -> string * Z)
             (block : Block.t),
        Block.fromJSON now (Block.toJSON block)
          (fun data =>
             Transaction.fromJSON (fst (fresh data)) (snd (fresh data)) data)
        = block).
Proof.
  split; [exact transaction_roundtrip|].
  intros now fresh [index timestamp previousHash transactions difficulty
                    nonce merkleRoot hash].
  assert (Htxs :
    map (fun data =>
           Transaction.fromJSON (fst (fresh data)) (snd (fresh data)) data)
        (map Transaction.toJSON transactions) = transactions).
  { induction transactions as [|tx txs IH]; [reflexivity|].
    cbn [map]. now rewrite transaction_roundtrip, IH. }
  unfold Block.fromJSON, Block.toJSON, Block.constructor.
  cbn [Block.json_index Block.json_timestamp Block.json_previousHash
       Block.json_hash Block.json_nonce Block.json_difficulty
       Block.json_merkleRoot Block.json_transactions
       Block.index Block.timestamp Block.previousHash Block.hash Block.nonce
       Block.difficulty Block.merkleRoot Block.transactions].
  rewrite Htxs.
  destruct (index =? 0); reflexivity.
Qed.


(** ** C6: admission to the mempool *)

Ltac run_completion :=
  unfold Blockchain.addTransaction, Blockchain.replaceChain, Blockchain.emit,
         bind, when, throw, ret, get, modify;
  cbn [final_state returned].

(** The exact behaviour of [addTransaction]: the four checks in the order
    of the source, then the push, the event and the returned height. *)
Lemma addTransaction_run (this : Blockchain.t) (tx : Transaction.t) :
  Blockchain.addTransaction tx this
  = if JS.falsy (Transaction.fromAddress tx) && negb (Blockchain.isReward tx)
    then Throw (JS.Error "交易必须有发送方地址或是挖矿奖励") this
    else if JS.falsy (Transaction.toAddress tx)
    then Throw (JS.Error "交易必须有接收方地址") this
    else if Transaction.amount tx <=? 0
    then Throw (JS.Error "交易金额必须大于0") this
    else if negb (JS.falsy (Transaction.fromAddress tx))
            && negb (Blockchain.isReward tx)
            && (Blockchain.getBalanceOfAddress this
                  (Transaction.fromAddress tx) <? Transaction.amount tx)
    then Throw (JS.Error "余额不足") this
    else
      let this' :=
        Blockchain.mk (Blockchain.chain this) (Blockchain.difficulty this)
                      (Blockchain.pendingTransactions this ++ [tx])
                      (Blockchain.miningReward this)
                      (Blockchain.emitted this
                         ++ [Blockchain.transactionAdded tx]) in
      match Blockchain.getLatestBlock this with
      | None => Throw (JS.TypeError "getLatestBlock().index") this'
      | Some latest => Normal (Block.index latest + 1) this'
      end.
Proof.
  run_completion.
  unfold Blockchain.getLatestBlock, Blockchain.set_pendingTransactions.
  cbn [Blockchain.chain Blockchain.difficulty Blockchain.pendingTransactions
       Blockchain.miningReward Blockchain.emitted].
  destruct (JS.falsy (Transaction.fromAddress tx));
    destruct (Blockchain.isReward tx);
    destruct (JS.falsy (Transaction.toAddress tx));
    destruct (Transaction.amount tx <=? 0);
    cbn [andb negb]; try reflexivity;
    try (destruct (Blockchain.getBalanceOfAddress this
                     (Transaction.fromAddress tx) <? Transaction.amount tx);
         try reflexivity);
    (destruct (Blockchain.chain this) as [|genesis rest]; [reflexivity|];
     destruct (nth_error _ _); reflexivity).
Qed.

Lemma rejected_run (this : Blockchain.t) (tx : Transaction.t) :
  rejected this tx
  = (JS.falsy (Transaction.fromAddress tx) && negb (Blockchain.isReward tx))
    || JS.falsy (Transaction.toAddress tx)
    || (Transaction.amount tx <=? 0)
    || (negb (JS.falsy (Transaction.fromAddress tx))
        && negb (Blockchain.isReward tx)
        && (Blockchain.getBalanceOfAddress this (Transaction.fromAddress tx)
            <? Transaction.amount tx)).
Proof.
  unfold rejected.
  destruct (JS.falsy (Transaction.fromAddress tx));
    destruct (Blockchain.isReward tx);
    destruct (JS.falsy (Transaction.toAddress tx));
    destruct (Transaction.amount tx <=? 0);
    destruct (Blockchain.getBalanceOfAddress this
                (Transaction.fromAddress tx) <? Transaction.amount tx);
    reflexivity.
Qed.

Lemma addTransaction_outcome (this : Blockchain.t) (tx : Transaction.t) :
  if rejected this tx
  then InvalidTransaction this (Blockchain.addTransaction tx this)
  else
    Blockchain.pendingTransactions
      (final_state (Blockchain.addTransaction tx this))
    = (Blockchain.pendingTransactions this ++ [tx])%list
    /\ ~ InvalidTransaction this (Blockchain.addTransaction tx this).
Proof.
  rewrite rejected_run, addTransaction_run. unfold InvalidTransaction.
  destruct (JS.falsy (Transaction.fromAddress tx)
            && negb (Blockchain.isReward tx));
    [eexists; reflexivity|].
  destruct (JS.falsy (Transaction.toAddress tx)); [eexists; reflexivity|].
  destruct (Transaction.amount tx <=? 0); [eexists; reflexivity|].
  destruct (negb (JS.falsy (Transaction.fromAddress tx))
            && negb (Blockchain.isReward tx)
            && (Blockchain.getBalanceOfAddress this
                  (Transaction.fromAddress tx) <? Transaction.amount tx));
    [eexists; reflexivity|].
  cbn [orb].
  destruct (Blockchain.getLatestBlock this); cbn [final_state];
    (split; [reflexivity | intros [message E]; discriminate E]).
Qed.

Lemma addTransaction_chain (this : Blockchain.t) (tx : Transaction.t) :
  Blockchain.chain (final_state (Blockchain.addTransaction tx this))
  = Blockchain.chain this.
Proof.
  rewrite addTransaction_run.
  repeat match goal with
         | |- context [if ?c then _ else _] => destruct c
         end; try reflexivity.
  destruct (Blockchain.getLatestBlock this); reflexivity.
Qed.

(** C6.  [addTransaction] ends with an [InvalidTransaction] outcome (an
    [Error] thrown with the state, hence the mempool, as it was) exactly
    when the recipient is absent, the amount is not positive, or, for a
    transaction that is not a reward, the sender is absent or its replayed
    balance is below the amount; in every other case the transaction
    becomes the last element of the mempool.  Absent means falsy: [null]
    or the empty string. *)
Theorem addTransaction_rejects_exactly :
  forall (this : Blockchain.t) (tx : Transaction.t),
    (InvalidTransaction this (Blockchain.addTransaction tx this)
     <-> rejected this tx = true)
    /\ (if rejected this tx
        then final_state (Blockchain.addTransaction tx this) = this
        else Blockchain.pendingTransactions
               (final_state (Blockchain.addTransaction tx this))
             = (Blockchain.pendingTransactions this ++ [tx])%list).
Proof.
  intros this tx.
  pose proof (addTransaction_outcome this tx) as Hout.
  destruct (rejected this tx).
  - split.
    + split; [reflexivity | intros _; exact Hout].
    + destruct Hout as [message ->]. reflexivity.
  - destruct Hout as [Hpush Hnot]. split.
    + split; [intros Hinv; now elim Hnot | discriminate].
    + exact Hpush.
Qed.

(** A transfer from an address that holds nothing is refused. *)
Example addTransaction_insufficient_balance :
  Blockchain.addTransaction
    (Transaction.constructor "77aa-overdraft" 1700000006500
                             (Some "B") (Some "A") 10 None)
    Run.funded
  = Throw (JS.Error "余额不足") Run.funded.
Proof. reflexivity. Qed.

(** ** C3: fork resolution *)

(** C3.  [replaceChain] returns [true] and installs the candidate exactly
    when the candidate is strictly longer than the current chain and
    [isValidChain] returns [true] for it; otherwise it returns [false] with
    the state (chain, difficulty, mempool) as it was.  It never throws: the
    only exception of [isValidChain], on an empty array, is out of reach
    behind the length test.  An accepted replacement changes the chain and
    emits [chainReplaced]; difficulty and mempool stay. *)
Theorem replaceChain_accepts_exactly :
  forall (this : Blockchain.t) (newChain : list Block.t),
    Blockchain.replaceChain newChain this
    = (if longerAndValid this newChain
       then Normal true (replacedBy newChain this)
       else Normal false this)
    /\ (longerAndValid this newChain = true
        <-> (List.length (Blockchain.chain this) < List.length newChain)%nat
            /\ Blockchain.isValidChain newChain = inr true)
    /\ Blockchain.chain (replacedBy newChain this) = newChain
    /\ Blockchain.difficulty (replacedBy newChain this)
       = Blockchain.difficulty this
    /\ Blockchain.pendingTransactions (replacedBy newChain this)
       = Blockchain.pendingTransactions this.
Proof.
  intros this newChain. split; [|split; [|repeat split]].
  - run_completion. unfold longerAndValid.
    rewrite Nat.ltb_antisym.
    destruct (List.length newChain <=? List.length (Blockchain.chain this))%nat
      eqn:Hlen; cbn [negb andb]; [reflexivity|].
    destruct newChain as [|genesis rest].
    { apply Nat.leb_gt in Hlen. cbn [List.length] in Hlen. lia. }
    unfold Blockchain.isValidChain.
    destruct (negb (Block.index genesis =? 0)
              || negb (JS.startsWith (Block.hash genesis) "0"));
      cbn [negb]; [reflexivity|].
    destruct (Blockchain.isValidChain_from genesis rest); reflexivity.
  - unfold longerAndValid. rewrite andb_true_iff, Nat.ltb_lt.
    destruct (Blockchain.isValidChain newChain) as [e|[|]];
      split; intros [Hl Hv]; split; auto; discriminate.
Qed.

(** The three cases of the repository's fork-choice tests. *)
Example replaceChain_longer_valid :
  returned (Blockchain.replaceChain (Blockchain.chain Run.funded) Run.fresh)
  = Some true.
Proof. reflexivity. Qed.

Example replaceChain_not_longer :
  Blockchain.replaceChain (Blockchain.chain Run.fresh) Run.funded
  = Normal false Run.funded.
Proof. reflexivity. Qed.

Example replaceChain_broken_link :
  Blockchain.replaceChain
    (update 1 (Block.set_previousHash "wrongPreviousHash")
            (Blockchain.chain Run.funded))
    Run.fresh
  = Normal false Run.fresh.
Proof. reflexivity. Qed.

(** ** C5: signatures at admission *)

Lemma rejected_ignores_signature (this : Blockchain.t) (tx : Transaction.t)
    (signature : option string) :
  rejected this (Transaction.set_signature signature tx) = rejected this tx.
Proof. reflexivity. Qed.

(** C5 (amended).  [addTransaction] never looks at the signature: a
    transaction carrying any signature value, missing or not verifying
    included, meets an [InvalidTransaction] outcome exactly when the
    recipient, amount, sender and balance checks of C6 fail, and is appended
    to the mempool otherwise.  Signatures are examined by
    [Transaction.isValid] only, which throws on a missing sender or
    signature and otherwise returns the verdict of [verifySignature]; no
    admission path calls it. *)
Theorem addTransaction_ignores_signature `{Crypto} `{Ecdsa} :
  forall (this : Blockchain.t) (tx : Transaction.t)
         (signature : option string),
    let signed := Transaction.set_signature signature tx in
    rejected this signed = rejected this tx
    /\ (if rejected this tx
        then InvalidTransaction this (Blockchain.addTransaction signed this)
        else Blockchain.pendingTransactions
               (final_state (Blockchain.addTransaction signed this))
             = (Blockchain.pendingTransactions this ++ [signed])%list)
    /\ (forall publicKey : string,
          Transaction.isValid signed publicKey
          = if Blockchain.isReward tx then inr true
            else if JS.falsy (Transaction.fromAddress tx)
            then inl (JS.Error "没有发送方地址")
            else if JS.falsy signature
            then inl (JS.Error "没有找到交易签名")
            else inr (verifySignature
                        (Transaction.calculateHash signed)
                        (match signature with Some sig => sig | None => "" end)
                        publicKey)).
Proof.
  intros this tx signature signed. subst signed.
  split; [reflexivity|]. split.
  - pose proof (addTransaction_outcome this
                  (Transaction.set_signature signature tx)) as Hout.
    rewrite rejected_ignores_signature in Hout.
    destruct (rejected this tx); [exact Hout | exact (proj1 Hout)].
  - intros publicKey. unfold Transaction.isValid, Blockchain.isReward.
    cbn [Transaction.type Transaction.fromAddress
         Transaction.signature Transaction.set_signature].
    destruct (Transaction.type tx =? "reward")%string; [reflexivity|].
    destruct (JS.falsy (Transaction.fromAddress tx)); [reflexivity|].
    destruct signature as [sig|]; [|reflexivity].
    cbn [JS.falsy]. destruct (sig =? "")%string; reflexivity.
Qed.

(** C5 (counterexample).  On the chain where [A] holds 50, a transfer of 30
    from [A] to [B] that was never signed is admitted: [addTransaction]
    returns the next height and the transfer is in the mempool. *)
Lemma unsigned_transfer_is_admitted :
  Transaction.type Run.unsigned = "regular"
  /\ Transaction.signature Run.unsigned = None
  /\ Blockchain.getBalanceOfAddress Run.funded (Some "A") = 50
  /\ returned (Blockchain.addTransaction Run.unsigned Run.funded) = Some 2
  /\ ~ InvalidTransaction Run.funded
        (Blockchain.addTransaction Run.unsigned Run.funded)
  /\ Blockchain.pendingTransactions
       (final_state (Blockchain.addTransaction Run.unsigned Run.funded))
     = [Run.unsigned].
Proof.
  assert (Hreturned :
    returned (Blockchain.addTransaction Run.unsigned Run.funded) = Some 2)
    by (vm_compute; reflexivity).
  do 3 (split; [reflexivity|]).
  split; [exact Hreturned|].
  split.
  - intros [message E]. rewrite E in Hreturned. discriminate Hreturned.
  - vm_compute. reflexivity.
Qed.

(** ** C4: transactions received from peers *)

Lemma handleNewTransaction_run (node : P2PNode.t) (uuid : string) (now : Z)
    (data : Transaction.json) :
  P2PNode.handleNewTransaction uuid now data node = Normal tt node.
Proof. reflexivity. Qed.

(** C4 (the code departs from it).  The claim: a transaction received from
    a peer is admitted as a local submission would be.  The handler's first
    statement evaluates [Transaction.fromJSON], and the module binds no
    [Transaction]: the [ReferenceError] is caught and logged, so for every
    node and every data nothing enters the mempool and nothing is sent.
    Here: the transfer of 30 from [A], who holds 50, to [B], which
    [addTransaction] admits on the same chain, received by a node with one
    peer. *)
Theorem handleNewTransaction_admits_nothing :
  (forall (node : P2PNode.t) (uuid : string) (now : Z)
          (data : Transaction.json),
     P2PNode.handleNewTransaction uuid now data node = Normal tt node)
  /\ (forall (uuid : string) (now : Z),
        let received := Transaction.fromJSON uuid now Run.transfer in
        let after :=
          final_state (P2PNode.handleNewTransaction uuid now Run.transfer
                                                    Run.peer) in
        received = Run.unsigned
        /\ rejected Run.funded received = false
        /\ Blockchain.pendingTransactions
             (final_state (Blockchain.addTransaction received Run.funded))
           = [received]
        /\ Blockchain.pendingTransactions (P2PNode.blockchain Run.peer) = []
        /\ Blockchain.pendingTransactions (P2PNode.blockchain after) = []
        /\ P2PNode.sent after = []).
Proof.
  split; [exact handleNewTransaction_run|].
  intros uuid now received after. subst received after.
  rewrite handleNewTransaction_run.
  assert (Hreceived : Transaction.fromJSON uuid now Run.transfer
                      = Run.unsigned) by reflexivity.
  rewrite Hreceived.
  assert (Hok : rejected Run.funded Run.unsigned = false)
    by (vm_compute; reflexivity).
  split; [reflexivity|]. split; [exact Hok|].
  split; [|repeat split].
  rewrite rejected_run in Hok. rewrite addTransaction_run.
  change (Blockchain.getLatestBlock Run.funded)
    with (nth_error (Blockchain.chain Run.funded) 1).
  cbn [Blockchain.chain Run.funded nth_error].
  destruct (JS.falsy (Transaction.fromAddress Run.unsigned)
            && negb (Blockchain.isReward Run.unsigned)); [discriminate|].
  destruct (JS.falsy (Transaction.toAddress Run.unsigned)); [discriminate|].
  destruct (Transaction.amount Run.unsigned <=? 0); [discriminate|].
  destruct (negb (JS.falsy (Transaction.fromAddress Run.unsigned))
            && negb (Blockchain.isReward Run.unsigned)
            && (Blockchain.getBalanceOfAddress Run.funded
                  (Transaction.fromAddress Run.unsigned)
                <? Transaction.amount Run.unsigned));
    [discriminate|].
  reflexivity.
Qed.

(** ** C2: tampering with a confirmed amount *)

Section Validation.
Context `{Crypto}.

Lemma isChainValid_from_header (previous : Block.t) (rest : list Block.t) :
  Blockchain.isChainValid_from previous rest
  = Blockchain.isChainValid_from (header previous) (map header rest).
Proof.
  revert previous; induction rest as [|current rest IH]; intros previous;
    [reflexivity|].
  cbn [map Blockchain.isChainValid_from]. rewrite (IH current).
  reflexivity.
Qed.

Lemma header_update (i : nat) (f : Block.t -> Block.t) (l : list Block.t) :
  (forall b, header (f b) = header b) ->
  map header (update i f l) = map header l.
Proof.
  intros Hf. revert i; induction l as [|b l IH]; intros [|i];
    cbn [update map]; rewrite ?Hf, ?IH; reflexivity.
Qed.

Lemma isChainValid_tamperAmount (this : Blockchain.t) (i j : nat) (v : Z) :
  Blockchain.isChainValid (tamperAmount i j v this)
  = Blockchain.isChainValid this.
Proof.
  assert (Hmap :
    map header (Blockchain.chain (tamperAmount i j v this))
    = map header (Blockchain.chain this)).
  { apply header_update. reflexivity. }
  unfold Blockchain.isChainValid.
  destruct (Blockchain.chain (tamperAmount i j v this)) as [|g rest];
    destruct (Blockchain.chain this) as [|g' rest'];
    try discriminate Hmap; [reflexivity|].
  cbn [map] in Hmap.
  pose proof (f_equal (hd (header g)) Hmap) as Hg.
  pose proof (f_equal (@tl _) Hmap) as Hrest.
  cbn [hd tl] in Hg, Hrest.
  rewrite (isChainValid_from_header g rest).
  rewrite (isChainValid_from_header g' rest').
  now rewrite Hg, Hrest.
Qed.

Lemma update_length {A} (n : nat) (f : A -> A) (l : list A) :
  List.length (update n f l) = List.length l.
Proof.
  revert n; induction l as [|x l IH]; intros [|n]; cbn [update List.length];
    rewrite ?IH; reflexivity.
Qed.

Lemma update_map {A B} (g : A -> B) (n : nat) (f : A -> A) (l : list A) :
  (forall x, g (f x) = g x) -> map g (update n f l) = map g l.
Proof.
  intros Hf. revert n; induction l as [|x l IH]; intros [|n];
    cbn [update map]; rewrite ?Hf, ?IH; reflexivity.
Qed.

(** The per-block check recomputes the Merkle root, but the root is made
    from the ids of the transactions: it misses the change as well. *)
Lemma isValid_tampered_amount (block : Block.t) (j : nat) (v : Z) :
  Block.isValid
    (Block.set_transactions
       (update j (Transaction.set_amount v) (Block.transactions block))
       block)
  = Block.isValid block.
Proof.
  unfold Block.isValid, Block.calculateMerkleRoot.
  cbn [Block.transactions Block.set_transactions Block.difficulty
       Block.hash Block.merkleRoot].
  rewrite update_length, update_map by reflexivity.
  reflexivity.
Qed.
End Validation.

Lemma funded_is_mined :
  Run.funded
  = final_state
      (Blockchain.minePendingTransactions
         "9b2e4f6a-reward" 1700000005071 1700000005071 (Some "A") Run.fresh).
Proof. vm_compute. reflexivity. Qed.

(** C2 (the code departs from it).  The claim, asserted by the
    repository's own test, is that changing a confirmed transaction's
    amount makes [isChainValid] return [false].  [isChainValid] reads block
    headers only and compares the hash with a digest of the stored
    [merkleRoot], so its verdict is the same before and after the change,
    for every chain, position and amount; and the per-block [isValid], which
    does recompute the root, is blind to it too because the root covers ids
    only.  Here: the chain of a new [Blockchain(1)] after one mined block
    is valid, and still valid after [chain[1].transactions[0].amount = 100]. *)
Theorem isChainValid_misses_tampered_amount :
  (forall (C : Crypto) (this : Blockchain.t) (i j : nat) (v : Z),
     Blockchain.isChainValid (tamperAmount i j v this)
     = Blockchain.isChainValid this)
  /\ (forall (C : Crypto) (block : Block.t) (j : nat) (v : Z),
        Block.isValid
          (Block.set_transactions
             (update j (Transaction.set_amount v) (Block.transactions block))
             block)
        = Block.isValid block)
  /\ Blockchain.isChainValid Run.funded = true
  /\ map (fun b => map Transaction.amount (Block.transactions b))
         (Blockchain.chain Run.funded) = [[]; [50]]
  /\ map (fun b => map Transaction.amount (Block.transactions b))
         (Blockchain.chain Run.tampered) = [[]; [100]]
  /\ map Block.hash (Blockchain.chain Run.tampered)
     = map Block.hash (Blockchain.chain Run.funded)
  /\ Blockchain.isChainValid Run.tampered = true.
Proof.
  split; [exact (@isChainValid_tamperAmount)|].
  split; [exact (@isValid_tampered_amount)|].
  assert (Hvalid : Blockchain.isChainValid Run.funded = true)
    by (vm_compute; reflexivity).
  split; [exact Hvalid|].
  do 3 (split; [reflexivity|]).
  unfold Run.tampered. now rewrite isChainValid_tamperAmount.
Qed.

(** ** C7: balances *)

Lemma fold_balance (address : option string) (txs : list Transaction.t)
    (start : Z) :
  fold_left
    (fun balance transaction =>
       let balance :=
         if JS.strictEq (Transaction.toAddress transaction) address
         then balance + Transaction.amount transaction
         else balance in
       if JS.strictEq (Transaction.fromAddress transaction) address
       then balance - Transaction.amount transaction
       else balance)
    txs start
  = start + sumZ (map (contribution address) txs).
Proof.
  unfold sumZ.
  revert start; induction txs as [|tx txs IH]; intros start;
    cbn [fold_left map fold_right]; [lia|].
  rewrite IH. unfold contribution.
  destruct (JS.strictEq (Transaction.toAddress tx) address);
    destruct (JS.strictEq (Transaction.fromAddress tx) address);
    lia.
Qed.

(** The loops of [getBalanceOfAddress] compute the replayed balance. *)
Lemma getBalanceOfAddress_replays (this : Blockchain.t)
    (address : option string) :
  Blockchain.getBalanceOfAddress this address
  = replayedBalance (Blockchain.chain this) address.
Proof.
  unfold Blockchain.getBalanceOfAddress, replayedBalance.
  generalize (Blockchain.chain this) as chain.
  assert (Hgen : forall chain start,
    fold_left
      (fun balance block =>
         fold_left
           (fun balance transaction =>
              let balance :=
                if JS.strictEq (Transaction.toAddress transaction) address
                then balance + Transaction.amount transaction
                else balance in
              if JS.strictEq (Transaction.fromAddress transaction) address
              then balance - Transaction.amount transaction
              else balance)
           (Block.transactions block) balance)
      chain start
    = start
      + sumZ (map (fun block =>
                     sumZ (map (contribution address)
                               (Block.transactions block)))
                  chain)).
  { induction chain as [|block chain IH]; intros start;
      cbn [fold_left map]; [cbn; lia|].
    rewrite IH, fold_balance.
    set (rest := map _ chain).
    set (here := sumZ (map _ (Block.transactions block))).
    change (sumZ (here :: rest)) with (here + sumZ rest). lia. }
  intros chain. now rewrite Hgen.
Qed.

Lemma strictEq_same (a : string) : JS.strictEq (Some a) (Some a) = true.
Proof. apply String.eqb_refl. Qed.

Lemma strictEq_other (a b : string) :
  a <> b -> JS.strictEq (Some a) (Some b) = false.
Proof. intros Hne. now apply String.eqb_neq. Qed.

(** ** C8: mining the mempool *)

Section Appending.
Context `{Crypto}.

Lemma constructor_frame (now index : Z) (previousHash : string)
    (transactions : list Transaction.t) (difficulty : nat) :
  let block :=
    Block.constructor now index previousHash transactions difficulty in
  Block.index block = index
  /\ Block.previousHash block = previousHash
  /\ Block.transactions block = transactions
  /\ Block.difficulty block = difficulty.
Proof.
  unfold Block.constructor. destruct (index =? 0); repeat split.
Qed.

Lemma minePendingTransactions_run (this : Blockchain.t) (tip : Block.t)
    (uuid : string) (txNow blockNow : Z) (miner : option string) :
  Blockchain.getLatestBlock this = Some tip ->
  Blockchain.minePendingTransactions uuid txNow blockNow miner this
  = let block := minedOn this tip uuid txNow blockNow miner in
    Normal block
      (Blockchain.mk (Blockchain.chain this ++ [block])
                     (Blockchain.difficulty this) []
                     (Blockchain.miningReward this)
                     (Blockchain.emitted this ++ [Blockchain.blockMined block])).
Proof.
  intros Htip.
  unfold Blockchain.minePendingTransactions, Blockchain.emit, bind, get,
         modify, ret.
  change (Blockchain.getLatestBlock
            (Blockchain.set_pendingTransactions _ this))
    with (Blockchain.getLatestBlock this).
  rewrite Htip. reflexivity.
Qed.

Lemma minePendingTransactions_no_tip (this : Blockchain.t)
    (uuid : string) (txNow blockNow : Z) (miner : option string) :
  Blockchain.getLatestBlock this = None ->
  returned (Blockchain.minePendingTransactions uuid txNow blockNow miner this)
  = None.
Proof.
  intros Htip.
  unfold Blockchain.minePendingTransactions, Blockchain.emit, bind, get,
         modify, ret, throw.
  change (Blockchain.getLatestBlock
            (Blockchain.set_pendingTransactions _ this))
    with (Blockchain.getLatestBlock this).
  rewrite Htip. reflexivity.
Qed.

Lemma minedOn_frame (this : Blockchain.t) (tip : Block.t) (uuid : string)
    (txNow blockNow : Z) (miner : option string) :
  let block := minedOn this tip uuid txNow blockNow miner in
  Block.index block = Block.index tip + 1
  /\ Block.previousHash block = Block.hash tip
  /\ Block.transactions block
     = (Blockchain.pendingTransactions this
          ++ [rewardOf this uuid txNow miner])%list.
Proof.
  unfold minedOn.
  match goal with
  | |- context [Block.mineBlock ?b] =>
      destruct (mineBlock_frame b) as (Hi & Hp & Ht & _)
  end.
  cbv zeta. rewrite Hi, Hp, Ht.
  match goal with
  | |- context [Block.constructor ?n ?i ?p ?t ?d] =>
      destruct (constructor_frame n i p t d) as (Hi' & Hp' & Ht' & _)
  end.
  now rewrite Hi', Hp', Ht'.
Qed.

Lemma getLatestBlock_last (this : Blockchain.t) (tip : Block.t) :
  Blockchain.getLatestBlock this = Some tip ->
  exists front, Blockchain.chain this = (front ++ [tip])%list.
Proof.
  unfold Blockchain.getLatestBlock.
  destruct (Blockchain.chain this) as [|g rest] eqn:E; [discriminate|].
  destruct (@exists_last _ (g :: rest)) as (front & last & Elast);
    [discriminate|].
  rewrite Elast, length_app, nth_error_app2 by (cbn [List.length]; lia).
  cbn [List.length].
  replace (List.length front + 1 - 1 - List.length front)%nat with O by lia.
  cbn [nth_error]. intros [= ->]. now exists front.
Qed.

Lemma linked_snoc (front : list Block.t) (tip block : Block.t) :
  linked (front ++ [tip]) ->
  Block.previousHash block = Block.hash tip ->
  linked ((front ++ [tip]) ++ [block]).
Proof.
  intros Hlinked Hprev i previous current Hp Hc.
  assert (Hlen : List.length (front ++ [tip]) = S (List.length front)).
  { rewrite length_app. cbn [List.length]. lia. }
  destruct (Nat.lt_ge_cases (S i) (List.length (front ++ [tip])))
    as [Hin|Hout].
  - rewrite nth_error_app1 in Hp, Hc by lia.
    exact (Hlinked i previous current Hp Hc).
  - destruct (Nat.eq_dec (S i) (List.length (front ++ [tip]))) as [Heq|Hne].
    + rewrite nth_error_app2 in Hc by lia.
      rewrite Heq, Nat.sub_diag in Hc. cbn [nth_error] in Hc.
      injection Hc as <-.
      rewrite nth_error_app1 in Hp by lia.
      rewrite nth_error_app2 in Hp by lia.
      replace (i - List.length front)%nat with O in Hp by lia.
      cbn [nth_error] in Hp. injection Hp as <-. exact Hprev.
    + assert (Hnone : nth_error ((front ++ [tip]) ++ [block]) (S i) = None).
      { apply nth_error_None. rewrite length_app. cbn [List.length]. lia. }
      rewrite Hnone in Hc. discriminate.
Qed.

Lemma grown_linked (this : Blockchain.t) :
  grown this -> linked (Blockchain.chain this).
Proof.
  induction 1 as [now d r
                 | this uuid txNow blockNow miner block this' _ IH Hmine
                 | this tx _ IH
                 | this pool _ IH
                 | this d _ IH].
  - intros i previous current _ Hc.
    cbn [Blockchain.chain Blockchain.constructor nth_error] in Hc.
    destruct i; discriminate Hc.
  - destruct (Blockchain.getLatestBlock this) as [tip|] eqn:Htip.
    + rewrite (minePendingTransactions_run _ _ _ _ _ Htip) in Hmine.
      cbv zeta in Hmine. injection Hmine as _ <-.
      cbn [Blockchain.chain].
      destruct (getLatestBlock_last _ Htip) as [front Efront].
      rewrite Efront in *.
      apply linked_snoc; [exact IH|].
      apply (minedOn_frame this tip uuid txNow blockNow miner).
    + pose proof (minePendingTransactions_no_tip
                    this uuid txNow blockNow miner Htip) as Hnone.
      rewrite Hmine in Hnone. discriminate.
  - now rewrite addTransaction_chain.
  - exact IH.
  - exact IH.
Qed.
End Appending.

(** C8.  On a chain with tip [tip] and mempool [P],
    [minePendingTransactions(miner)] returns normally, appends exactly one
    block, of index [tip.index + 1] and previous hash [tip.hash], whose
    transactions are [P] followed by one reward transaction (no sender,
    recipient [miner], amount [miningReward], type reward), and leaves the
    mempool empty.  Hence every chain grown from a new [Blockchain] has
    [chain[i].previousHash == chain[i-1].hash] for all [i >= 1]. *)
Theorem minePendingTransactions_appends_one_block `{Crypto} :
  (forall (this : Blockchain.t) (tip : Block.t) (uuid : string)
          (txNow blockNow : Z) (miner : option string),
     Blockchain.getLatestBlock this = Some tip ->
     exists (block : Block.t) (rewardTx : Transaction.t)
            (this' : Blockchain.t),
       Blockchain.minePendingTransactions uuid txNow blockNow miner this
         = Normal block this'
       /\ Blockchain.chain this' = (Blockchain.chain this ++ [block])%list
       /\ Block.index block = Block.index tip + 1
       /\ Block.previousHash block = Block.hash tip
       /\ Block.transactions block
          = (Blockchain.pendingTransactions this ++ [rewardTx])%list
       /\ Transaction.fromAddress rewardTx = None
       /\ Transaction.toAddress rewardTx = miner
       /\ Transaction.amount rewardTx = Blockchain.miningReward this
       /\ Transaction.type rewardTx = "reward"
       /\ Blockchain.pendingTransactions this' = [])
  /\ (forall this : Blockchain.t,
        grown this -> linked (Blockchain.chain this)).
Proof.
  split; [|exact grown_linked].
  intros this tip uuid txNow blockNow miner Htip.
  destruct (minedOn_frame this tip uuid txNow blockNow miner)
    as (Hi & Hp & Ht).
  eexists; exists (rewardOf this uuid txNow miner); eexists.
  split; [exact (minePendingTransactions_run _ _ _ _ _ Htip)|].
  cbv zeta. cbn [Blockchain.chain Blockchain.pendingTransactions].
  repeat split; assumption.
Qed.

Lemma minePendingTransactions_appends_one_block_witness :
  Blockchain.getLatestBlock Run.fresh
    = Some (Blockchain.createGenesisBlock 1700000000000)
  /\ (exists (block : Block.t) (rewardTx : Transaction.t)
             (this' : Blockchain.t),
        Blockchain.minePendingTransactions
          "9b2e4f6a-reward" 1700000005071 1700000005071 (Some "A") Run.fresh
          = Normal block this'
        /\ Blockchain.chain this' = (Blockchain.chain Run.fresh ++ [block])%list
        /\ Block.index block
           = Block.index (Blockchain.createGenesisBlock 1700000000000) + 1
        /\ Block.previousHash block
           = Block.hash (Blockchain.createGenesisBlock 1700000000000)
        /\ Block.transactions block
           = (Blockchain.pendingTransactions Run.fresh ++ [rewardTx])%list
        /\ Transaction.fromAddress rewardTx = None
        /\ Transaction.toAddress rewardTx = Some "A"
        /\ Transaction.amount rewardTx = Blockchain.miningReward Run.fresh
        /\ Transaction.type rewardTx = "reward"
        /\ Blockchain.pendingTransactions this' = [])
  /\ grown Run.fresh
  /\ linked (Blockchain.chain Run.fresh).
Proof.
  split; [reflexivity|].
  split.
  - apply (proj1 (@minePendingTransactions_appends_one_block Sha256Crypto)).
    reflexivity.
  - split.
    + apply grown_new.
    + apply (proj2 (@minePendingTransactions_appends_one_block Sha256Crypto)).
      apply grown_new.
Defined.

(** ** C7, continued: the balance scenario *)

Section Scenario.
Context `{Crypto}.

Lemma balance_of_transactions (this : Blockchain.t)
    (address : option string) (confirmed : list (list Transaction.t)) :
  map Block.transactions (Blockchain.chain this) = confirmed ->
  Blockchain.getBalanceOfAddress this address
  = sumZ (map (fun txs => sumZ (map (contribution address) txs)) confirmed).
Proof.
  intros <-. rewrite getBalanceOfAddress_replays. unfold replayedBalance.
  now rewrite map_map.
Qed.

Variables (now : Z) (A B M : string) (u1 u2 u3 : string)
          (t1 t1' t2 t3 t3' : Z).

Let rewardA : Transaction.t :=
  Transaction.constructor u1 t1 None (Some A) 50 (Some "reward").
Let transfer : Transaction.t :=
  Transaction.constructor u2 t2 (Some A) (Some B) 30 None.
Let rewardM : Transaction.t :=
  Transaction.constructor u3 t3 None (Some M) 50 (Some "reward").

Lemma afterReward_state :
  exists block,
    afterReward now A u1 t1 t1'
    = Blockchain.mk [Blockchain.createGenesisBlock now; block] 2 [] 50
                    [Blockchain.blockMined block]
    /\ Block.index block = 1
    /\ Block.transactions block = [rewardA].
Proof.
  unfold afterReward.
  rewrite (@minePendingTransactions_run _ _
             (Blockchain.createGenesisBlock now)) by reflexivity.
  eexists. split; [reflexivity|].
  match goal with
  | |- context [minedOn ?this ?tip ?u ?tn ?bn ?m] =>
      destruct (minedOn_frame this tip u tn bn m) as (Hi & _ & Ht)
  end.
  split; [exact Hi | exact Ht].
Qed.

Lemma afterReward_balance : 
  Blockchain.getBalanceOfAddress (afterReward now A u1 t1 t1') (Some A) = 50.
Proof.
  destruct afterReward_state as (block & -> & _ & Htxs).
  rewrite (balance_of_transactions _ _ (confirmed := [[]; [rewardA]]))
    by (cbn [map Blockchain.chain]; now rewrite Htxs).
  unfold sumZ, contribution, rewardA.
  cbn [map fold_right Transaction.toAddress Transaction.fromAddress
       Transaction.amount Transaction.constructor].
  rewrite strictEq_same. reflexivity.
Qed.

Hypothesis A_present : A <> "".
Hypothesis B_present : B <> "".
Hypothesis A_not_B : A <> B.
Hypothesis M_not_A : M <> A.
Hypothesis M_not_B : M <> B.

Lemma transfer_admitted :
  exists block,
    Blockchain.addTransaction transfer (afterReward now A u1 t1 t1')
    = Normal 2
        (Blockchain.mk [Blockchain.createGenesisBlock now; block] 2
                       [transfer] 50
                       [Blockchain.blockMined block;
                        Blockchain.transactionAdded transfer])
    /\ Block.index block = 1
    /\ Block.transactions block = [rewardA].
Proof.
  pose proof afterReward_balance as Hbalance.
  destruct afterReward_state as (block & Estate & Hidx & Htxs).
  rewrite Estate in *. exists block.
  split; [|split; assumption].
  rewrite addTransaction_run.
  unfold Blockchain.isReward, transfer.
  cbn [Transaction.fromAddress Transaction.toAddress Transaction.amount
       Transaction.type Transaction.constructor JS.falsy].
  fold transfer.
  rewrite (proj2 (String.eqb_neq A "") A_present).
  rewrite (proj2 (String.eqb_neq B "") B_present).
  rewrite Hbalance.
  cbn [andb negb String.eqb Ascii.eqb Bool.eqb Z.leb Z.ltb Z.compare
       Pos.compare Pos.compare_cont].
  unfold Blockchain.getLatestBlock.
  cbn [Blockchain.chain List.length Nat.sub nth_error
       Blockchain.difficulty Blockchain.pendingTransactions
       Blockchain.miningReward Blockchain.emitted app].
  now rewrite Hidx.
Qed.

Lemma afterTransfer_confirmed :
  map Block.transactions
      (Blockchain.chain (afterTransfer now A B M u1 u2 u3 t1 t1' t2 t3 t3'))
  = [[]; [rewardA]; [transfer; rewardM]].
Proof.
  unfold afterTransfer. fold transfer.
  destruct transfer_admitted as (block & -> & _ & Htxs).
  cbn [final_state].
  rewrite (@minePendingTransactions_run _ _ block) by reflexivity.
  cbv zeta. cbn [final_state Blockchain.chain map app].
  rewrite Htxs.
  match goal with
  | |- context [minedOn ?this ?tip ?u ?tn ?bn ?m] =>
      destruct (minedOn_frame this tip u tn bn m) as (_ & _ & ->)
  end.
  reflexivity.
Qed.

Lemma scenario_balances :
  Blockchain.getBalanceOfAddress (afterReward now A u1 t1 t1') (Some A) = 50
  /\ returned (Blockchain.addTransaction transfer
                 (afterReward now A u1 t1 t1')) = Some 2
  /\ Blockchain.getBalanceOfAddress
       (afterTransfer now A B M u1 u2 u3 t1 t1' t2 t3 t3') (Some A) = 20
  /\ Blockchain.getBalanceOfAddress
       (afterTransfer now A B M u1 u2 u3 t1 t1' t2 t3 t3') (Some B) = 30.
Proof.
  split; [exact afterReward_balance|].
  split.
  { destruct transfer_admitted as (block & -> & _). reflexivity. }
  rewrite !(balance_of_transactions _ _ afterTransfer_confirmed).
  unfold sumZ, contribution, rewardA, transfer, rewardM.
  cbn [map fold_right Transaction.toAddress Transaction.fromAddress
       Transaction.amount Transaction.constructor].
  rewrite !strictEq_same.
  rewrite (strictEq_other A_not_B), (strictEq_other M_not_A),
          (strictEq_other M_not_B).
  assert (B_not_A : B <> A) by congruence.
  rewrite (strictEq_other B_not_A).
  cbn [JS.strictEq]. split; reflexivity.
Qed.
End Scenario.

(** C7.  The balance computed by [getBalanceOfAddress] is the sum, over
    every transaction of every block, of [+amount] where the address is the
    recipient and [-amount] where it is the sender; the mempool plays no
    part.  On a new chain (reward 50): after a block mined by [A] the
    balance of [A] is 50; after a transfer of 30 from [A] to [B] has been
    submitted and confirmed in a block mined by a third address, the
    balance of [A] is 20 and that of [B] is 30. *)
Theorem getBalanceOfAddress_replays_confirmed `{Crypto} :
  (forall (this : Blockchain.t) (address : option string),
     Blockchain.getBalanceOfAddress this address
     = replayedBalance (Blockchain.chain this) address)
  /\ (forall (this : Blockchain.t) (pool : list Transaction.t)
             (address : option string),
        Blockchain.getBalanceOfAddress
          (Blockchain.set_pendingTransactions pool this) address
        = Blockchain.getBalanceOfAddress this address)
  /\ (forall (now : Z) (A B M u1 u2 u3 : string) (t1 t1' t2 t3 t3' : Z),
        A <> "" -> B <> "" -> A <> B -> M <> A -> M <> B ->
        Blockchain.getBalanceOfAddress (afterReward now A u1 t1 t1') (Some A)
        = 50
        /\ returned
             (Blockchain.addTransaction
                (Transaction.constructor u2 t2 (Some A) (Some B) 30 None)
                (afterReward now A u1 t1 t1'))
           = Some 2
        /\ Blockchain.getBalanceOfAddress
             (afterTransfer now A B M u1 u2 u3 t1 t1' t2 t3 t3') (Some A)
           = 20
        /\ Blockchain.getBalanceOfAddress
             (afterTransfer now A B M u1 u2 u3 t1 t1' t2 t3 t3') (Some B)
           = 30).
Proof.
  split; [exact getBalanceOfAddress_replays|].
  split; [reflexivity|].
  intros now A B M u1 u2 u3 t1 t1' t2 t3 t3' HA HB HAB HMA HMB.
  now apply scenario_balances.
Qed.

Lemma getBalanceOfAddress_replays_confirmed_witness :
  ("A" <> "" /\ "B" <> "" /\ "A" <> "B" /\ "M" <> "A" /\ "M" <> "B")
  /\ Blockchain.getBalanceOfAddress
       (@afterReward Sha256Crypto 1700000000000 "A" "u1" 1 2) (Some "A")
     = 50
  /\ returned
       (Blockchain.addTransaction
          (Transaction.constructor "u2" 3 (Some "A") (Some "B") 30 None)
          (@afterReward Sha256Crypto 1700000000000 "A" "u1" 1 2))
     = Some 2
  /\ Blockchain.getBalanceOfAddress
       (@afterTransfer Sha256Crypto 1700000000000 "A" "B" "M"
                       "u1" "u2" "u3" 1 2 3 4 5) (Some "A")
     = 20
  /\ Blockchain.getBalanceOfAddress
       (@afterTransfer Sha256Crypto 1700000000000 "A" "B" "M"
                       "u1" "u2" "u3" 1 2 3 4 5) (Some "B")
     = 30.
Proof.
  assert (HA : "A" <> "") by (apply String.eqb_neq; reflexivity).
  assert (HB : "B" <> "") by (apply String.eqb_neq; reflexivity).
  assert (HAB : "A" <> "B") by (apply String.eqb_neq; reflexivity).
  assert (HMA : "M" <> "A") by (apply String.eqb_neq; reflexivity).
  assert (HMB : "M" <> "B") by (apply String.eqb_neq; reflexivity).
  split; [repeat split; assumption|].
  exact (proj2 (proj2 (@getBalanceOfAddress_replays_confirmed Sha256Crypto))
           1700000000000 "A" "B" "M" "u1" "u2" "u3" 1 2 3 4 5
           HA HB HAB HMA HMB).
Defined.


(** * Further properties of the sources *)

(** ** Validation: [isChainValid], [isValidChain], [Block.isValid] *)

Lemma prefix_substring (p s : string) :
  String.prefix p s
  = String.eqb (String.substring 0 (String.length p) s) p.
Proof.
  revert s; induction p as [|c p IH]; intros s.
  - destruct s; reflexivity.
  - destruct s as [|c' s]; [reflexivity|].
    cbn [String.prefix String.length String.substring String.eqb].
    rewrite IH.
    destruct (ascii_dec c c') as [->|Hne].
    + now rewrite Ascii.eqb_refl.
    + destruct (Ascii.eqb c' c) eqn:E; [|reflexivity].
      apply Ascii.eqb_eq in E. congruence.
Qed.

(** [hash.startsWith('0'.repeat(d))] and
    [hash.substring(0, d) === '0'.repeat(d)] are the same test. *)
Lemma startsWith_meetsTarget (d : nat) (h : string) :
  JS.startsWith h (JS.repeat "0" d) = Block.meetsTarget d h.
Proof.
  unfold JS.startsWith, Block.meetsTarget, JS.substring0.
  now rewrite prefix_substring, repeat_length.
Qed.

Lemma replaceChain_run (this : Blockchain.t) (newChain : list Block.t) :
  Blockchain.replaceChain newChain this
  = if longerAndValid this newChain
    then Normal true (replacedBy newChain this)
    else Normal false this.
Proof.
  run_completion. unfold longerAndValid.
  rewrite Nat.ltb_antisym.
  destruct (List.length newChain <=? List.length (Blockchain.chain this))%nat
    eqn:Hlen; cbn [negb andb]; [reflexivity|].
  destruct newChain as [|genesis rest].
  { apply Nat.leb_gt in Hlen. cbn [List.length] in Hlen. lia. }
  unfold Blockchain.isValidChain.
  destruct (negb (Block.index genesis =? 0)
            || negb (JS.startsWith (Block.hash genesis) "0"));
    cbn [negb]; [reflexivity|].
  destruct (Blockchain.isValidChain_from genesis rest); reflexivity.
Qed.

Section MoreValidation.
Context `{Crypto}.

Lemma isChainValid_from_cons (previous current : Block.t)
    (rest : list Block.t) :
  Blockchain.isChainValid_from previous (current :: rest)
  = blockChecks previous current
    && Blockchain.isChainValid_from current rest.
Proof.
  cbn [Blockchain.isChainValid_from]. unfold blockChecks, Block.meetsTarget.
  destruct (String.eqb (Block.hash current) (Block.calculateHash current));
    cbn [negb andb]; [|reflexivity].
  destruct (String.eqb (Block.previousHash current) (Block.hash previous));
    cbn [negb andb]; [|reflexivity].
  destruct (String.eqb _ _); reflexivity.
Qed.

Lemma isValidChain_from_cons (previous block : Block.t)
    (rest : list Block.t) :
  Blockchain.isValidChain_from previous (block :: rest)
  = forkChecks previous block && Blockchain.isValidChain_from block rest.
Proof.
  cbn [Blockchain.isValidChain_from]. unfold forkChecks.
  destruct (JS.startsWith _ _); cbn [negb andb]; [|reflexivity].
  destruct (String.eqb _ _); reflexivity.
Qed.

Lemma forkChecks_of_blockChecks (previous current : Block.t) :
  blockChecks previous current = true -> forkChecks previous current = true.
Proof.
  unfold blockChecks, forkChecks. rewrite startsWith_meetsTarget.
  rewrite !andb_true_iff. tauto.
Qed.

Lemma isValidChain_from_of_isChainValid_from (previous : Block.t)
    (rest : list Block.t) :
  Blockchain.isChainValid_from previous rest = true ->
  Blockchain.isValidChain_from previous rest = true.
Proof.
  revert previous; induction rest as [|current rest IH]; intros previous;
    [reflexivity|].
  rewrite isChainValid_from_cons, isValidChain_from_cons, !andb_true_iff.
  intros [Hc Hrest]. split; [now apply forkChecks_of_blockChecks | now apply IH].
Qed.

Lemma last_cons {A} (x d : A) (l : list A) :
  List.last (x :: l) d = List.last l x.
Proof.
  revert x d; induction l as [|y l IH]; intros x d; [reflexivity|].
  change (List.last (x :: y :: l) d) with (List.last (y :: l) d).
  now rewrite !(IH y).
Qed.

(** Appending a block to the validated part. *)
Lemma isChainValid_from_snoc (previous : Block.t) (rest : list Block.t)
    (block : Block.t) :
  Blockchain.isChainValid_from previous (rest ++ [block])
  = Blockchain.isChainValid_from previous rest
    && blockChecks (lastOf previous rest) block.
Proof.
  unfold lastOf.
  revert previous; induction rest as [|current rest IH]; intros previous.
  - cbn [app List.last]. rewrite isChainValid_from_cons.
    cbn [Blockchain.isChainValid_from]. now rewrite andb_true_r.
  - cbn [app]. rewrite !isChainValid_from_cons, IH, andb_assoc.
    now rewrite last_cons.
Qed.

Lemma isValidChain_from_snoc (previous : Block.t) (rest : list Block.t)
    (block : Block.t) :
  Blockchain.isValidChain_from previous (rest ++ [block])
  = Blockchain.isValidChain_from previous rest
    && forkChecks (lastOf previous rest) block.
Proof.
  unfold lastOf.
  revert previous; induction rest as [|current rest IH]; intros previous.
  - cbn [app List.last]. rewrite isValidChain_from_cons.
    cbn [Blockchain.isValidChain_from]. now rewrite andb_true_r.
  - cbn [app]. rewrite !isValidChain_from_cons, IH, andb_assoc.
    now rewrite last_cons.
Qed.

(** X1.  A chain that passes [isChainValid] and begins with a block of
    index 0 whose hash starts with ['0'] passes [isValidChain] too, and
    [replaceChain] on any node holding a shorter chain adopts it. *)
Theorem isChainValid_chain_is_adopted :
  forall (this other : Blockchain.t) (genesis : Block.t)
         (rest : list Block.t),
    Blockchain.chain this = genesis :: rest ->
    Block.index genesis = 0 ->
    JS.startsWith (Block.hash genesis) "0" = true ->
    Blockchain.isChainValid this = true ->
    (List.length (Blockchain.chain other)
     < List.length (Blockchain.chain this))%nat ->
    Blockchain.isValidChain (Blockchain.chain this) = inr true
    /\ Blockchain.replaceChain (Blockchain.chain this) other
       = Normal true (replacedBy (Blockchain.chain this) other).
Proof.
  intros this other genesis rest Hchain Hidx Hzero Hvalid Hlen.
  assert (Hfork : Blockchain.isValidChain (Blockchain.chain this) = inr true).
  { unfold Blockchain.isChainValid in Hvalid. rewrite Hchain in *.
    unfold Blockchain.isValidChain. rewrite Hidx, Hzero. cbn [Z.eqb negb orb].
    now rewrite isValidChain_from_of_isChainValid_from. }
  split; [exact Hfork|].
  rewrite replaceChain_run. unfold longerAndValid.
  rewrite Hfork. now rewrite (proj2 (Nat.ltb_lt _ _) Hlen).
Qed.

Lemma attempt_timestamp k b :
  Block.timestamp (attempt k b) = Block.timestamp b.
Proof. induction k as [|k IH]; simpl; auto. Qed.

Lemma attempt_merkleRoot k b :
  Block.merkleRoot (attempt k b) = Block.merkleRoot b.
Proof. induction k as [|k IH]; simpl; auto. Qed.

Lemma attempt_consistent k b :
  Block.hash b = Block.calculateHash b ->
  Block.hash (attempt k b) = Block.calculateHash (attempt k b).
Proof.
  intros Hb. destruct k as [|k]; [exact Hb | reflexivity].
Qed.

(** The loop leaves with attempts to spare at the first block that meets
    the target, when there is one among those examined. *)
Lemma mineBlock_found (b : Block.t) (k : nat) :
  Block.index b <> 0 ->
  (k < 10000)%nat ->
  Block.meetsTarget (Block.difficulty b) (Block.hash (attempt k b)) = true ->
  exists k0 : nat,
    (k0 <= k)%nat
    /\ Block.mineBlock b = attempt k0 b
    /\ Block.meetsTarget (Block.difficulty b) (Block.hash (attempt k0 b))
       = true.
Proof.
  intros Hidx Hk Hhit. unfold Block.mineBlock.
  apply Z.eqb_neq in Hidx. rewrite Hidx.
  destruct (mineLoop_run (JS.repeat "0" (Block.difficulty b))
                         Block.maxAttempts0 b)
    as (k0 & Hk0 & Hrun & Hmiss & Hfound).
  rewrite Hrun.
  assert (Hle : (k0 <= k)%nat).
  { destruct (Nat.le_gt_cases k0 k) as [|Hgt]; [assumption|].
    specialize (Hmiss k Hgt). rewrite attempt_difficulty in Hmiss.
    unfold Block.meetsTarget in Hhit. congruence. }
  assert (Hlt : (k0 < Block.maxAttempts0)%nat).
  { change Block.maxAttempts0 with 10000%nat. lia. }
  exists k0. split; [exact Hle|].
  destruct (Block.maxAttempts0 - k0 <=? 0)%nat eqn:E.
  { apply Nat.leb_le in E. lia. }
  split; [reflexivity|].
  specialize (Hfound Hlt). rewrite attempt_difficulty in Hfound.
  exact Hfound.
Qed.

(** X2.  A block built by the constructor at an index other than 0 and
    then mined passes [Block.isValid] whenever one of the ten thousand
    examined nonces meets the target: its prefix, its hash and its Merkle
    root all check. *)
Theorem mined_block_isValid :
  forall (now index : Z) (previousHash : string)
         (transactions : list Transaction.t) (difficulty k : nat),
    index <> 0 ->
    (k < 10000)%nat ->
    Block.meetsTarget difficulty
      (Block.hash
         (attempt k (Block.constructor now index previousHash transactions
                                       difficulty))) = true ->
    Block.isValid
      (Block.mineBlock
         (Block.constructor now index previousHash transactions difficulty))
    = true.
Proof.
  intros now index previousHash transactions difficulty k Hidx Hk Hhit.
  set (b := Block.constructor now index previousHash transactions difficulty)
    in *.
  assert (Hshape : b = Block.set_hash
                         (Block.calculateHash
                            (Block.set_merkleRoot
                               (Block.calculateMerkleRoot
                                  (Block.mk index now previousHash
                                            transactions difficulty 0 "" ""))
                               (Block.mk index now previousHash transactions
                                         difficulty 0 "" "")))
                         (Block.set_merkleRoot
                            (Block.calculateMerkleRoot
                               (Block.mk index now previousHash
                                         transactions difficulty 0 "" ""))
                            (Block.mk index now previousHash transactions
                                      difficulty 0 "" ""))).
  { unfold b, Block.constructor.
    now rewrite (proj2 (Z.eqb_neq index 0) Hidx). }
  assert (Hbidx : Block.index b <> 0) by (rewrite Hshape; exact Hidx).
  assert (Hbd : Block.difficulty b = difficulty) by (now rewrite Hshape).
  rewrite <- Hbd in Hhit.
  destruct (mineBlock_found b Hbidx Hk Hhit) as (k0 & _ & -> & Hmeets).
  unfold Block.isValid, Block.calculateMerkleRoot.
  rewrite attempt_difficulty, attempt_merkleRoot, attempt_transactions.
  unfold Block.meetsTarget in Hmeets. rewrite Hmeets. cbn [negb].
  rewrite <- (attempt_consistent k0 b) by (rewrite Hshape; reflexivity).
  rewrite String.eqb_refl. cbn [negb].
  rewrite Hshape.
  cbn [Block.merkleRoot Block.transactions Block.set_hash
       Block.set_merkleRoot].
  unfold Block.calculateMerkleRoot. cbn [Block.transactions].
  now rewrite String.eqb_refl.
Qed.
End MoreValidation.

Lemma mined_block_isValid_witness :
  (1 <> 0
   /\ (0 < 10000)%nat
   /\ Block.meetsTarget 1
        (Block.hash
           (attempt 0
              (Block.constructor 1700000005071 1 Block.forcedHash
                 [Transaction.constructor "9b2e4f6a-reward" 1700000005071
                    None (Some "A") 50 (Some "reward")] 1))) = true)
  /\ Block.isValid
       (Block.mineBlock
          (Block.constructor 1700000005071 1 Block.forcedHash
             [Transaction.constructor "9b2e4f6a-reward" 1700000005071
                None (Some "A") 50 (Some "reward")] 1))
     = true.
Proof.
  assert (H1 : 1 <> 0) by lia.
  assert (H2 : (0 < 10000)%nat) by (apply Nat.ltb_lt; reflexivity).
  assert (H3 : Block.meetsTarget 1
        (Block.hash
           (attempt 0
              (Block.constructor 1700000005071 1 Block.forcedHash
                 [Transaction.constructor "9b2e4f6a-reward" 1700000005071
                    None (Some "A") 50 (Some "reward")] 1))) = true)
    by (vm_compute; reflexivity).
  split; [exact (conj H1 (conj H2 H3))|].
  exact (@mined_block_isValid Sha256Crypto _ _ _ _ _ _ H1 H2 H3).
Defined.

Lemma isChainValid_chain_is_adopted_witness :
  (Blockchain.chain Run.funded
     = hd (Blockchain.createGenesisBlock 0) (Blockchain.chain Run.funded)
       :: tl (Blockchain.chain Run.funded)
   /\ Blockchain.isChainValid Run.funded = true
   /\ (List.length (Blockchain.chain Run.fresh)
       < List.length (Blockchain.chain Run.funded))%nat)
  /\ Blockchain.isValidChain (Blockchain.chain Run.funded) = inr true
  /\ Blockchain.replaceChain (Blockchain.chain Run.funded) Run.fresh
     = Normal true (replacedBy (Blockchain.chain Run.funded) Run.fresh).
Proof.
  assert (Hchain : Blockchain.chain Run.funded
     = hd (Blockchain.createGenesisBlock 0) (Blockchain.chain Run.funded)
       :: tl (Blockchain.chain Run.funded)) by reflexivity.
  assert (Hvalid : Blockchain.isChainValid Run.funded = true)
    by (vm_compute; reflexivity).
  assert (Hlen : (List.length (Blockchain.chain Run.fresh)
       < List.length (Blockchain.chain Run.funded))%nat)
    by (apply Nat.ltb_lt; reflexivity).
  split; [exact (conj Hchain (conj Hvalid Hlen))|].
  exact (@isChainValid_chain_is_adopted Sha256Crypto Run.funded Run.fresh
           _ _ Hchain eq_refl eq_refl Hvalid Hlen).
Defined.



Section Exhaustion.
Context `{Crypto}.

Lemma candidateOn_frame (this : Blockchain.t) (tip : Block.t) (uuid : string)
    (txNow blockNow : Z) (miner : option string) :
  Block.index (candidateOn this tip uuid txNow blockNow miner)
  = Block.index tip + 1
  /\ Block.difficulty (candidateOn this tip uuid txNow blockNow miner)
     = Blockchain.difficulty this.
Proof.
  unfold candidateOn.
  match goal with
  | |- context [Block.constructor ?n ?i ?p ?t ?d] =>
      destruct (constructor_frame n i p t d) as (Hi & _ & _ & Hd)
  end.
  now rewrite Hi, Hd.
Qed.

Lemma chain_of_tip (this : Blockchain.t) (tip : Block.t) :
  Blockchain.getLatestBlock this = Some tip ->
  exists genesis rest,
    Blockchain.chain this = genesis :: rest /\ lastOf genesis rest = tip.
Proof.
  intros Htip. destruct (getLatestBlock_last _ Htip) as [front Efront].
  rewrite Efront. unfold lastOf.
  destruct front as [|g front].
  - exists tip, []. split; reflexivity.
  - exists g, (front ++ [tip])%list. split; [reflexivity|].
    now rewrite last_last.
Qed.

Lemma exhausted_mining :
  forall (this : Blockchain.t) (tip : Block.t) (uuid : string)
         (txNow blockNow : Z) (miner : option string),
    Blockchain.getLatestBlock this = Some tip ->
    Block.index tip + 1 <> 0 ->
    (2 <= Blockchain.difficulty this)%nat ->
    (forall j : nat, (j < 10000)%nat ->
       Block.meetsTarget (Blockchain.difficulty this)
         (Block.hash
            (attempt j (candidateOn this tip uuid txNow blockNow miner)))
       = false) ->
    exists (block : Block.t) (this' : Blockchain.t),
      Blockchain.minePendingTransactions uuid txNow blockNow miner this
        = Normal block this'
      /\ Block.hash block = Block.forcedHash
      /\ Block.isValid block = false
      /\ Blockchain.isChainValid this' = false
      /\ Blockchain.isValidChain (Blockchain.chain this') = inr false.
Proof.
  intros this tip uuid txNow blockNow miner Htip Hidx Hd Hmiss.
  destruct (candidateOn_frame this tip uuid txNow blockNow miner)
    as (Hci & Hcd).
  set (candidate := candidateOn this tip uuid txNow blockNow miner) in *.
  assert (Hhash : Block.hash (Block.mineBlock candidate) = Block.forcedHash).
  { apply mineBlock_exhausted; [now rewrite Hci|].
    intros j Hj. rewrite Hcd. now apply Hmiss. }
  destruct (mineBlock_frame candidate) as (_ & _ & _ & Hmd).
  assert (Hfail : Block.meetsTarget
                    (Block.difficulty (Block.mineBlock candidate))
                    (Block.hash (Block.mineBlock candidate)) = false).
  { rewrite Hhash, Hmd, Hcd, meetsTarget_forcedHash.
    apply Nat.leb_gt. lia. }
  rewrite (minePendingTransactions_run _ _ _ _ _ Htip). cbv zeta.
  change (minedOn this tip uuid txNow blockNow miner)
    with (Block.mineBlock candidate).
  eexists; eexists. split; [reflexivity|].
  split; [exact Hhash|].
  split.
  { unfold Block.isValid. unfold Block.meetsTarget in Hfail.
    now rewrite Hfail. }
  destruct (chain_of_tip _ Htip) as (genesis & rest & Hchain & _).
  split.
  - unfold Blockchain.isChainValid. cbn [Blockchain.chain].
    rewrite Hchain. cbn [app].
    rewrite isChainValid_from_snoc. unfold blockChecks.
    rewrite Hfail. now rewrite !andb_false_r.
  - cbn [Blockchain.chain]. rewrite Hchain. cbn [app].
    unfold Blockchain.isValidChain.
    destruct (negb (Block.index genesis =? 0)
              || negb (JS.startsWith (Block.hash genesis) "0"));
      [reflexivity|].
    rewrite isValidChain_from_snoc. unfold forkChecks.
    rewrite startsWith_meetsTarget, Hfail. cbn [andb].
    now rewrite andb_false_r.
Qed.

(** X3.  When the search of [minePendingTransactions] runs out of attempts
    at a difficulty of 2 or more, the block it appends carries the forced
    constant: that block fails [Block.isValid], and the node's own chain
    fails both [isChainValid] and [isValidChain] from then on. *)
Theorem exhausted_mining_invalidates_chain :
  forall (this : Blockchain.t) (tip : Block.t) (uuid : string)
         (txNow blockNow : Z) (miner : option string),
    Blockchain.getLatestBlock this = Some tip ->
    Block.index tip + 1 <> 0 ->
    (2 <= Blockchain.difficulty this)%nat ->
    (forall j : nat, (j < 10000)%nat ->
       Block.meetsTarget (Blockchain.difficulty this)
         (Block.hash
            (attempt j (candidateOn this tip uuid txNow blockNow miner)))
       = false) ->
    exists (block : Block.t) (this' : Blockchain.t),
      Blockchain.minePendingTransactions uuid txNow blockNow miner this
        = Normal block this'
      /\ Block.hash block = Block.forcedHash
      /\ Block.isValid block = false
      /\ Blockchain.isChainValid this' = false
      /\ Blockchain.isValidChain (Blockchain.chain this') = inr false.
Proof. exact exhausted_mining. Qed.

(** ** Chains grown by mining: heights *)

Lemma getLatestBlock_snoc (this : Blockchain.t) (front : list Block.t)
    (tip : Block.t) :
  Blockchain.chain this = (front ++ [tip])%list ->
  Blockchain.getLatestBlock this = Some tip.
Proof.
  intros E. unfold Blockchain.getLatestBlock. rewrite E.
  destruct (front ++ [tip])%list eqn:E'.
  { destruct front; discriminate. }
  rewrite <- E', length_app, nth_error_app2 by (cbn [List.length]; lia).
  cbn [List.length].
  replace (List.length front + 1 - 1 - List.length front)%nat with O by lia.
  reflexivity.
Qed.

Lemma heights_snoc (front : list Block.t) (tip block : Block.t) :
  heights (front ++ [tip]) ->
  Block.index block = Block.index tip + 1 ->
  heights ((front ++ [tip]) ++ [block]).
Proof.
  intros Hh Hidx i b Hb.
  assert (Hlen : List.length (front ++ [tip]) = S (List.length front)).
  { rewrite length_app. cbn [List.length]. lia. }
  destruct (Nat.lt_ge_cases i (List.length (front ++ [tip]))) as [Hin|Hout].
  - rewrite nth_error_app1 in Hb by assumption. now apply Hh.
  - rewrite nth_error_app2 in Hb by assumption.
    destruct (i - List.length (front ++ [tip]))%nat as [|n] eqn:En.
    + cbn [nth_error] in Hb. injection Hb as <-.
      assert (Htip : Block.index tip = Z.of_nat (List.length front)).
      { apply Hh. rewrite nth_error_app2 by lia.
        now rewrite Nat.sub_diag. }
      rewrite Hidx, Htip. lia.
    + destruct n; discriminate Hb.
Qed.

Lemma grown_heights (this : Blockchain.t) :
  grown this ->
  heights (Blockchain.chain this)
  /\ exists tip, Blockchain.getLatestBlock this = Some tip.
Proof.
  induction 1 as [now d r
                 | this uuid txNow blockNow miner block this' _ IH Hmine
                 | this tx _ IH
                 | this pool _ IH
                 | this d _ IH].
  - split; [|eexists; reflexivity].
    intros i b Hb. cbn [Blockchain.chain Blockchain.constructor] in Hb.
    destruct i as [|i]; [|destruct i; discriminate Hb].
    cbn [nth_error] in Hb. injection Hb as <-. reflexivity.
  - destruct IH as [Hh [tip Htip]].
    rewrite (minePendingTransactions_run _ _ _ _ _ Htip) in Hmine.
    cbv zeta in Hmine.
    assert (Hthis' : Blockchain.chain this'
                     = (Blockchain.chain this
                          ++ [minedOn this tip uuid txNow blockNow miner])%list).
    { injection Hmine as _ <-. reflexivity. }
    destruct (getLatestBlock_last _ Htip) as [front Efront].
    split.
    + rewrite Hthis', Efront. apply heights_snoc; [now rewrite <- Efront|].
      apply (minedOn_frame this tip uuid txNow blockNow miner).
    + eexists. apply (getLatestBlock_snoc _ _ _ Hthis').
  - rewrite addTransaction_chain. split; [apply IH|].
    destruct IH as [_ [tip Htip]]. exists tip.
    unfold Blockchain.getLatestBlock in *.
    now rewrite addTransaction_chain.
  - exact IH.
  - exact IH.
Qed.
End Exhaustion.


Lemma exhausted_mining_invalidates_chain_witness :
  (Blockchain.getLatestBlock Cases.hard
     = Some (Blockchain.createGenesisBlock 1700000000000)
   /\ Block.index (Blockchain.createGenesisBlock 1700000000000) + 1 <> 0
   /\ (2 <= Blockchain.difficulty Cases.hard)%nat)
  /\ exists (block : Block.t) (this' : Blockchain.t),
       Blockchain.minePendingTransactions "r1" 1 2 (Some "M") Cases.hard
         = Normal block this'
       /\ Block.hash block = Block.forcedHash
       /\ Block.isValid block = false
       /\ Blockchain.isChainValid this' = false
       /\ Blockchain.isValidChain (Blockchain.chain this') = inr false.
Proof.
  assert (H1 : Blockchain.getLatestBlock Cases.hard
               = Some (Blockchain.createGenesisBlock 1700000000000))
    by reflexivity.
  assert (H2 : Block.index (Blockchain.createGenesisBlock 1700000000000) + 1
               <> 0) by (apply Z.eqb_neq; reflexivity).
  assert (H3 : (2 <= Blockchain.difficulty Cases.hard)%nat)
    by (apply Nat.leb_le; reflexivity).
  split; [exact (conj H1 (conj H2 H3))|].
  apply (@exhausted_mining_invalidates_chain Sha256Crypto Cases.hard _
           "r1" 1 2 (Some "M") H1 H2 H3).
  intros j _. unfold candidateOn.
  exact (@sha256_attempt_misses _ _ _ _ (Blockchain.difficulty Cases.hard)
           j H3).
Defined.

(** X23.  With the digest as the code prints it (the bytes in decimal,
    joined by commas) no hash starts with two zeros, so at a difficulty of
    2 or more the search of [minePendingTransactions] always runs out: the
    appended block carries the forced constant, fails [Block.isValid], and
    the chain fails [isChainValid] and [isValidChain] from then on.  This
    is so for the first block mined on any [new Blockchain()], whose
    default difficulty is 2. *)
Theorem printed_digest_never_meets_difficulty_2 :
  (forall (this : Blockchain.t) (tip : Block.t) (uuid : string)
          (txNow blockNow : Z) (miner : option string),
     Blockchain.getLatestBlock this = Some tip ->
     Block.index tip + 1 <> 0 ->
     (2 <= Blockchain.difficulty this)%nat ->
     exists (block : Block.t) (this' : Blockchain.t),
       Blockchain.minePendingTransactions uuid txNow blockNow miner this
         = Normal block this'
       /\ Block.hash block = Block.forcedHash
       /\ Block.isValid block = false
       /\ Blockchain.isChainValid this' = false
       /\ Blockchain.isValidChain (Blockchain.chain this') = inr false)
  /\ (forall (now : Z) (uuid : string) (txNow blockNow : Z)
             (miner : option string),
        Blockchain.difficulty (Blockchain.constructor now None None)
        = 2%nat
        /\ exists (block : Block.t) (this' : Blockchain.t),
             Blockchain.minePendingTransactions uuid txNow blockNow miner
               (Blockchain.constructor now None None)
             = Normal block this'
             /\ Block.hash block = Block.forcedHash
             /\ Block.isValid block = false
             /\ Blockchain.isChainValid this' = false)
  /\ (forall (msg : string) (d : nat),
        (2 <= d)%nat ->
        Block.meetsTarget d (sha256_toString msg) = false).
Proof.
  assert (Hgeneral :
    forall (this : Blockchain.t) (tip : Block.t) (uuid : string)
           (txNow blockNow : Z) (miner : option string),
      Blockchain.getLatestBlock this = Some tip ->
      Block.index tip + 1 <> 0 ->
      (2 <= Blockchain.difficulty this)%nat ->
      exists (block : Block.t) (this' : Blockchain.t),
        Blockchain.minePendingTransactions uuid txNow blockNow miner this
          = Normal block this'
        /\ Block.hash block = Block.forcedHash
        /\ Block.isValid block = false
        /\ Blockchain.isChainValid this' = false
        /\ Blockchain.isValidChain (Blockchain.chain this') = inr false).
  { intros this tip uuid txNow blockNow miner Htip Hidx Hd.
    apply (@exhausted_mining Sha256Crypto this tip uuid txNow blockNow miner
             Htip Hidx Hd).
    intros j _. unfold candidateOn.
    exact (@sha256_attempt_misses _ _ _ _ (Blockchain.difficulty this)
             j Hd). }
  split; [exact Hgeneral|]. split.
  - intros now uuid txNow blockNow miner. split; [reflexivity|].
    destruct (Hgeneral (Blockchain.constructor now None None)
                (Blockchain.createGenesisBlock now) uuid txNow blockNow miner
                eq_refl)
      as (block & this' & Hrun & Hhash & Hvalid & Hchain & _).
    + discriminate.
    + apply Nat.le_refl.
    + exists block, this'. auto.
  - intros msg d Hd. now apply digestToString_misses.
Qed.

(** ** [adjustDifficulty] *)

Lemma adjustDifficulty_run (this : Blockchain.t) (expected : option Z) :
  Ledger.adjustDifficulty expected this
  = let expectedBlockTime :=
      match expected with Some e => e | None => 10000 end in
    match Blockchain.getLatestBlock this with
    | None => Throw (JS.TypeError "lastBlock.index") this
    | Some lastBlock =>
        if Block.index lastBlock =? 0
        then Normal (Blockchain.difficulty this) this
        else
          match Ledger.secondToLast this with
          | None => Throw (JS.TypeError "previousBlock.timestamp") this
          | Some previousBlock =>
              let timeUsed :=
                Block.timestamp lastBlock - Block.timestamp previousBlock in
              if 2 * timeUsed <? expectedBlockTime then
                Normal (S (Blockchain.difficulty this))
                       (Blockchain.set_difficulty
                          (S (Blockchain.difficulty this)) this)
              else if (expectedBlockTime * 2 <? timeUsed)
                      && (1 <? Blockchain.difficulty this)%nat then
                Normal (Nat.pred (Blockchain.difficulty this))
                       (Blockchain.set_difficulty
                          (Nat.pred (Blockchain.difficulty this)) this)
              else Normal (Blockchain.difficulty this) this
          end
    end.
Proof.
  unfold Ledger.adjustDifficulty, bind, get, modify, ret, throw. cbv zeta.
  destruct (Blockchain.getLatestBlock this) as [lastBlock|]; [|reflexivity].
  destruct (Block.index lastBlock =? 0); [reflexivity|].
  destruct (Ledger.secondToLast this) as [previousBlock|]; [|reflexivity].
  destruct (2 * _ <? _); [reflexivity|].
  destruct ((_ <? _) && _); reflexivity.
Qed.

(** X4.  [adjustDifficulty] touches the difficulty only, and moves it by
    one step at most: it stays, goes up by one, or goes down by one, the
    last only from a difficulty of 2 or more, so a difficulty of at least 1
    never drops below 1.  The value returned is the difficulty it leaves. *)
Theorem adjustDifficulty_one_step :
  forall (this : Blockchain.t) (expected : option Z),
    let after := final_state (Ledger.adjustDifficulty expected this) in
    Blockchain.chain after = Blockchain.chain this
    /\ Blockchain.pendingTransactions after
       = Blockchain.pendingTransactions this
    /\ Blockchain.miningReward after = Blockchain.miningReward this
    /\ Blockchain.emitted after = Blockchain.emitted this
    /\ (Blockchain.difficulty after = Blockchain.difficulty this
        \/ Blockchain.difficulty after = S (Blockchain.difficulty this)
        \/ (2 <= Blockchain.difficulty this)%nat
           /\ S (Blockchain.difficulty after) = Blockchain.difficulty this)
    /\ (returned (Ledger.adjustDifficulty expected this) = None
        \/ returned (Ledger.adjustDifficulty expected this)
           = Some (Blockchain.difficulty after)).
Proof.
  intros this expected after. subst after.
  rewrite adjustDifficulty_run. cbv zeta.
  destruct (Blockchain.getLatestBlock this) as [lastBlock|];
    [|cbn; repeat split; auto].
  destruct (Block.index lastBlock =? 0); [cbn; repeat split; auto|].
  destruct (Ledger.secondToLast this) as [previousBlock|];
    [|cbn; repeat split; auto].
  destruct (2 * _ <? _); [cbn; repeat split; auto|].
  destruct (_ * 2 <? _); cbn [andb]; [|cbn; repeat split; auto].
  destruct (1 <? Blockchain.difficulty this)%nat eqn:E;
    [|cbn; repeat split; auto].
  apply Nat.ltb_lt in E. cbn [final_state returned Blockchain.chain
    Blockchain.pendingTransactions Blockchain.miningReward
    Blockchain.emitted Blockchain.difficulty Blockchain.set_difficulty].
  repeat split; auto. right; right. split; lia.
Qed.

Section GrownDifficulty.
Context `{Crypto}.

Lemma grown_secondToLast (this : Blockchain.t) (tip : Block.t) :
  grown this ->
  Blockchain.getLatestBlock this = Some tip ->
  Block.index tip <> 0 ->
  exists previous, Ledger.secondToLast this = Some previous.
Proof.
  intros Hg Htip Hidx.
  destruct (grown_heights Hg) as [Hh _].
  destruct (getLatestBlock_last _ Htip) as [front Efront].
  assert (Hfront : front <> []).
  { intros ->. apply Hidx. apply (Hh O). now rewrite Efront. }
  unfold Ledger.secondToLast. rewrite Efront, length_app.
  cbn [List.length].
  destruct front as [|g front]; [congruence|]. cbn [List.length].
  destruct (S (List.length front) + 1 <? 2)%nat eqn:E.
  { apply Nat.ltb_lt in E. lia. }
  destruct (nth_error ((g :: front) ++ [tip])
                      (S (List.length front) + 1 - 2)) eqn:En;
    [eexists; reflexivity|].
  apply nth_error_None in En. rewrite length_app in En.
  cbn [List.length] in En. lia.
Qed.

(** X5.  On every chain grown from a new [Blockchain], block [i] has index
    [i], there is a tip, and [adjustDifficulty] returns normally; while the
    chain holds the genesis block only it changes nothing. *)
Theorem adjustDifficulty_on_grown_chain :
  forall (this : Blockchain.t) (expected : option Z),
    grown this ->
    heights (Blockchain.chain this)
    /\ (exists (d : nat) (after : Blockchain.t),
          Ledger.adjustDifficulty expected this = Normal d after
          /\ d = Blockchain.difficulty after)
    /\ (List.length (Blockchain.chain this) = 1%nat ->
        Ledger.adjustDifficulty expected this
        = Normal (Blockchain.difficulty this) this).
Proof.
  intros this expected Hg.
  destruct (grown_heights Hg) as [Hh [tip Htip]].
  split; [exact Hh|]. split.
  - rewrite adjustDifficulty_run. cbv zeta. rewrite Htip.
    destruct (Block.index tip =? 0) eqn:E; [eauto|].
    apply Z.eqb_neq in E.
    destruct (grown_secondToLast Hg Htip E) as [previous ->].
    destruct (2 * _ <? _); [eauto|].
    destruct ((_ <? _) && _); eauto.
  - intros Hlen. rewrite adjustDifficulty_run. cbv zeta. rewrite Htip.
    destruct (getLatestBlock_last _ Htip) as [front Efront].
    assert (front = []) as ->.
    { rewrite Efront, length_app in Hlen. cbn [List.length] in Hlen.
      destruct front; [reflexivity | cbn [List.length] in Hlen; lia]. }
    assert (Hidx : Block.index tip = 0).
    { apply (Hh O). now rewrite Efront. }
    now rewrite Hidx.
Qed.
End GrownDifficulty.

Lemma funded_grown : grown Run.funded.
Proof.
  rewrite funded_is_mined.
  pose proof (@minePendingTransactions_run Sha256Crypto Run.fresh
                (Blockchain.createGenesisBlock 1700000000000)
                "9b2e4f6a-reward" 1700000005071 1700000005071 (Some "A")
                eq_refl) as Hrun.
  cbv zeta in Hrun. rewrite Hrun. cbn [final_state].
  eapply grown_mine;
    [apply (grown_new 1700000000000 (Some 1%nat) None) | exact Hrun].
Qed.

Lemma adjustDifficulty_on_grown_chain_witness :
  grown Run.funded
  /\ heights (Blockchain.chain Run.funded)
  /\ (exists (d : nat) (after : Blockchain.t),
        Ledger.adjustDifficulty None Run.funded = Normal d after
        /\ d = Blockchain.difficulty after)
  /\ (List.length (Blockchain.chain Run.funded) = 1%nat ->
      Ledger.adjustDifficulty None Run.funded
      = Normal (Blockchain.difficulty Run.funded) Run.funded).
Proof.
  split; [exact funded_grown|].
  exact (@adjustDifficulty_on_grown_chain Sha256Crypto Run.funded None
           funded_grown).
Defined.


(** ** Balances, history and the mempool *)

Lemma sumZ_app (l1 l2 : list Z) : sumZ (l1 ++ l2) = sumZ l1 + sumZ l2.
Proof.
  unfold sumZ. induction l1 as [|x l1 IH]; cbn [app fold_right]; lia.
Qed.

Lemma sumZ_one (x : Z) : sumZ [x] = x.
Proof. unfold sumZ. cbn [fold_right]. lia. Qed.

Lemma replayedBalance_snoc (chain : list Block.t) (block : Block.t)
    (address : option string) :
  replayedBalance (chain ++ [block]) address
  = replayedBalance chain address
    + sumZ (map (contribution address) (Block.transactions block)).
Proof.
  unfold replayedBalance. rewrite map_app, sumZ_app.
  cbn [map]. now rewrite sumZ_one.
Qed.

Section Confirmation.
Context `{Crypto}.

Lemma balance_after_mining :
  forall (this : Blockchain.t) (tip : Block.t) (uuid : string)
         (txNow blockNow : Z) (miner address : option string),
    Blockchain.getLatestBlock this = Some tip ->
    Blockchain.getBalanceOfAddress
      (final_state
         (Blockchain.minePendingTransactions uuid txNow blockNow miner this))
      address
    = Blockchain.getBalanceOfAddress this address
      + sumZ (map (contribution address)
                  (Blockchain.pendingTransactions this))
      + ((if JS.strictEq miner address
          then Blockchain.miningReward this else 0)
         - (if JS.strictEq None address
            then Blockchain.miningReward this else 0)).
Proof.
  intros this tip uuid txNow blockNow miner address Htip.
  rewrite (minePendingTransactions_run _ _ _ _ _ Htip). cbv zeta.
  cbn [final_state]. rewrite !getBalanceOfAddress_replays.
  cbn [Blockchain.chain]. rewrite replayedBalance_snoc.
  destruct (minedOn_frame this tip uuid txNow blockNow miner)
    as (_ & _ & ->).
  rewrite map_app, sumZ_app. cbn [map]. rewrite sumZ_one.
  unfold contribution at 2.
  cbn [rewardOf Transaction.constructor Transaction.toAddress
       Transaction.fromAddress Transaction.amount]. lia.
Qed.

(** X6.  Mining moves the mempool into the balances: after
    [minePendingTransactions] the balance of any address is its balance
    before, plus what the pending transactions contribute to it, plus the
    reward if the address is the miner (and minus the reward for the
    address [null], which the reward transaction names as its sender). *)
Theorem minePendingTransactions_balance :
  forall (this : Blockchain.t) (tip : Block.t) (uuid : string)
         (txNow blockNow : Z) (miner address : option string),
    Blockchain.getLatestBlock this = Some tip ->
    Blockchain.getBalanceOfAddress
      (final_state
         (Blockchain.minePendingTransactions uuid txNow blockNow miner this))
      address
    = Blockchain.getBalanceOfAddress this address
      + sumZ (map (contribution address)
                  (Blockchain.pendingTransactions this))
      + ((if JS.strictEq miner address
          then Blockchain.miningReward this else 0)
         - (if JS.strictEq None address
            then Blockchain.miningReward this else 0)).
Proof. exact balance_after_mining. Qed.

Lemma addTransaction_accepted (this : Blockchain.t) (tip : Block.t)
    (tx : Transaction.t) :
  Blockchain.getLatestBlock this = Some tip ->
  rejected this tx = false ->
  Blockchain.addTransaction tx this
  = Normal (Block.index tip + 1)
      (Blockchain.mk (Blockchain.chain this) (Blockchain.difficulty this)
                     (Blockchain.pendingTransactions this ++ [tx])
                     (Blockchain.miningReward this)
                     (Blockchain.emitted this
                        ++ [Blockchain.transactionAdded tx])).
Proof.
  intros Htip Hok. rewrite rejected_run in Hok.
  rewrite addTransaction_run, Htip.
  destruct (JS.falsy (Transaction.fromAddress tx)
            && negb (Blockchain.isReward tx)); [discriminate|].
  destruct (JS.falsy (Transaction.toAddress tx)); [discriminate|].
  destruct (Transaction.amount tx <=? 0); [discriminate|].
  destruct (negb (JS.falsy (Transaction.fromAddress tx))
            && negb (Blockchain.isReward tx)
            && (Blockchain.getBalanceOfAddress this
                  (Transaction.fromAddress tx) <? Transaction.amount tx));
    [discriminate|].
  reflexivity.
Qed.

(** X7.  Admission looks at confirmed balances only and never at the
    mempool: a transaction that [addTransaction] accepts is accepted again
    when submitted a second time, and then sits twice in the mempool. *)
Theorem addTransaction_admits_duplicates :
  forall (this : Blockchain.t) (tip : Block.t) (tx : Transaction.t),
    Blockchain.getLatestBlock this = Some tip ->
    rejected this tx = false ->
    exists once twice : Blockchain.t,
      Blockchain.addTransaction tx this = Normal (Block.index tip + 1) once
      /\ Blockchain.addTransaction tx once
         = Normal (Block.index tip + 1) twice
      /\ Blockchain.pendingTransactions twice
         = (Blockchain.pendingTransactions this ++ [tx; tx])%list.
Proof.
  intros this tip tx Htip Hok.
  eexists; eexists. split; [exact (@addTransaction_accepted _ _ _ Htip Hok)|].
  split.
  - apply addTransaction_accepted; [exact Htip | exact Hok].
  - cbn [Blockchain.pendingTransactions]. now rewrite <- app_assoc.
Qed.

(** X8.  A transaction whose type is reward passes admission without any
    look at its sender or at a balance, whatever its sender; once mined,
    its amount is credited to the recipient out of nothing (and debited
    again only when the recipient is also named as the sender). *)
Theorem reward_type_transaction_mints :
  forall (this : Blockchain.t) (tip : Block.t) (tx : Transaction.t)
         (recipient uuid : string) (txNow blockNow : Z)
         (miner : option string),
    Blockchain.getLatestBlock this = Some tip ->
    Transaction.type tx = "reward" ->
    Transaction.toAddress tx = Some recipient ->
    recipient <> "" ->
    0 < Transaction.amount tx ->
    rejected this tx = false
    /\ Blockchain.getBalanceOfAddress
         (final_state
            (Blockchain.minePendingTransactions uuid txNow blockNow miner
               (final_state (Blockchain.addTransaction tx this))))
         (Some recipient)
       = Blockchain.getBalanceOfAddress this (Some recipient)
         + sumZ (map (contribution (Some recipient))
                     (Blockchain.pendingTransactions this))
         + (Transaction.amount tx
            - (if JS.strictEq (Transaction.fromAddress tx) (Some recipient)
               then Transaction.amount tx else 0))
         + (if JS.strictEq miner (Some recipient)
            then Blockchain.miningReward this else 0)
    /\ (Transaction.fromAddress tx <> Some recipient ->
        Blockchain.getBalanceOfAddress
          (final_state
             (Blockchain.minePendingTransactions uuid txNow blockNow miner
                (final_state (Blockchain.addTransaction tx this))))
          (Some recipient)
        = Blockchain.getBalanceOfAddress this (Some recipient)
          + sumZ (map (contribution (Some recipient))
                      (Blockchain.pendingTransactions this))
          + Transaction.amount tx
          + (if JS.strictEq miner (Some recipient)
             then Blockchain.miningReward this else 0)).
Proof.
  intros this tip tx recipient uuid txNow blockNow miner
         Htip Htype Hto Hpresent Hpos.
  assert (Hok : rejected this tx = false).
  { unfold rejected, Blockchain.isReward. rewrite Htype, Hto.
    cbn [JS.falsy].
    rewrite (proj2 (String.eqb_neq recipient "") Hpresent).
    rewrite (proj2 (Z.leb_gt _ _) Hpos). reflexivity. }
  split; [exact Hok|].
  assert (Hbalance :
    Blockchain.getBalanceOfAddress
      (final_state
         (Blockchain.minePendingTransactions uuid txNow blockNow miner
            (final_state (Blockchain.addTransaction tx this))))
      (Some recipient)
    = Blockchain.getBalanceOfAddress this (Some recipient)
      + sumZ (map (contribution (Some recipient))
                  (Blockchain.pendingTransactions this))
      + (Transaction.amount tx
         - (if JS.strictEq (Transaction.fromAddress tx) (Some recipient)
            then Transaction.amount tx else 0))
      + (if JS.strictEq miner (Some recipient)
         then Blockchain.miningReward this else 0)).
  { rewrite (@addTransaction_accepted _ _ _ Htip Hok). cbn [final_state].
    rewrite (@balance_after_mining _ tip) by exact Htip.
    cbn [Blockchain.pendingTransactions Blockchain.miningReward].
    rewrite !getBalanceOfAddress_replays. cbn [Blockchain.chain].
    rewrite map_app, sumZ_app. cbn [map]. rewrite sumZ_one.
    unfold contribution at 2.
    rewrite Hto, strictEq_same. cbn [JS.strictEq]. lia. }
  split; [exact Hbalance|].
  intros Hfrom. rewrite Hbalance.
  assert (Hs : JS.strictEq (Transaction.fromAddress tx) (Some recipient)
               = false).
  { destruct (Transaction.fromAddress tx) as [sender|]; [|reflexivity].
    apply strictEq_other. congruence. }
  rewrite Hs. lia.
Qed.
End Confirmation.

Lemma minePendingTransactions_balance_witness :
  Blockchain.getLatestBlock Run.funded
    = nth_error (Blockchain.chain Run.funded) 1
  /\ Blockchain.getBalanceOfAddress
       (final_state
          (Blockchain.minePendingTransactions "r2" 3 4 (Some "M") Run.funded))
       (Some "A")
     = Blockchain.getBalanceOfAddress Run.funded (Some "A")
       + sumZ (map (contribution (Some "A"))
                   (Blockchain.pendingTransactions Run.funded))
       + ((if JS.strictEq (Some "M") (Some "A")
           then Blockchain.miningReward Run.funded else 0)
          - (if JS.strictEq None (Some "A")
             then Blockchain.miningReward Run.funded else 0)).
Proof.
  split; [reflexivity|].
  apply (@minePendingTransactions_balance Sha256Crypto Run.funded
           (nth 1 (Blockchain.chain Run.funded)
                (Blockchain.createGenesisBlock 0))).
  reflexivity.
Defined.


Lemma addTransaction_admits_duplicates_witness :
  (Blockchain.getLatestBlock Run.funded
     = nth_error (Blockchain.chain Run.funded) 1
   /\ rejected Run.funded Run.unsigned = false)
  /\ exists once twice : Blockchain.t,
       Blockchain.addTransaction Run.unsigned Run.funded
         = Normal
             (Block.index
                (nth 1 (Blockchain.chain Run.funded)
                     (Blockchain.createGenesisBlock 0)) + 1) once
       /\ Blockchain.addTransaction Run.unsigned once
          = Normal
              (Block.index
                 (nth 1 (Blockchain.chain Run.funded)
                      (Blockchain.createGenesisBlock 0)) + 1) twice
       /\ Blockchain.pendingTransactions twice
          = (Blockchain.pendingTransactions Run.funded
               ++ [Run.unsigned; Run.unsigned])%list.
Proof.
  assert (H1 : Blockchain.getLatestBlock Run.funded
               = Some (nth 1 (Blockchain.chain Run.funded)
                           (Blockchain.createGenesisBlock 0)))
    by reflexivity.
  assert (H2 : rejected Run.funded Run.unsigned = false) by reflexivity.
  split; [exact (conj H1 H2)|].
  exact (@addTransaction_admits_duplicates Run.funded _ Run.unsigned H1 H2).
Defined.

Lemma reward_type_transaction_mints_witness :
  (Blockchain.getLatestBlock Run.fresh
     = Some (Blockchain.createGenesisBlock 1700000000000)
   /\ Transaction.type Cases.minted = "reward"
   /\ Transaction.toAddress Cases.minted = Some "A"
   /\ "A" <> ""
   /\ 0 < Transaction.amount Cases.minted)
  /\ rejected Run.fresh Cases.minted = false
  /\ Blockchain.getBalanceOfAddress
       (final_state
          (Blockchain.minePendingTransactions "r3" 5 6 (Some "M")
             (final_state (Blockchain.addTransaction Cases.minted Run.fresh))))
       (Some "A")
     = Blockchain.getBalanceOfAddress Run.fresh (Some "A")
       + sumZ (map (contribution (Some "A"))
                   (Blockchain.pendingTransactions Run.fresh))
       + Transaction.amount Cases.minted
       + (if JS.strictEq (Some "M") (Some "A")
          then Blockchain.miningReward Run.fresh else 0).
Proof.
  assert (H1 : Blockchain.getLatestBlock Run.fresh
               = Some (Blockchain.createGenesisBlock 1700000000000))
    by reflexivity.
  assert (H2 : Transaction.type Cases.minted = "reward") by reflexivity.
  assert (H3 : Transaction.toAddress Cases.minted = Some "A")
    by reflexivity.
  assert (H4 : "A" <> "") by (apply String.eqb_neq; reflexivity).
  assert (H5 : 0 < Transaction.amount Cases.minted)
    by (apply Z.ltb_lt; reflexivity).
  assert (H6 : Transaction.fromAddress Cases.minted <> Some "A")
    by discriminate.
  split; [exact (conj H1 (conj H2 (conj H3 (conj H4 H5))))|].
  destruct (@reward_type_transaction_mints Sha256Crypto Run.fresh _
              Cases.minted "A" "r3" 5 6 (Some "M") H1 H2 H3 H4 H5)
    as (Hok & _ & Hminted).
  exact (conj Hok (Hminted H6)).
Defined.

(** ** [getTransactionsForAddress] *)

Lemma history_inner (address : option string) (block : Block.t)
    (txs : list Transaction.t) (acc : list Ledger.entry) :
  fold_left
    (fun transactions transaction =>
       if JS.strictEq (Transaction.fromAddress transaction) address
          || JS.strictEq (Transaction.toAddress transaction) address
       then
         (transactions
            ++ [Ledger.mk_entry transaction (Block.index block)
                                (Block.hash block)])%list
       else transactions)
    txs acc
  = (acc
       ++ map (fun tx =>
                 Ledger.mk_entry tx (Block.index block) (Block.hash block))
              (filter (involves address) txs))%list.
Proof.
  revert acc; induction txs as [|tx txs IH]; intros acc;
    cbn [fold_left filter map].
  - now rewrite app_nil_r.
  - rewrite IH. unfold involves at 2.
    destruct (JS.strictEq (Transaction.fromAddress tx) address
              || JS.strictEq (Transaction.toAddress tx) address);
      [|reflexivity].
    cbn [map]. now rewrite <- app_assoc.
Qed.

Lemma history_flat (this : Blockchain.t) (address : option string) :
  Ledger.getTransactionsForAddress this address
  = flat_map
      (fun block =>
         map (fun tx =>
                Ledger.mk_entry tx (Block.index block) (Block.hash block))
             (filter (involves address) (Block.transactions block)))
      (Blockchain.chain this).
Proof.
  unfold Ledger.getTransactionsForAddress.
  generalize (Blockchain.chain this) as chain.
  assert (Hgen : forall chain acc,
    fold_left
      (fun transactions block =>
         fold_left
           (fun transactions transaction =>
              if JS.strictEq (Transaction.fromAddress transaction) address
                 || JS.strictEq (Transaction.toAddress transaction) address
              then
                (transactions
                   ++ [Ledger.mk_entry transaction (Block.index block)
                                       (Block.hash block)])%list
              else transactions)
           (Block.transactions block) transactions)
      chain acc
    = (acc
         ++ flat_map
              (fun block =>
                 map (fun tx =>
                        Ledger.mk_entry tx (Block.index block)
                                        (Block.hash block))
                     (filter (involves address) (Block.transactions block)))
              chain)%list).
  { induction chain as [|block chain IH]; intros acc;
      cbn [fold_left flat_map].
    - now rewrite app_nil_r.
    - now rewrite IH, history_inner, <- app_assoc. }
  intros chain. now rewrite Hgen.
Qed.

Lemma contribution_uninvolved (address : option string)
    (tx : Transaction.t) :
  involves address tx = false -> contribution address tx = 0.
Proof.
  unfold involves, contribution. intros E.
  apply orb_false_iff in E. destruct E as [-> ->]. reflexivity.
Qed.

Lemma sumZ_filter_involves (address : option string)
    (txs : list Transaction.t) :
  sumZ (map (contribution address) (filter (involves address) txs))
  = sumZ (map (contribution address) txs).
Proof.
  induction txs as [|tx txs IH]; [reflexivity|].
  cbn [filter map]. destruct (involves address tx) eqn:E.
  - cbn [map]. unfold sumZ in *. cbn [fold_right]. now rewrite IH.
  - unfold sumZ in *. cbn [fold_right].
    rewrite IH, (contribution_uninvolved _ _ E). lia.
Qed.

(** X9.  The history returned by [getTransactionsForAddress] accounts for
    the balance: the balance of an address is the sum of what the
    transactions of its history contribute.  The history lists, in chain
    order, exactly the confirmed transactions that name the address as
    sender or recipient, each with the index and hash of its block. *)
Theorem history_accounts_for_balance :
  forall (this : Blockchain.t) (address : option string),
    Blockchain.getBalanceOfAddress this address
    = sumZ (map (fun e => contribution address (Ledger.transaction e))
                (Ledger.getTransactionsForAddress this address))
    /\ (forall e : Ledger.entry,
          In e (Ledger.getTransactionsForAddress this address)
          <-> exists block : Block.t,
                In block (Blockchain.chain this)
                /\ In (Ledger.transaction e) (Block.transactions block)
                /\ involves address (Ledger.transaction e) = true
                /\ e = Ledger.mk_entry (Ledger.transaction e)
                                       (Block.index block)
                                       (Block.hash block)).
Proof.
  intros this address. rewrite history_flat. split.
  - rewrite getBalanceOfAddress_replays. unfold replayedBalance.
    induction (Blockchain.chain this) as [|block chain IH];
      [reflexivity|].
    cbn [map flat_map]. rewrite map_app, sumZ_app, map_map.
    cbn [Ledger.transaction].
    rewrite sumZ_filter_involves, <- IH.
    unfold sumZ. cbn [fold_right]. reflexivity.
  - intros e. rewrite in_flat_map. split.
    + intros (block & Hblock & He). apply in_map_iff in He.
      destruct He as (tx & <- & Htx). apply filter_In in Htx.
      exists block. cbn [Ledger.transaction]. tauto.
    + intros (block & Hblock & Htx & Hinv & ->).
      exists block. split; [exact Hblock|].
      apply in_map_iff. exists (Ledger.transaction e).
      split; [reflexivity|]. apply filter_In. tauto.
Qed.

(** ** [Blockchain.toJSON] and [Blockchain.fromJSON] *)

Section Serialization.
Context `{Crypto}.

Lemma block_roundtrip (uuid : string) (now : Z) (block : Block.t) :
  Block.fromJSON now (Block.toJSON block) (Transaction.fromJSON uuid now)
  = block.
Proof.
  destruct block as [index timestamp previousHash transactions difficulty
                     nonce merkleRoot hash].
  assert (Htxs :
    map (Transaction.fromJSON uuid now)
        (map Transaction.toJSON transactions) = transactions).
  { induction transactions as [|tx txs IH]; [reflexivity|].
    cbn [map]. now rewrite transaction_roundtrip, IH. }
  unfold Block.fromJSON, Block.toJSON, Block.constructor.
  cbn [Block.json_index Block.json_timestamp Block.json_previousHash
       Block.json_hash Block.json_nonce Block.json_difficulty
       Block.json_merkleRoot Block.json_transactions
       Block.index Block.timestamp Block.previousHash Block.hash Block.nonce
       Block.difficulty Block.merkleRoot Block.transactions].
  rewrite Htxs.
  destruct (index =? 0); reflexivity.
Qed.

Lemma blocks_roundtrip (uuid : string) (now : Z) (chain : list Block.t) :
  map (fun blockData =>
         Block.fromJSON now blockData (Transaction.fromJSON uuid now))
      (map Block.toJSON chain)
  = chain.
Proof.
  induction chain as [|block chain IH]; [reflexivity|].
  cbn [map]. now rewrite block_roundtrip, IH.
Qed.

(** X10.  [Blockchain.fromJSON(chain.toJSON())] restores the blocks, and
    nothing else: whatever the difficulty, the reward and the mempool of
    the serialized chain were, the rebuilt one has difficulty 2, reward 50
    and an empty mempool. *)
Theorem blockchain_toJSON_fromJSON :
  forall (uuid : string) (now : Z) (this : Blockchain.t),
    let rebuilt := Ledger.fromJSON uuid now (Ledger.toJSON this) in
    Blockchain.chain rebuilt = Blockchain.chain this
    /\ Blockchain.difficulty rebuilt = 2%nat
    /\ Blockchain.miningReward rebuilt = 50
    /\ Blockchain.pendingTransactions rebuilt = [].
Proof.
  intros uuid now this rebuilt. subst rebuilt.
  unfold Ledger.fromJSON, Ledger.toJSON.
  cbn [Blockchain.chain Blockchain.difficulty Blockchain.miningReward
       Blockchain.pendingTransactions Blockchain.set_chain
       Blockchain.constructor].
  rewrite blocks_roundtrip. repeat split.
Qed.

(** X11.  On a chain without blocks, as [Blockchain.fromJSON([])] builds
    it, there is no tip: [addTransaction] of an admissible transaction and
    [minePendingTransactions] both end in a [TypeError], the first after
    the transaction has entered the mempool, the second after the reward
    has, and no block is appended. *)
Theorem blockless_chain_throws :
  forall (this : Blockchain.t) (tx : Transaction.t) (uuid : string)
         (txNow blockNow : Z) (miner : option string),
    Blockchain.chain this = [] ->
    rejected this tx = false ->
    (exists (what : string) (after : Blockchain.t),
       Blockchain.addTransaction tx this = Throw (JS.TypeError what) after
       /\ Blockchain.pendingTransactions after
          = (Blockchain.pendingTransactions this ++ [tx])%list
       /\ Blockchain.chain after = [])
    /\ (exists (what : string) (after : Blockchain.t),
          Blockchain.minePendingTransactions uuid txNow blockNow miner this
            = Throw (JS.TypeError what) after
          /\ Blockchain.pendingTransactions after
             = (Blockchain.pendingTransactions this
                  ++ [rewardOf this uuid txNow miner])%list
          /\ Blockchain.chain after = []).
Proof.
  intros this tx uuid txNow blockNow miner Hchain Hok.
  assert (Htip : Blockchain.getLatestBlock this = None).
  { unfold Blockchain.getLatestBlock. now rewrite Hchain. }
  split.
  - rewrite rejected_run in Hok. rewrite addTransaction_run, Htip.
    destruct (JS.falsy (Transaction.fromAddress tx)
              && negb (Blockchain.isReward tx)); [discriminate|].
    destruct (JS.falsy (Transaction.toAddress tx)); [discriminate|].
    destruct (Transaction.amount tx <=? 0); [discriminate|].
    destruct (negb (JS.falsy (Transaction.fromAddress tx))
              && negb (Blockchain.isReward tx)
              && (Blockchain.getBalanceOfAddress this
                    (Transaction.fromAddress tx) <? Transaction.amount tx));
      [discriminate|].
    cbv zeta. eexists; eexists. split; [reflexivity|].
    cbn [Blockchain.pendingTransactions Blockchain.chain]. now split.
  - unfold Blockchain.minePendingTransactions, Blockchain.emit, bind, get,
           modify, ret, throw.
    change (Blockchain.getLatestBlock
              (Blockchain.set_pendingTransactions _ this))
      with (Blockchain.getLatestBlock this).
    rewrite Htip. eexists; eexists. split; [reflexivity|].
    cbn [Blockchain.pendingTransactions Blockchain.chain
         Blockchain.set_pendingTransactions]. now split.
Qed.
End Serialization.

Lemma blockless_chain_throws_witness :
  (Blockchain.chain Cases.blockless = []
   /\ rejected Cases.blockless Cases.minted = false)
  /\ (exists (what : string) (after : Blockchain.t),
        Blockchain.addTransaction Cases.minted Cases.blockless
          = Throw (JS.TypeError what) after
        /\ Blockchain.pendingTransactions after
           = (Blockchain.pendingTransactions Cases.blockless
                ++ [Cases.minted])%list
        /\ Blockchain.chain after = [])
  /\ (exists (what : string) (after : Blockchain.t),
        Blockchain.minePendingTransactions "r4" 7 8 (Some "M")
                                           Cases.blockless
          = Throw (JS.TypeError what) after
        /\ Blockchain.pendingTransactions after
           = (Blockchain.pendingTransactions Cases.blockless
                ++ [rewardOf Cases.blockless "r4" 7 (Some "M")])%list
        /\ Blockchain.chain after = []).
Proof.
  assert (H1 : Blockchain.chain Cases.blockless = []) by reflexivity.
  assert (H2 : rejected Cases.blockless Cases.minted = false)
    by reflexivity.
  split; [exact (conj H1 H2)|].
  exact (@blockless_chain_throws Sha256Crypto Cases.blockless Cases.minted
           "r4" 7 8 (Some "M") H1 H2).
Defined.


(** ** The store: [saveBlockchain] and [loadBlockchain] *)

Lemma blockKey_inj (i j : nat) :
  BlockchainStorage.blockKey i = BlockchainStorage.blockKey j -> i = j.
Proof.
  unfold BlockchainStorage.blockKey. cbn [String.append].
  intros E. injection E as E.
  apply Unsigned.to_uint_inj.
  apply (f_equal NilEmpty.uint_of_string) in E.
  rewrite !NilEmpty.usu in E. now injection E.
Qed.

Lemma blockKey_eqb (i j : nat) :
  String.eqb (BlockchainStorage.blockKey i) (BlockchainStorage.blockKey j)
  = Nat.eqb i j.
Proof.
  destruct (Nat.eqb_spec i j) as [->|Hne].
  - apply String.eqb_refl.
  - apply String.eqb_neq. intros E. apply Hne. now apply blockKey_inj.
Qed.

Lemma get_saveBlocks_other (key : string) (i : nat) (blocks : list Block.t)
    (store : BlockchainStorage.db) :
  (forall k, String.eqb (BlockchainStorage.blockKey k) key = false) ->
  BlockchainStorage.get key (BlockchainStorage.saveBlocks i blocks store)
  = BlockchainStorage.get key store.
Proof.
  intros Hkey. revert i store; induction blocks as [|b blocks IH];
    intros i store; [reflexivity|].
  cbn [BlockchainStorage.saveBlocks]. rewrite IH.
  unfold BlockchainStorage.put. cbn [BlockchainStorage.get].
  now rewrite Hkey.
Qed.

Lemma get_saveBlocks_block (k i : nat) (blocks : list Block.t)
    (store : BlockchainStorage.db) (block : Block.t) :
  nth_error blocks k = Some block ->
  BlockchainStorage.get (BlockchainStorage.blockKey (i + k))
                        (BlockchainStorage.saveBlocks i blocks store)
  = Some (BlockchainStorage.BlockData (Block.toJSON block)).
Proof.
  revert k i store; induction blocks as [|b blocks IH]; intros k i store Hk.
  - destruct k; discriminate Hk.
  - cbn [BlockchainStorage.saveBlocks]. destruct k as [|k].
    + cbn [nth_error] in Hk. injection Hk as ->.
      rewrite Nat.add_0_r.
      assert (Hlater : forall blocks store,
        BlockchainStorage.get (BlockchainStorage.blockKey i)
          (BlockchainStorage.saveBlocks (S i) blocks store)
        = BlockchainStorage.get (BlockchainStorage.blockKey i) store).
      { clear. intros blocks. generalize (Nat.lt_succ_diag_r i).
        generalize (S i) as j.
        induction blocks as [|b blocks IH]; intros j Hj store;
          [reflexivity|].
        cbn [BlockchainStorage.saveBlocks]. rewrite IH by lia.
        unfold BlockchainStorage.put. cbn [BlockchainStorage.get].
        rewrite blockKey_eqb.
        destruct (Nat.eqb_spec j i); [lia | reflexivity]. }
      rewrite Hlater. unfold BlockchainStorage.put.
      cbn [BlockchainStorage.get]. now rewrite String.eqb_refl.
    + cbn [nth_error] in Hk.
      replace (i + S k)%nat with (S i + k)%nat by lia.
      now apply IH.
Qed.

Section Storage.
Context `{Crypto}.

Lemma loadBlocks_saved (uuid : string) (now : Z)
    (store : BlockchainStorage.db) (blocks : list Block.t) (i : nat)
    (acc : list Block.t) :
  (forall k block, nth_error blocks k = Some block ->
     BlockchainStorage.get (BlockchainStorage.blockKey (i + k)) store
     = Some (BlockchainStorage.BlockData (Block.toJSON block))) ->
  BlockchainStorage.loadBlocks uuid now store (List.length blocks) i acc
  = inr (acc ++ blocks)%list.
Proof.
  revert i acc; induction blocks as [|b blocks IH]; intros i acc Hget.
  - cbn [List.length BlockchainStorage.loadBlocks]. now rewrite app_nil_r.
  - cbn [List.length BlockchainStorage.loadBlocks].
    pose proof (Hget O b eq_refl) as H0. rewrite Nat.add_0_r in H0.
    rewrite H0, block_roundtrip, IH.
    + now rewrite <- app_assoc.
    + intros k block Hk.
      replace (S i + k)%nat with (i + S k)%nat by lia.
      now apply Hget.
Qed.

Lemma loadBlockchain_saved :
  forall (uuid : string) (now : Z) (this : Blockchain.t)
         (store : BlockchainStorage.db),
    BlockchainStorage.loadBlockchain uuid now
      (BlockchainStorage.saveBlockchain this store)
    = inr (Blockchain.mk (Blockchain.chain this)
                         (Blockchain.difficulty this)
                         (Blockchain.pendingTransactions this)
                         (Blockchain.miningReward this) []).
Proof.
  intros uuid now this store.
  unfold BlockchainStorage.loadBlockchain, BlockchainStorage.saveBlockchain.
  set (meta := BlockchainStorage.Metadata _ _ _).
  set (pend := BlockchainStorage.PendingData _).
  assert (Hmeta :
    BlockchainStorage.get "metadata"
      (BlockchainStorage.put "pendingTransactions" pend
         (BlockchainStorage.saveBlocks 0 (Blockchain.chain this)
            (BlockchainStorage.put "metadata" meta store)))
    = Some meta).
  { unfold BlockchainStorage.put at 1. cbn [BlockchainStorage.get].
    change (String.eqb "pendingTransactions" "metadata") with false.
    cbv iota.
    rewrite get_saveBlocks_other by (intros k; reflexivity).
    unfold BlockchainStorage.put. cbn [BlockchainStorage.get].
    reflexivity. }
  rewrite Hmeta. unfold meta at 1 2 3. cbv zeta.
  cbn [BlockchainStorage.metadataDifficulty
       BlockchainStorage.metadataMiningReward
       BlockchainStorage.metadataChainLength
       Blockchain.chain Blockchain.set_chain].
  rewrite (@loadBlocks_saved uuid now _ (Blockchain.chain this) 0 []).
  - unfold BlockchainStorage.put at 1. cbn [BlockchainStorage.get].
    change (String.eqb "pendingTransactions" "pendingTransactions")
      with true.
    cbv iota. unfold pend.
    rewrite map_map.
    replace (map (fun x => Transaction.fromJSON uuid now
                             (Transaction.toJSON x))
                 (Blockchain.pendingTransactions this))
      with (Blockchain.pendingTransactions this).
    + reflexivity.
    + induction (Blockchain.pendingTransactions this) as [|tx txs IH];
        [reflexivity|].
      cbn [map]. now rewrite transaction_roundtrip, <- IH.
  - intros k block Hk.
    unfold BlockchainStorage.put at 1. cbn [BlockchainStorage.get].
    change (String.eqb "pendingTransactions"
                       (BlockchainStorage.blockKey (0 + k))) with false.
    cbv iota. now apply get_saveBlocks_block.
Qed.

(** X12.  What [saveBlockchain] writes, [loadBlockchain] reads back: the
    loaded chain has the blocks, the difficulty, the reward and the mempool
    of the saved one, whatever the store held before (records of an
    earlier, longer chain included). *)
Theorem saveBlockchain_loadBlockchain :
  forall (uuid : string) (now : Z) (this : Blockchain.t)
         (store : BlockchainStorage.db),
    BlockchainStorage.loadBlockchain uuid now
      (BlockchainStorage.saveBlockchain this store)
    = inr (Blockchain.mk (Blockchain.chain this)
                         (Blockchain.difficulty this)
                         (Blockchain.pendingTransactions this)
                         (Blockchain.miningReward this) []).
Proof. exact loadBlockchain_saved. Qed.

(** X13.  The edges of [loadBlockchain]: a store without metadata gives a
    new chain (the genesis block, difficulty 2, reward 50, no pending
    transaction); when the metadata announce more blocks than the store
    holds, the load ends in an exception and no chain is returned. *)
Theorem loadBlockchain_edges :
  forall (uuid : string) (now : Z) (store : BlockchainStorage.db),
    (BlockchainStorage.get "metadata" store = None ->
     BlockchainStorage.loadBlockchain uuid now store
     = inr (Blockchain.constructor now None None))
    /\ (forall (d : nat) (r : Z) (n k : nat),
          BlockchainStorage.get "metadata" store
            = Some (BlockchainStorage.Metadata d r n) ->
          (k < n)%nat ->
          BlockchainStorage.get (BlockchainStorage.blockKey k) store = None ->
          exists e : JS.exn,
            BlockchainStorage.loadBlockchain uuid now store = inl e).
Proof.
  intros uuid now store. split.
  - intros Hnone. unfold BlockchainStorage.loadBlockchain.
    now rewrite Hnone.
  - intros d r n k Hmeta Hk Hmissing.
    unfold BlockchainStorage.loadBlockchain. rewrite Hmeta.
    cbn [BlockchainStorage.metadataDifficulty
         BlockchainStorage.metadataMiningReward
         BlockchainStorage.metadataChainLength].
    assert (Hloop : forall count i acc,
      (i <= k < i + count)%nat ->
      exists e, BlockchainStorage.loadBlocks uuid now store count i acc
                = inl e).
    { induction count as [|count IH]; intros i acc Hrange; [lia|].
      cbn [BlockchainStorage.loadBlocks].
      destruct (Nat.eq_dec i k) as [->|Hne].
      - rewrite Hmissing. eauto.
      - destruct (BlockchainStorage.get (BlockchainStorage.blockKey i) store)
          as [[| |]|]; eauto.
        apply IH. lia. }
    destruct (Hloop n O (Blockchain.chain
                (Blockchain.set_chain []
                   (Blockchain.constructor now (Some d) (Some r)))))
      as [e He]; [lia|].
    rewrite He. eauto.
Qed.
End Storage.

Lemma loadBlockchain_edges_witness :
  (BlockchainStorage.get "metadata" [] = None
   /\ BlockchainStorage.get "metadata"
        (BlockchainStorage.put "metadata"
           (BlockchainStorage.Metadata 2 50 1) [])
      = Some (BlockchainStorage.Metadata 2 50 1)
   /\ (0 < 1)%nat
   /\ BlockchainStorage.get (BlockchainStorage.blockKey 0)
        (BlockchainStorage.put "metadata"
           (BlockchainStorage.Metadata 2 50 1) [])
      = None)
  /\ BlockchainStorage.loadBlockchain "u" 1700000000000 []
     = inr (Blockchain.constructor 1700000000000 None None)
  /\ exists e : JS.exn,
       BlockchainStorage.loadBlockchain "u" 1700000000000
         (BlockchainStorage.put "metadata"
            (BlockchainStorage.Metadata 2 50 1) [])
       = inl e.
Proof.
  assert (H1 : BlockchainStorage.get "metadata" [] = None) by reflexivity.
  assert (H2 : BlockchainStorage.get "metadata"
        (BlockchainStorage.put "metadata"
           (BlockchainStorage.Metadata 2 50 1) [])
      = Some (BlockchainStorage.Metadata 2 50 1)) by reflexivity.
  assert (H3 : (0 < 1)%nat) by lia.
  assert (H4 : BlockchainStorage.get (BlockchainStorage.blockKey 0)
        (BlockchainStorage.put "metadata"
           (BlockchainStorage.Metadata 2 50 1) [])
      = None) by reflexivity.
  split; [exact (conj H1 (conj H2 (conj H3 H4)))|].
  split.
  - exact (proj1 (@loadBlockchain_edges Sha256Crypto "u" 1700000000000 [])
             H1).
  - exact (proj2 (@loadBlockchain_edges Sha256Crypto "u" 1700000000000
                    (BlockchainStorage.put "metadata"
                       (BlockchainStorage.Metadata 2 50 1) []))
             2%nat 50 1%nat 0%nat H2 H3 H4).
Defined.


(** ** The handlers of the peer-to-peer node *)

Section Handlers.
Context `{Crypto}.

Lemma handleNewBlock_run (this : Sync.t) (uuid : string) (now : Z)
    (blockData : Block.json) :
  Sync.handleNewBlock uuid now blockData this = Normal tt this.
Proof. reflexivity. Qed.

Lemma handleBlockchainResponse_run (this : Sync.t) (uuid : string)
    (now newNow : Z) (blockchainData : list Block.json) :
  Sync.handleBlockchainResponse uuid now newNow blockchainData this
  = Normal tt this.
Proof.
  unfold Sync.handleBlockchainResponse.
  destruct (List.length blockchainData =? 0)%nat; reflexivity.
Qed.

(** X14.  [handleNewBlock] takes no block.  Its first statement evaluates
    [Block.fromJSON], and the module binds no [Block]: the
    [ReferenceError] is caught and logged.  Whatever block is announced,
    the block a peer has just mined on the same tip included, the handler
    returns normally and the node's chain, mempool and sent messages are as
    they were, while [broadcastBlock] on the mining side does send the
    block to every peer. *)
Theorem handleNewBlock_takes_no_block :
  forall (sender receiver : Sync.t) (uuid : string) (now : Z)
         (block : Block.t),
    P2PNode.sent
      (final_state (Sync.broadcastBlock block (Sync.node sender)))
    = (P2PNode.sent (Sync.node sender)
         ++ map (fun peerId =>
                   (peerId, P2PNode.NEW_BLOCK (Block.toJSON block)))
                (P2PNode.peers (Sync.node sender)))%list
    /\ Block.fromJSON now (Block.toJSON block) (Transaction.fromJSON uuid now)
       = block
    /\ Sync.handleNewBlock uuid now (Block.toJSON block) receiver
       = Normal tt receiver
    /\ (forall blockData : Block.json,
          Sync.handleNewBlock uuid now blockData receiver
          = Normal tt receiver).
Proof.
  intros sender receiver uuid now block.
  split; [reflexivity|]. split; [apply block_roundtrip|].
  split; [apply handleNewBlock_run|].
  intros blockData. apply handleNewBlock_run.
Qed.

(** X16.  [handleBlockchainResponse] takes no chain.  Empty data are
    refused; on any other data the callback of [map] evaluates [Block],
    which the module does not bind, and the [ReferenceError] is caught and
    logged.  For every response the handler returns normally and the node's
    chain, mempool and sent messages are as they were: a block is never
    appended and the chain is never replaced. *)
Theorem handleBlockchainResponse_takes_no_chain :
  forall (this : Sync.t) (uuid : string) (now newNow : Z)
         (blockchainData : list Block.json),
    Sync.handleBlockchainResponse uuid now newNow blockchainData this
    = Normal tt this.
Proof. exact handleBlockchainResponse_run. Qed.

(** X19.  QUERY_ALL does not bring a node up to date.  [handleQueryAll]
    sends the connected asking peer one message, which carries every block
    of the answering node's chain; the asking node's
    [handleBlockchainResponse] on that answer leaves it as it was,
    whatever the two chains are. *)
Theorem handleQueryAll_answer_is_not_adopted :
  forall (server client : Sync.t) (peerId uuid : string) (now newNow : Z),
    existsb (String.eqb peerId) (P2PNode.peers (Sync.node server)) = true ->
    exists data : list Block.json,
      Sync.handleQueryAll peerId server
      = Normal tt
          (Sync.mk
             (P2PNode.mk (Sync.blockchain server)
                (P2PNode.peers (Sync.node server))
                (P2PNode.sent (Sync.node server)
                   ++ [(peerId, P2PNode.RESPONSE_BLOCKCHAIN data)]))
             (Sync.updated server))
      /\ map (fun blockData =>
                Block.fromJSON now blockData (Transaction.fromJSON uuid now))
             data
         = Blockchain.chain (Sync.blockchain server)
      /\ Sync.handleBlockchainResponse uuid now newNow data client
         = Normal tt client.
Proof.
  intros server client peerId uuid now newNow Hpeer.
  exists (Ledger.toJSON (Sync.blockchain server)).
  split; [|split].
  - unfold Sync.handleQueryAll, bind, get, Sync.liftNode, Sync.sendMessage,
           modify.
    rewrite Hpeer. reflexivity.
  - apply blocks_roundtrip.
  - apply handleBlockchainResponse_run.
Qed.

(** X20.  QUERY_LATEST does not bring a node up to date either.  On a
    chain with a tip [handleQueryLatest] sends the connected asking peer
    the tip alone (on a chain without blocks it throws a [TypeError] and
    sends nothing); the asking node's [handleBlockchainResponse] on that
    answer leaves it as it was: no block is taken and no message, no
    QUERY_ALL in particular, is sent. *)
Theorem handleQueryLatest_answer_is_dropped :
  forall (server client : Sync.t) (peerId uuid : string) (now newNow : Z)
         (serverTip : Block.t),
    existsb (String.eqb peerId) (P2PNode.peers (Sync.node server)) = true ->
    Blockchain.getLatestBlock (Sync.blockchain server) = Some serverTip ->
    Sync.handleQueryLatest peerId server
    = Normal tt
        (Sync.mk
           (P2PNode.mk (Sync.blockchain server)
              (P2PNode.peers (Sync.node server))
              (P2PNode.sent (Sync.node server)
                 ++ [(peerId,
                      P2PNode.RESPONSE_BLOCKCHAIN [Block.toJSON serverTip])]))
           (Sync.updated server))
    /\ Sync.handleBlockchainResponse uuid now newNow
         [Block.toJSON serverTip] client
       = Normal tt client
    /\ (forall blockless : Sync.t,
          Blockchain.getLatestBlock (Sync.blockchain blockless) = None ->
          exists what : string,
            Sync.handleQueryLatest peerId blockless
            = Throw (JS.TypeError what) blockless).
Proof.
  intros server client peerId uuid now newNow serverTip Hpeer Htip.
  split; [|split].
  - unfold Sync.handleQueryLatest, bind, get. rewrite Htip.
    unfold Sync.liftNode, Sync.sendMessage, modify.
    rewrite Hpeer. reflexivity.
  - apply handleBlockchainResponse_run.
  - intros blockless Hnone.
    unfold Sync.handleQueryLatest, bind, get. rewrite Hnone.
    eexists. reflexivity.
Qed.
End Handlers.

Lemma handleQueryAll_answer_is_not_adopted_witness :
  existsb (String.eqb "peer-1") (P2PNode.peers (Sync.node Cases.settled))
  = true
  /\ exists data : list Block.json,
       P2PNode.sent
         (Sync.node
            (final_state (Sync.handleQueryAll "peer-1" Cases.settled)))
       = [("peer-1", P2PNode.RESPONSE_BLOCKCHAIN data)]
       /\ map (fun blockData =>
                 Block.fromJSON 0 blockData (Transaction.fromJSON "u" 0))
              data
          = Blockchain.chain Run.funded
       /\ Sync.handleBlockchainResponse "u" 0 1 data Cases.listener
          = Normal tt Cases.listener.
Proof.
  assert (H1 : existsb (String.eqb "peer-1")
                 (P2PNode.peers (Sync.node Cases.settled)) = true)
    by reflexivity.
  split; [exact H1|].
  destruct (@handleQueryAll_answer_is_not_adopted Sha256Crypto
              Cases.settled Cases.listener "peer-1" "u" 0 1 H1)
    as (data & Hsent & Hblocks & Hclient).
  exists data. rewrite Hsent. cbn [final_state Sync.node P2PNode.sent].
  split; [reflexivity|]. split; [exact Hblocks | exact Hclient].
Defined.

Lemma handleQueryLatest_answer_is_dropped_witness :
  (existsb (String.eqb "peer-1") (P2PNode.peers (Sync.node Cases.settled))
   = true
   /\ Blockchain.getLatestBlock (Sync.blockchain Cases.settled)
      = nth_error (Blockchain.chain Run.funded) 1)
  /\ Sync.handleBlockchainResponse "u" 0 1
       [Block.toJSON (nth 1 (Blockchain.chain Run.funded)
                          (Blockchain.createGenesisBlock 0))]
       Cases.listener
     = Normal tt Cases.listener.
Proof.
  pose (serverTip := nth 1 (Blockchain.chain Run.funded)
                         (@Blockchain.createGenesisBlock Sha256Crypto 0)).
  assert (H1 : existsb (String.eqb "peer-1")
                 (P2PNode.peers (Sync.node Cases.settled)) = true)
    by reflexivity.
  assert (H2 : Blockchain.getLatestBlock (Sync.blockchain Cases.settled)
               = Some serverTip) by reflexivity.
  split; [exact (conj H1 H2)|].
  exact (proj1 (proj2 (@handleQueryLatest_answer_is_dropped Sha256Crypto
                         Cases.settled Cases.listener "peer-1" "u" 0 1
                         serverTip H1 H2))).
Defined.

(** ** The mining timer *)

Lemma secondToLast_snoc (this : Blockchain.t) (front : list Block.t)
    (tip block : Block.t) :
  Blockchain.chain this = ((front ++ [tip]) ++ [block])%list ->
  Ledger.secondToLast this = Some tip.
Proof.
  intros E. unfold Ledger.secondToLast. rewrite E, !length_app.
  cbn [List.length].
  replace (List.length front + 1 + 1 <? 2)%nat with false
    by (symmetry; apply Nat.ltb_ge; lia).
  rewrite nth_error_app1 by (rewrite length_app; cbn [List.length]; lia).
  rewrite nth_error_app2 by lia.
  replace (List.length front + 1 + 1 - 2 - List.length front)%nat with O
    by lia.
  reflexivity.
Qed.

Section Timer.
Context `{Crypto}.

(** X18.  One firing of the mining timer on a chain that has a tip returns
    normally.  It appends exactly one block, built on the tip from the
    pending transactions (or from one zero-amount transaction of type empty
    when there were none) followed by the reward, so the block never has
    fewer than two transactions; it empties the mempool, moves the
    difficulty by at most one, and what it saves loads back as the chain
    the node then holds. *)
Theorem tick_mines_and_saves :
  forall (this : Miner.t) (tip : Block.t) (minerAddress emptyId rewardId : string)
         (emptyNow rewardNow blockNow : Z),
    Blockchain.getLatestBlock (Miner.blockchain this) = Some tip ->
    exists (block : Block.t) (after : Miner.t),
      Miner.tick minerAddress emptyId rewardId emptyNow rewardNow blockNow
                 this
      = Normal block after
      /\ Blockchain.chain (Miner.blockchain after)
         = (Blockchain.chain (Miner.blockchain this) ++ [block])%list
      /\ Blockchain.pendingTransactions (Miner.blockchain after) = []
      /\ Block.index block = Block.index tip + 1
      /\ Block.previousHash block = Block.hash tip
      /\ Block.transactions block
         = (miningPool (Miner.blockchain this) minerAddress emptyId emptyNow
              ++ [rewardOf (Miner.blockchain this) rewardId rewardNow
                           (Some minerAddress)])%list
      /\ (2 <= List.length (Block.transactions block))%nat
      /\ Blockchain.miningReward (Miner.blockchain after)
         = Blockchain.miningReward (Miner.blockchain this)
      /\ (Blockchain.difficulty (Miner.blockchain after)
          = Blockchain.difficulty (Miner.blockchain this)
          \/ Blockchain.difficulty (Miner.blockchain after)
             = S (Blockchain.difficulty (Miner.blockchain this))
          \/ Blockchain.difficulty (Miner.blockchain after)
             = Nat.pred (Blockchain.difficulty (Miner.blockchain this)))
      /\ forall (uuid : string) (now : Z),
           BlockchainStorage.loadBlockchain uuid now (Miner.storage after)
           = inr (Blockchain.mk
                    (Blockchain.chain (Miner.blockchain after))
                    (Blockchain.difficulty (Miner.blockchain after))
                    []
                    (Blockchain.miningReward (Miner.blockchain after))
                    []).
Proof.
  intros [bc store] tip minerAddress emptyId rewardId emptyNow rewardNow
         blockNow Htip.
  cbn [Miner.blockchain] in *.
  set (pool := miningPool bc minerAddress emptyId emptyNow).
  set (bc1 := Blockchain.set_pendingTransactions pool bc).
  assert (Htip1 : Blockchain.getLatestBlock bc1 = Some tip) by exact Htip.
  pose proof (minePendingTransactions_run bc1 rewardId rewardNow blockNow
                (Some minerAddress) Htip1) as Hmine.
  cbv zeta in Hmine.
  set (block := minedOn bc1 tip rewardId rewardNow blockNow
                        (Some minerAddress)) in *.
  set (bc2 := Blockchain.mk _ _ _ _ _) in Hmine.
  destruct (getLatestBlock_last _ Htip) as [front Efront].
  assert (Hlast2 : Blockchain.getLatestBlock bc2 = Some block).
  { apply (@getLatestBlock_snoc bc2 (Blockchain.chain bc) block).
    reflexivity. }
  assert (Hsecond : Ledger.secondToLast bc2 = Some tip).
  { apply (@secondToLast_snoc bc2 front tip block).
    unfold bc2. cbn [Blockchain.chain]. unfold bc1.
    cbn [Blockchain.chain Blockchain.set_pendingTransactions].
    now rewrite Efront. }
  pose proof (adjustDifficulty_run bc2 None) as Hadjust.
  cbv zeta in Hadjust. rewrite Hlast2, Hsecond in Hadjust.
  destruct (minedOn_frame bc1 tip rewardId rewardNow blockNow
              (Some minerAddress)) as (Hidx & Hprev & Htxs).
  fold block in Hidx, Hprev, Htxs.
  assert (Hstep :
    exists d : nat,
      Ledger.adjustDifficulty None bc2
      = Normal d (Blockchain.set_difficulty d bc2)
      /\ (d = Blockchain.difficulty bc
          \/ d = S (Blockchain.difficulty bc)
          \/ d = Nat.pred (Blockchain.difficulty bc))).
  { rewrite Hadjust.
    destruct (Block.index block =? 0).
    { exists (Blockchain.difficulty bc). split; [reflexivity | now left]. }
    destruct (2 * (Block.timestamp block - Block.timestamp tip) <? 10000).
    { exists (S (Blockchain.difficulty bc)).
      split; [reflexivity | right; now left]. }
    destruct ((10000 * 2 <? Block.timestamp block - Block.timestamp tip)
              && (1 <? Blockchain.difficulty bc2)%nat).
    { exists (Nat.pred (Blockchain.difficulty bc)).
      split; [reflexivity | right; now right]. }
    exists (Blockchain.difficulty bc). split; [reflexivity | now left]. }
  destruct Hstep as (d & Hrun & Hd).
  set (bc3 := Blockchain.set_difficulty d bc2) in *.
  exists block, (Miner.mk bc3 (BlockchainStorage.saveBlockchain bc3 store)).
  assert (Etick :
    Miner.tick minerAddress emptyId rewardId emptyNow rewardNow blockNow
               (Miner.mk bc store)
    = Normal block
        (Miner.mk bc3 (BlockchainStorage.saveBlockchain bc3 store))).
  { unfold Miner.tick, bind, get, when, Miner.liftChain, modify, ret.
    cbn [Miner.blockchain Miner.storage].
    unfold pool, miningPool in bc1.
    destruct (List.length (Blockchain.pendingTransactions bc) =? 0)%nat
      eqn:Hempty.
    - cbn [Miner.blockchain Miner.storage].
      apply Nat.eqb_eq, length_zero_iff_nil in Hempty.
      replace (Blockchain.set_pendingTransactions
                 (Blockchain.pendingTransactions bc ++ _) bc)
        with bc1 by (unfold bc1; now rewrite Hempty).
      rewrite Hmine. cbn [Miner.blockchain Miner.storage].
      rewrite Hrun. reflexivity.
    - cbn [Miner.blockchain Miner.storage].
      replace bc with bc1 at 1 by (unfold bc1; now destruct bc).
      rewrite Hmine. cbn [Miner.blockchain Miner.storage].
      rewrite Hrun. reflexivity. }
  split; [exact Etick|].
  cbn [Miner.blockchain Miner.storage].
  split; [reflexivity|]. split; [reflexivity|].
  split; [exact Hidx|]. split; [exact Hprev|].
  split; [exact Htxs|].
  split.
  { rewrite Htxs, length_app. cbn [List.length].
    unfold bc1. cbn [Blockchain.pendingTransactions
                     Blockchain.set_pendingTransactions].
    unfold pool, miningPool.
    destruct (List.length (Blockchain.pendingTransactions bc) =? 0)%nat
      eqn:Hempty; [cbn [List.length]; lia|].
    apply Nat.eqb_neq in Hempty. lia. }
  split; [reflexivity|]. split; [exact Hd|].
  intros uuid now. apply loadBlockchain_saved.
Qed.
End Timer.


Lemma tick_mines_and_saves_witness :
  Blockchain.getLatestBlock
    (Miner.blockchain (Miner.mk Run.fresh []))
  = Some (Blockchain.createGenesisBlock 1700000000000)
  /\ exists (block : Block.t) (after : Miner.t),
       Miner.tick "A" "e1" "r1" 1700000005000 1700000005001 1700000005002
                  (Miner.mk Run.fresh [])
       = Normal block after
       /\ Blockchain.chain (Miner.blockchain after)
          = (Blockchain.chain Run.fresh ++ [block])%list
       /\ (2 <= List.length (Block.transactions block))%nat.
Proof.
  assert (H1 : Blockchain.getLatestBlock
                 (Miner.blockchain (Miner.mk Run.fresh []))
               = Some (Blockchain.createGenesisBlock 1700000000000))
    by reflexivity.
  split; [exact H1|].
  destruct (@tick_mines_and_saves Sha256Crypto (Miner.mk Run.fresh []) _
              "A" "e1" "r1" 1700000005000 1700000005001 1700000005002 H1)
    as (block & after & Hrun & Hchain & _ & _ & _ & _ & Hlen & _).
  exists block, after. exact (conj Hrun (conj Hchain Hlen)).
Defined.

(** ** Signing *)

Section Signatures.
Context `{Crypto} `{Signer} `{Ecdsa}.

(** X21.  What a wallet signs is what [isValid] checks.  When the library
    signs the hash of the new transaction, [createTransaction] returns the
    transaction with that signature; setting the signature does not change
    the transaction's hash, so [isValid] verifies the signature against
    the very hash that was signed; and the transaction cannot be signed a
    second time. *)
Theorem createTransaction_signs_what_isValid_checks :
  forall (this : Signing.wallet) (uuid : string) (now : Z)
         (toAddress : option string) (amount : Z) (signature : string),
    sign (Transaction.calculateHash
            (Transaction.constructor uuid now (Some (Signing.address this))
                                     toAddress amount None))
         (Signing.privateKey this)
    = inr signature ->
    signature <> "" ->
    Signing.address this <> "" ->
    exists transaction : Transaction.t,
      Signing.createTransaction uuid now this toAddress amount
      = inr transaction
      /\ Transaction.signature transaction = Some signature
      /\ Transaction.fromAddress transaction = Some (Signing.address this)
      /\ Transaction.calculateHash transaction
         = Transaction.calculateHash
             (Transaction.constructor uuid now
                (Some (Signing.address this)) toAddress amount None)
      /\ (forall publicKey : string,
            Transaction.isValid transaction publicKey
            = inr (verifySignature
                     (Transaction.calculateHash
                        (Transaction.constructor uuid now
                           (Some (Signing.address this)) toAddress amount
                           None))
                     signature publicKey))
      /\ (forall signingKey : string,
            Signing.signTransaction transaction signingKey
            = inl (JS.Error "这笔交易已经被签名了")).
Proof.
  intros this uuid now toAddress amount signature Hsign Hsig Haddr.
  exists (Transaction.set_signature (Some signature)
            (Transaction.constructor uuid now (Some (Signing.address this))
                                     toAddress amount None)).
  split.
  { unfold Signing.createTransaction, Signing.signTransaction.
    cbn [Transaction.constructor Transaction.type Transaction.signature
         JS.falsy negb].
    change (String.eqb "regular" "reward") with false. cbv iota.
    cbn [Transaction.constructor] in Hsign. now rewrite Hsign. }
  split; [reflexivity|]. split; [reflexivity|]. split; [reflexivity|].
  split.
  - intros publicKey. unfold Transaction.isValid.
    cbn [Transaction.constructor Transaction.set_signature Transaction.type
         Transaction.fromAddress Transaction.signature JS.falsy].
    change (String.eqb "regular" "reward") with false. cbv iota.
    rewrite (proj2 (String.eqb_neq _ _) Haddr).
    rewrite (proj2 (String.eqb_neq _ _) Hsig).
    reflexivity.
  - intros signingKey. unfold Signing.signTransaction.
    cbn [Transaction.constructor Transaction.set_signature Transaction.type
         Transaction.signature JS.falsy negb].
    change (String.eqb "regular" "reward") with false. cbv iota.
    rewrite (proj2 (String.eqb_neq _ _) Hsig). reflexivity.
Qed.
End Signatures.

Lemma createTransaction_signs_what_isValid_checks_witness :
  (@sign Cases.tagSigner
     (Transaction.calculateHash
        (Transaction.constructor "u1" 1700000013000
           (Some (Signing.address Cases.alice)) (Some "B") 5 None))
     (Signing.privateKey Cases.alice)
   = inr ("6b31:"
          ++ Transaction.calculateHash
               (Transaction.constructor "u1" 1700000013000
                  (Some (Signing.address Cases.alice)) (Some "B") 5 None))
   /\ Signing.address Cases.alice <> "")
  /\ exists transaction : Transaction.t,
       @Signing.createTransaction Sha256Crypto Cases.tagSigner
         "u1" 1700000013000 Cases.alice (Some "B") 5
       = inr transaction
       /\ @Transaction.isValid Sha256Crypto Cases.tagEcdsa transaction
            (Signing.publicKey Cases.alice)
          = inr true.
Proof.
  pose (hash := @Transaction.calculateHash Sha256Crypto
                  (Transaction.constructor "u1" 1700000013000
                     (Some (Signing.address Cases.alice)) (Some "B") 5
                     None)).
  assert (H1 : @sign Cases.tagSigner hash (Signing.privateKey Cases.alice)
               = inr ("6b31:" ++ hash)) by reflexivity.
  assert (H2 : "6b31:" ++ hash <> "") by discriminate.
  assert (H3 : Signing.address Cases.alice <> "") by discriminate.
  split; [exact (conj H1 H3)|].
  destruct (@createTransaction_signs_what_isValid_checks Sha256Crypto
              Cases.tagSigner Cases.tagEcdsa Cases.alice "u1" 1700000013000
              (Some "B") 5 ("6b31:" ++ hash) H1 H2 H3)
    as (transaction & Hcreate & _ & _ & _ & Hvalid & _).
  exists transaction. split; [exact Hcreate|].
  rewrite Hvalid. cbn [verifySignature Cases.tagEcdsa Signing.publicKey
                       Cases.alice].
  now rewrite String.eqb_refl.
Defined.


(** ** Single blocks in the store *)

Lemma loadBlocks_ext (uuid : string) (now : Z)
    (store store' : BlockchainStorage.db) (count i : nat)
    (acc : list Block.t) `{Crypto} :
  (forall k, (i <= k < i + count)%nat ->
     BlockchainStorage.get (BlockchainStorage.blockKey k) store'
     = BlockchainStorage.get (BlockchainStorage.blockKey k) store) ->
  BlockchainStorage.loadBlocks uuid now store' count i acc
  = BlockchainStorage.loadBlocks uuid now store count i acc.
Proof.
  revert i acc; induction count as [|count IH]; intros i acc Hsame;
    [reflexivity|].
  cbn [BlockchainStorage.loadBlocks].
  rewrite (Hsame i) by lia.
  destruct (BlockchainStorage.get (BlockchainStorage.blockKey i) store)
    as [[d r n | data | data]|]; try reflexivity.
  apply IH. intros k Hk. apply Hsame. lia.
Qed.

Lemma blockKey_not_name (k : nat) (name : string) :
  String.get 0 name <> Some "b"%char ->
  String.eqb (BlockchainStorage.blockKey k) name = false.
Proof.
  intros Hname. apply String.eqb_neq. intros E. apply Hname.
  rewrite <- E. reflexivity.
Qed.

Section SingleBlocks.
Context `{Crypto}.

(** X22.  [saveBlock] and [loadBlock] agree with each other but not with
    the chain's metadata: a block saved under an index is the block
    [loadBlock] returns for it, other indexes are not affected and an
    index never written makes [loadBlock] throw; but a block saved at the
    position just past a saved chain is not part of what [loadBlockchain]
    returns, since [saveBlock] leaves the recorded chain length as it
    was. *)
Theorem saveBlock_loadBlock :
  forall (uuid : string) (now : Z) (block : Block.t) (index : nat)
         (store : BlockchainStorage.db),
    BlockchainStorage.loadBlock uuid now index
      (BlockchainStorage.saveBlock block index store)
    = inr block
    /\ (forall other : nat,
          other <> index ->
          BlockchainStorage.loadBlock uuid now other
            (BlockchainStorage.saveBlock block index store)
          = BlockchainStorage.loadBlock uuid now other store)
    /\ (forall other : nat,
          BlockchainStorage.get (BlockchainStorage.blockKey other) store
          = None ->
          exists e : JS.exn,
            BlockchainStorage.loadBlock uuid now other store = inl e)
    /\ (forall this : Blockchain.t,
          BlockchainStorage.loadBlockchain uuid now
            (BlockchainStorage.saveBlock block
               (List.length (Blockchain.chain this))
               (BlockchainStorage.saveBlockchain this store))
          = BlockchainStorage.loadBlockchain uuid now
              (BlockchainStorage.saveBlockchain this store)).
Proof.
  intros uuid now block index store.
  split; [|split; [|split]].
  - unfold BlockchainStorage.loadBlock, BlockchainStorage.saveBlock,
           BlockchainStorage.put.
    cbn [BlockchainStorage.get]. rewrite String.eqb_refl.
    now rewrite block_roundtrip.
  - intros other Hother.
    unfold BlockchainStorage.loadBlock, BlockchainStorage.saveBlock,
           BlockchainStorage.put.
    cbn [BlockchainStorage.get]. rewrite blockKey_eqb.
    now rewrite (proj2 (Nat.eqb_neq index other)) by congruence.
  - intros other Hnone. unfold BlockchainStorage.loadBlock.
    rewrite Hnone. eexists; reflexivity.
  - intros this.
    set (saved := BlockchainStorage.saveBlockchain this store).
    assert (Hmeta :
      BlockchainStorage.get "metadata" saved
      = Some (BlockchainStorage.Metadata
                (Blockchain.difficulty this) (Blockchain.miningReward this)
                (List.length (Blockchain.chain this)))).
    { unfold saved, BlockchainStorage.saveBlockchain.
      unfold BlockchainStorage.put at 1. cbn [BlockchainStorage.get].
      change (String.eqb "pendingTransactions" "metadata") with false.
      cbv iota.
      rewrite get_saveBlocks_other by (intros k; reflexivity).
      unfold BlockchainStorage.put. cbn [BlockchainStorage.get].
      reflexivity. }
    unfold BlockchainStorage.loadBlockchain, BlockchainStorage.saveBlock.
    unfold BlockchainStorage.put at 1 3. cbn [BlockchainStorage.get].
    rewrite !blockKey_not_name by (cbn; discriminate).
    rewrite Hmeta. cbv zeta.
    cbn [BlockchainStorage.metadataChainLength].
    rewrite (@loadBlocks_ext uuid now saved
               (BlockchainStorage.put
                  (BlockchainStorage.blockKey
                     (List.length (Blockchain.chain this)))
                  (BlockchainStorage.BlockData (Block.toJSON block)) saved)).
    + reflexivity.
    + intros k Hk. unfold BlockchainStorage.put.
      cbn [BlockchainStorage.get]. rewrite blockKey_eqb.
      now rewrite (proj2 (Nat.eqb_neq _ k)) by lia.
Qed.
End SingleBlocks.
